(* ===== verification/_CoqProject ===== *)
-Q . S2P
Prelude.v
Calendar.v
Search.v
Models.v
Forms.v
Paginator.v
Urls.v
Views.v
Admin.v
AdminEdit.v
Site.v
Tests.v
