(* ===== verification/Prelude.v ===== *)
(** * A verification development of the blog-site Django application

    The program ([src/blog/]) is a Django app: three models
    ([models.py]: [Blog], [Author], [Comment]), one form ([forms.py]:
    [CommentForm]), six views ([views.py]: [index], the generic
    [BlogListView], [BlogDetailView], [AuthorListView],
    [AuthorDetailView], [BlogListByAuthorView], and [create_comment]
    behind [@login_required]), a route table ([urls.py]), the admin
    registrations ([admin.py]: [Author], [BlogAdmin] with its search
    box, date filter and [CommentInline], and the [Comment] admin) and
    the tests ([tests/]).  A request goes router -> view -> (form) ->
    ORM -> template; only [index] (the session's visit counter) and
    [create_comment] (one insert) change state on the public side, and
    the admin's add, change and delete views on the staff side.

    ** Files, in dependency order
    - [Prelude]: this header; the [result] error type with stdpp's monad
      notation, [http_error], the [blog] hint databases, the
      [destruct_result] tactic, list, option and string lemmas,
      [forall_range] and [enum_Z] for finite checks by computation, and
      [Py], the Python builtins the code relies on ([str.isspace],
      [str.strip], [int(str)], [str(int)]).
    - [Calendar]: Python's [datetime.date] as the admin's date filter
      and the [DateField] use it: [_ymd2ord], [_ord2ymd] statement by
      statement, [toordinal], [fromordinal], [date + timedelta] and
      [replace], with their [ValueError] and [OverflowError]; and the
      [datetime] of a [DateTimeField] as microseconds, with [combine],
      [date()], [time()] and [replace(microsecond=0)].
    - [Search]: the admin's search: [smart_split] (the regular
      expression as a scanner with fuel), [unescape_string_literal],
      [prep_for_like_query] and SQLite's [LIKE ... ESCAPE], and
      [get_search_results].
    - [Models]: the records of [models.py] (one [Module] per model, the
      source's field names), the database [Db] (one [gmap] per table and
      an auto-increment counter each), the ORM's [objects.create] and
      [save()] of an existing row with their foreign-key and one-to-one
      checks, [delete] with each foreign key's [on_delete] ([SET_NULL],
      [RESTRICT]), the default orderings of [Meta.ordering], [__str__]
      and [display_comment], the ORM as a transition system [reachable],
      and sequences of writes [run_ops].  Fixtures are the tests'
      [setUpTestData].
    - [Forms]: the form fields ([Fields]): [CharField.clean] (strip, the
      required check, [MaxLengthValidator], [ProhibitNullCharactersValidator]),
      [ModelChoiceField.clean], [DateField.clean] (Python's [strptime]
      tried with each of the eleven [DATE_INPUT_FORMATS] in turn), the
      admin's [SplitDateTimeField] for [Comment.post_date] ([DateField]
      and [TimeField], whose [strptime] over [TIME_INPUT_FORMATS] is the
      regular expression Python builds: ordered alternatives, greedy
      [\s+], month names longest first, backtracking, then the
      "unconverted data" and date checks), the widget's [strftime]
      values; and [CommentForm], the [content] field with
      [max_length=200].
    - [Paginator]: the [paginate_by] machinery of [ListView]
      ([Paginator], [paginate_queryset], the list context).
    - [Urls]: [urlpatterns] as data with the [<int:pk>] converter,
      [resolve], [reverse], [get_absolute_url], [quote] and
      [redirect_to_login].
    - [Views]: the handlers of [views.py] on an explicit [Request] record;
      each returns a [Response] and the database it leaves.
    - [Admin]: the three [ModelAdmin]s as records of their options and
      their changelists ([ChangeList.get_queryset]: the
      [DateFieldListFilter] links, the search, [Meta.ordering] completed
      with ["-pk"]) with the [list_display] cells.
    - [AdminEdit]: the admin's writes: the [ModelForm]s of the three
      registrations ([full_clean], [validate_unique] leaving out the
      edited row), the [CommentInline] formset of [BlogAdmin] (the
      [ManagementForm], each form's instance found by its [id] among the
      blog's comments, one shared instance per id that every form naming
      it writes its valid fields into during [is_valid], [DELETE],
      [has_changed], [save_existing_objects] skipping an instance an
      earlier form deleted, then [save_new_objects]; more than
      [absolute_max] forms is the [too_many_forms] error), and
      [run_admin]: [add_view], [change_view], [delete_view] and the
      [delete_selected] action on the changelist's queryset (date filter
      and search, narrowed to the ticked rows unless "select all"), each
      one all-or-nothing step on [Db] (as under [transaction.atomic]),
      made of [Models]' writes; a [str()] that raises in [delete_view]
      or [delete_selected] is a [Crash] (the 500 page).
    - [Site]: the request cycle (session middleware with a cookie-keyed
      store, the authenticated user read from the session, URL dispatch,
      a clock for [timezone.now()]) and [served_from], the transition
      system of a running site: requests of any clients interleaved with
      [AdminEdit.run_admin] steps and logins.
    - [Tests]: every test method of [tests/test_models.py],
      [tests/test_forms.py] and [tests/test_views.py] as a lemma, run on
      the model at its fixture.

    ** What is proved
    - [create_comment] (C1-C4): a valid POST by a logged-in user on an
      existing blog inserts exactly one comment (fresh key, cleaned text,
      the blog, the user, the time) and redirects to the blog's page; an
      invalid one re-renders the bound form and writes nothing; an
      anonymous request writes nothing and is sent to the login page with
      its own path as [next]; a missing blog is a 404.
    - Invariants (C5, C6, C23, C35): [wf_db] (keys below their counters,
      every non-NULL foreign key names a row, one author per user) holds
      in every reachable database and every state of a running site, by
      rule induction over [reachable] and [served_from].  Every write of
      a request or an admin view is a [Models] write of values that fit
      their fields ([AdminEdit.run_admin_ops]), so [Site.served_preserve]
      carries any property those writes keep to every state of the site:
      the type invariant [AdminEdit.fields_ok] (every text within its
      [max_length], every [post_date] a date), and [no_orphans], under
      which [str()] of every comment succeeds.
    - The form (C7, C8, C22): acceptance exactly for 1 to [max_length]
      stripped characters with no NUL; the required and max-length
      errors; a stored [post_date] shown by the split widget and
      submitted back comes back truncated to the second.
    - The data layer (C9-C14, C27, C28): [RESTRICT] blocks deleting a
      commented blog; deleting a user or an author succeeds and
      [SET_NULL] clears exactly the links to it, row by row, and keeps
      every other table; the one-to-one constraint raises
      [IntegrityError]; [Blog.objects.all()] and [blog.comment_set.all()]
      list exactly their rows, each once, newest first (NULL last) and
      oldest first (NULL first), ties by key; the admin's preview is a
      50-character prefix, and [Comment.__str__] fails exactly on a NULL
      blog.
    - Pagination and list views (C15-C19): the pages [Paginator.page]
      returns for [1 .. num_pages] exist, are non-empty and concatenate
      to the list; each page number in range gives its slice and the
      others raise [EmptyPage]; the list views show those pages, and
      blogs-by-author is a 404 for a missing author.
    - Sessions (C20): a new client's visits are shown 0, 1, 2, ...
    - URLs (C21): resolving the URL [reverse] builds gives back the
      route's view and key, for every route.
    - The admin's writes (C24-C26): saving a blog's change page writes
      that blog and touches only its comments, whatever ids the inline
      forms submit; [delete_selected] on blogs acts on the changelist's
      rows that were ticked (or all of them) and deletes all of them or,
      if one has comments, nothing; a formset of more than 2000 forms is
      an error, not a truncation, and nothing is written.
    - Search (C29, C30): the [icontains] lookup is substring search up
      to ASCII case; the blog changelist's search box refines that
      specification.
    - The admin changelist (C31-C34): it can be built exactly when today
      is after 0001-01-07 and before 9999; the "This month", "Today" and
      "Past 7 days" links select exactly the dates they name (the last
      one eight days); the rows are in a total order.
    - Liveness (C36): from every state of a running site, any blog can
      be deleted through the admin by deleting its comments first.
    - The test suite ([Tests]) holds of the model.

    ** Choices and bounds
    - Keys and counts are [nat]; dates are [Z] ordinals ([date.toordinal()],
      1 for 0001-01-01); a [DateTimeField] value is [Z] microseconds from
      0001-01-01T00:00 (UTC), and [timezone.now()] is the server clock's
      tick count read that way; [int(page)] is [Z].  Nothing in the code
      overflows a machine word; Python's date range is the bound that
      matters and is kept.  Strings are 8-bit characters read as the
      code points below 256.
    - [Search.finditer] runs on fuel [length text + 1]: every match
      consumes at least one character, so the fuel never runs out
      ([Search.smart_split_terminates]).  Every other function is structural.
    - The date theorems rest on the 400-year period of the Gregorian
      calendar: [_ord2ymd] is checked by [vm_compute] on one period
      (146097 days) and carried to all of [1 .. 9999] by a shift lemma.
      The widget round trip (C22) needs a four-digit year: glibc's [%Y]
      does not pad, and [%Y] of [strptime] reads four digits.
    - NULL sorts first ascending and last descending (SQLite, MySQL);
      rows with equal dates keep primary-key order in the views, and
      descending primary-key order in the admin (its ["-pk"]).
    - The inline formset builds at most [absolute_max = 2000] forms and
      rejects a larger [TOTAL_FORMS].
    - [Calendar], [Search]'s scanner and [LIKE], [Py] and the
      [strptime]/[strftime] engines translate Python, Django and SQLite
      library code, which is not under [src/]; they are the semantics
      of the calls the code makes, checked against the libraries'
      sources, and carry no line references of their own.
    - The project's [urls.py] (the [blog/] mount point) and Django's
      defaults ([LOGIN_URL], [DATE_INPUT_FORMATS], [TIME_INPUT_FORMATS]) are not under [src/];
      they are taken from the tests and Django.

    ** Not modelled
    Templates (not under [src/]: only the template name and context are
    kept); the admin's HTML, permissions, history log and the actions
    other than [delete_selected] (Django defines none other for these
    registrations); the authentication views and password handling
    ([login] is one step of [served_from]); time zones (UTC throughout,
    [USE_TZ] is the project's setting); and concurrency (one request at
    a time, as the specification states).  These are either outside
    [src/] or do not change the blog's data. *)

From Stdlib Require Import Ascii String ZArith DecimalString DecimalNat.
From stdpp Require Import base list gmap strings sorting.

(** ** Results: the exceptions a Django handler raises, as values *)

Inductive result (E A : Type) : Type :=
| Ok (a : A)
| Err (e : E).
Arguments Ok {E A} a.
Arguments Err {E A} e.

#[export] Instance result_ret {E} : MRet (result E) := λ A a, Ok a.
#[export] Instance result_bind {E} : MBind (result E) :=
  λ A B f m, match m with Ok a => f a | Err e => Err e end.
#[export] Instance result_fmap {E} : FMap (result E) :=
  λ A B f m, match m with Ok a => Ok (f a) | Err e => Err e end.

Definition is_ok {E A} (r : result E A) : bool :=
  match r with Ok _ => true | Err _ => false end.

(** [of_option e o]: the [get_object_or_404] idiom, a lookup that raises [e]. *)
Definition of_option {E A} (e : E) (o : option A) : result E A :=
  match o with Some a => Ok a | None => Err e end.

(** [django.http.Http404], the one exception the views let escape:
    Django turns it into a 404 response. *)
Inductive http_error := Http404.

Declare Scope blog_scope.
Delimit Scope blog_scope with blog.
Notation "'raise' e" := (Err e) (at level 10) : blog_scope.
Open Scope blog_scope.

Create HintDb blog discriminated.
Create Rewrite HintDb blog_rw.

Section result_lemmas.
Context {E A B : Type}.

Lemma bind_Ok (a : A) (f : A → result E B) : (Ok a ≫= f) = f a.
Proof. reflexivity. Qed.

Lemma bind_Err (e : E) (f : A → result E B) : (Err e ≫= f) = Err e.
Proof. reflexivity. Qed.

Lemma bind_eq_Ok (m : result E A) (f : A → result E B) b :
  (m ≫= f) = Ok b ↔ ∃ a, m = Ok a ∧ f a = Ok b.
Proof. destruct m as [a'|e]; simpl; split; [eauto|intros (?&?&?); congruence|discriminate|intros (?&?&?); discriminate]. Qed.

Lemma is_ok_Ok (m : result E A) : is_ok m = true → ∃ a, m = Ok a.
Proof. destruct m; [by eexists|discriminate]. Qed.

Lemma of_option_Ok (e : E) (o : option A) a : of_option e o = Ok a ↔ o = Some a.
Proof. destruct o; simpl; split; congruence. Qed.

Lemma of_option_Err (e e' : E) (o : option A) : of_option e o = Err e' ↔ o = None ∧ e = e'.
Proof. destruct o; simpl; split; [discriminate|intros []; discriminate|intros H; injection H; auto|intros [_ ->]; reflexivity]. Qed.
End result_lemmas.

#[export] Hint Rewrite @bind_Ok @bind_Err : blog_rw.

(** ** Lists: counting and filtering, shared by the queries and the invariants *)

Lemma length_filter_le {A} (P : A → Prop) `{∀ x, Decision (P x)} (l : list A) :
  length (filter P l) ≤ length l.
Proof. induction l as [|x l IH]; simpl; [lia|]. rewrite filter_cons. case_decide; simpl; lia. Qed.

Lemma Forall_filter_P {A} (P : A → Prop) `{∀ x, Decision (P x)} (l : list A) :
  Forall P (filter P l).
Proof. apply Forall_forall. intros x Hx. by apply list_elem_of_filter in Hx as []. Qed.

#[export] Hint Resolve Forall_filter_P : blog.

(** The first alternative that succeeds, as a regular expression's
    [|] tries them. *)
Fixpoint first_some {A} (l : list (option A)) : option A :=
  match l with
  | [] => None
  | Some a :: _ => Some a
  | None :: l' => first_some l'
  end.

Lemma first_some_Some {A} (l : list (option A)) a : first_some l = Some a → Some a ∈ l.
Proof.
  induction l as [|[b|] l IH]; simpl; [done| |].
  - intros [= ->]. apply elem_of_cons. by left.
  - intros H. apply elem_of_cons. right. by apply IH.
Qed.

(** [forall_range f i k]: [f] holds on the [k] integers from [i]; a
    finite check that [vm_compute] decides. *)
Fixpoint forall_range (f : Z → bool) (i : Z) (k : nat) : bool :=
  match k with
  | O => true
  | S k' => f i && forall_range f (Z.succ i) k'
  end.

Lemma forall_range_spec f i k :
  forall_range f i k = true → ∀ r, (i ≤ r < i + Z.of_nat k)%Z → f r = true.
Proof.
  revert i. induction k as [|k IH]; simpl; intros i Hk r Hr; [lia|].
  apply andb_prop in Hk as [Hi Hk].
  destruct (Z.eq_dec r i) as [->|]; [done|]. apply (IH (Z.succ i)); [done|lia].
Qed.

(** The [k] integers from [i], for case analysis on a small range. *)
Fixpoint Z_seq (i : Z) (k : nat) : list Z :=
  match k with O => [] | S k' => i :: Z_seq (Z.succ i) k' end.

Lemma elem_of_Z_seq i k r : (i ≤ r < i + Z.of_nat k)%Z → r ∈ Z_seq i k.
Proof.
  revert i. induction k as [|k IH]; simpl; intros i Hr; [lia|].
  destruct (Z.eq_dec r i) as [->|]; [by left|]. right. apply IH. lia.
Qed.

(** [case_in H]: one goal per element of the concrete list [H] ranges
    over, with the element substituted. *)
Ltac case_in H :=
  match type of H with
  | _ ∈ [] => by apply elem_of_nil in H
  | _ ∈ _ :: _ => apply elem_of_cons in H; destruct H as [->|H]; [|case_in H]
  end.

(** [enum_Z x i k]: case analysis on [x] in [i .. i + k - 1]. *)
Ltac enum_Z x i k :=
  let H := fresh in
  assert (H : x ∈ Z_seq i k) by (apply elem_of_Z_seq; lia);
  let l := eval vm_compute in (Z_seq i k) in change (x ∈ l) in H; case_in H.

(** [destruct_result]: case on every [match] on a result or option in a
    hypothesis that equates it to a constructor, the step every handler
    proof starts with. *)
Ltac destruct_result :=
  repeat match goal with
  | H : context [match ?m with Ok _ => _ | Err _ => _ end] |- _ =>
      let E := fresh "E" in destruct m eqn:E; try discriminate H
  | H : context [match ?m with Some _ => _ | None => _ end] |- _ =>
      let E := fresh "E" in destruct m eqn:E; try discriminate H
  end; simplify_eq.

(** ** Python string builtins

    A Python [str] is modelled as a [string], a sequence of 8-bit
    characters read as the code points U+0000 to U+00FF; the code does
    not depend on characters above them. *)
Module Py.

(** [str.isspace] on the code points below 256. *)
Definition isspace (c : ascii) : bool :=
  let n := Ascii.nat_of_ascii c in
  ((9 <=? n) && (n <=? 13)) || ((28 <=? n) && (n <=? 32)) || (n =? 133) || (n =? 160).

Fixpoint lstrip (l : list ascii) : list ascii :=
  match l with
  | [] => []
  | c :: l' => if isspace c then lstrip l' else l
  end.

(** [str.strip()]: leading and trailing whitespace removed. *)
Definition strip (s : string) : string :=
  String.string_of_list_ascii
    (reverse (lstrip (reverse (lstrip (String.list_ascii_of_string s))))).

Definition no_lead_space (l : list ascii) : Prop :=
  match l with [] => True | c :: _ => isspace c = false end.

Lemma lstrip_spec l :
  ∃ ws, l = ws ++ lstrip l ∧ Forall (λ c, isspace c = true) ws ∧ no_lead_space (lstrip l).
Proof.
  induction l as [|c l (ws & Hl & Hws & Hno)]; simpl; [by exists []|].
  destruct (isspace c) eqn:Hc.
  - exists (c :: ws). simpl. rewrite <- Hl. auto.
  - exists []. simpl. auto.
Qed.

Lemma no_lead_space_app l1 l2 : l1 ≠ [] → no_lead_space (l1 ++ l2) → no_lead_space l1.
Proof. by destruct l1. Qed.

Lemma lstrip_nospace l : no_lead_space l → lstrip l = l.
Proof. destruct l as [|c l]; simpl; [done|]. by intros ->. Qed.

(** A string with no whitespace at either end is its own [strip]. *)
Lemma strip_nospace l :
  no_lead_space l → no_lead_space (reverse l) →
  strip (String.string_of_list_ascii l) = String.string_of_list_ascii l.
Proof.
  intros H1 H2. unfold strip. rewrite String.list_ascii_of_string_of_list_ascii.
  by rewrite (lstrip_nospace l H1), (lstrip_nospace _ H2), reverse_involutive.
Qed.

(** [strip] removes exactly a whitespace prefix and a whitespace
    suffix, and what it returns neither starts nor ends with
    whitespace. *)
Theorem strip_spec s :
  ∃ ws1 ws2, String.list_ascii_of_string s =
               ws1 ++ String.list_ascii_of_string (strip s) ++ ws2 ∧
    Forall (λ c, isspace c = true) (ws1 ++ ws2) ∧
    no_lead_space (String.list_ascii_of_string (strip s)) ∧
    no_lead_space (reverse (String.list_ascii_of_string (strip s))).
Proof.
  unfold strip. rewrite String.list_ascii_of_string_of_list_ascii.
  destruct (lstrip_spec (String.list_ascii_of_string s)) as (ws1 & H1 & Hws1 & Hno1).
  remember (lstrip (String.list_ascii_of_string s)) as m eqn:Em; clear Em.
  destruct (lstrip_spec (reverse m)) as (ws2 & H2 & Hws2 & Hno2).
  remember (lstrip (reverse m)) as n eqn:En; clear En.
  assert (Hm : m = reverse n ++ reverse ws2).
  { by rewrite <- reverse_app, <- H2, reverse_involutive. }
  exists ws1, (reverse ws2). split_and!.
  - by rewrite H1, Hm at 1.
  - apply Forall_app. split; [done|]. by apply Forall_reverse.
  - destruct (decide (n = [])) as [->|Hne]; [done|].
    apply (no_lead_space_app _ (reverse ws2)); [|by rewrite <- Hm].
    intros Hr. apply Hne. by rewrite <- (reverse_involutive n), Hr.
  - by rewrite reverse_involutive.
Qed.

Definition is_digit (c : ascii) : bool :=
  let n := Ascii.nat_of_ascii c in (48 <=? n) && (n <=? 57).

Definition digit_value (c : ascii) : Z := Z.of_nat (Ascii.nat_of_ascii c - 48).

(** The digits of a base-10 literal, with single underscores allowed
    between digits; [prev] says the last character read was a digit. *)
Fixpoint parse_digits (l : list ascii) (acc : Z) (prev : bool) : option Z :=
  match l with
  | [] => if prev then Some acc else None
  | c :: l' =>
      if is_digit c then parse_digits l' (10 * acc + digit_value c) true
      else if Ascii.eqb c "_"%char && prev then parse_digits l' acc false
      else None
  end.

(** [int(s)] on a [str]: surrounding whitespace, one optional sign, then
    the digits; [None] is the [ValueError]. *)
Definition int (s : string) : option Z :=
  match String.list_ascii_of_string (strip s) with
  | "-"%char :: l => Z.opp <$> parse_digits l 0 false
  | "+"%char :: l => parse_digits l 0 false
  | l => parse_digits l 0 false
  end.

(** [str(n)] on a non-negative [int]: its decimal digits. *)
Definition str (n : nat) : string := NilZero.string_of_uint (Nat.to_uint n).

End Py.

(** ** Strings: the equations of [String.append] the proofs rewrite with *)

Lemma string_app_nil_r (s : string) : String.append s EmptyString = s.
Proof.
  induction s as [|c s IH]; [done|].
  change (String c (String.append s EmptyString) = String c s). by rewrite IH.
Qed.

Lemma string_app_assoc (s1 s2 s3 : string) :
  String.append s1 (String.append s2 s3) = String.append (String.append s1 s2) s3.
Proof.
  induction s1 as [|c s1 IH]; [done|].
  change (String c (String.append s1 (String.append s2 s3)) =
          String c (String.append (String.append s1 s2) s3)). by rewrite IH.
Qed.

Lemma list_ascii_of_string_app (s1 s2 : string) :
  String.list_ascii_of_string (String.append s1 s2) =
  String.list_ascii_of_string s1 ++ String.list_ascii_of_string s2.
Proof.
  induction s1 as [|c s1 IH]; [done|].
  change (c :: String.list_ascii_of_string (String.append s1 s2) =
          c :: String.list_ascii_of_string s1 ++ String.list_ascii_of_string s2). by rewrite IH.
Qed.

#[export] Hint Rewrite string_app_nil_r list_ascii_of_string_app : blog_rw.

Lemma NilEmpty_digits (d : Decimal.uint) :
  Forall (λ c, Py.is_digit c = true) (String.list_ascii_of_string (NilEmpty.string_of_uint d)).
Proof. induction d; simpl; constructor; auto. Qed.

(** [str(n)] is a non-empty run of decimal digits. *)
Lemma Py_str_digits n :
  Forall (λ c, Py.is_digit c = true) (String.list_ascii_of_string (Py.str n)) ∧
  String.list_ascii_of_string (Py.str n) ≠ [].
Proof.
  unfold Py.str, NilZero.string_of_uint.
  destruct (Nat.to_uint n) as [] eqn:E; simpl; (split; [|discriminate]);
    try (constructor; [reflexivity|apply NilEmpty_digits]).
  constructor; [reflexivity|constructor].
Qed.

Lemma to_uint_nonnil n : Nat.to_uint n ≠ Decimal.Nil.
Proof.
  intros H. pose proof (DecimalNat.Unsigned.of_to n) as E.
  rewrite H in E. simpl in E. subst n. discriminate H.
Qed.

(** [int(str(n)) == n] for the digits the [int] converter reads. *)
Lemma Py_str_of_uint n : Nat.of_uint <$> NilZero.uint_of_string (Py.str n) = Some n.
Proof.
  unfold Py.str. rewrite NilZero.usu by apply to_uint_nonnil.
  simpl. by rewrite DecimalNat.Unsigned.of_to.
Qed.
