(* ===== verification/Calendar.v ===== *)
(** * Calendar: the proleptic Gregorian calendar of Python's [datetime]

    [Blog.post_date] is a [models.DateField]: the admin's date filter
    ([list_filter = ['post_date']] in [src/blog/admin.py]) computes
    today, tomorrow, the first of the month and of the year with
    [datetime.date], [date.replace] and [timedelta].  This file is
    CPython's [datetime] module on dates ([_is_leap], [_days_before_year],
    [_days_in_month], [_days_before_month], [_ymd2ord], [_ord2ymd] and the
    range checks of the [date] constructor), on Python's unbounded
    integers ([Z], [divmod] as [Z.div]/[Z.modulo]: the divisors are
    positive).  A date is stored as its ordinal ([date.toordinal()],
    1 for 0001-01-01), which is how [Models] keeps [post_date].

    The round trips of [toordinal] and [fromordinal] are proved by
    reducing an ordinal modulo the 400-year cycle ([DI400Y] days), on
    which the calendar repeats, and checking the one cycle by
    evaluation. *)

From Stdlib Require Import ZArith Lia.
From stdpp Require Import base list.
From S2P Require Import Prelude.

Module Calendar.
Local Open Scope Z_scope.

Definition MINYEAR : Z := 1.
Definition MAXYEAR : Z := 9999.
Definition MAXORDINAL : Z := 3652059.

(** [_DAYS_IN_MONTH], with its placeholder at index 0. *)
Definition DAYS_IN_MONTH : list Z := [-1; 31; 28; 31; 30; 31; 30; 31; 31; 30; 31; 30; 31].

(** The loop that builds [_DAYS_BEFORE_MONTH] from [_DAYS_IN_MONTH[1:]]. *)
Fixpoint running_sums (dbm : Z) (l : list Z) : list Z :=
  match l with
  | [] => []
  | dim :: l' => dbm :: running_sums (dbm + dim) l'
  end.

Definition DAYS_BEFORE_MONTH : list Z := -1 :: running_sums 0 (tail DAYS_IN_MONTH).

(** [l[i]] for an index in range. *)
Definition subscript (l : list Z) (i : Z) : Z := nth (Z.to_nat i) l (-1).

Definition is_leap (year : Z) : bool :=
  (year mod 4 =? 0) && (negb (year mod 100 =? 0) || (year mod 400 =? 0)).

Definition days_before_year (year : Z) : Z :=
  let y := year - 1 in y * 365 + y / 4 - y / 100 + y / 400.

Definition days_in_month (year month : Z) : Z :=
  if (month =? 2) && is_leap year then 29 else subscript DAYS_IN_MONTH month.

Definition days_before_month (year month : Z) : Z :=
  subscript DAYS_BEFORE_MONTH month + Z.b2z ((month >? 2) && is_leap year).

Definition ymd2ord (year month day : Z) : Z :=
  days_before_year year + days_before_month year month + day.

Definition DI400Y : Z := days_before_year 401.
Definition DI100Y : Z := days_before_year 101.
Definition DI4Y : Z := days_before_year 5.

(** [_ord2ymd(n)], statement by statement. *)
Definition ord2ymd (n0 : Z) : Z * Z * Z :=
  let n := n0 - 1 in
  let n400 := n / DI400Y in let n := n mod DI400Y in
  let year := n400 * 400 + 1 in
  let n100 := n / DI100Y in let n := n mod DI100Y in
  let n4 := n / DI4Y in let n := n mod DI4Y in
  let n1 := n / 365 in let n := n mod 365 in
  let year := year + (n100 * 100 + n4 * 4 + n1) in
  if (n1 =? 4) || (n100 =? 4) then (year - 1, 12, 31)
  else
    let leapyear := (n1 =? 3) && (negb (n4 =? 24) || (n100 =? 3)) in
    let month := Z.shiftr (n + 50) 5 in
    let preceding := subscript DAYS_BEFORE_MONTH month + Z.b2z ((month >? 2) && leapyear) in
    let too_large := preceding >? n in
    let month' := if too_large then month - 1 else month in
    let preceding' :=
      if too_large
      then preceding - (subscript DAYS_IN_MONTH month' + Z.b2z ((month' =? 2) && leapyear))
      else preceding in
    (year, month', n - preceding' + 1).

(** A [datetime.date]. *)
Record date := mkdate { year : Z; month : Z; day : Z }.

#[export] Instance date_eq_dec : EqDecision date.
Proof. solve_decision. Defined.

Inductive date_error := ValueError | OverflowError.

Definition valid_ymd (y m d : Z) : bool :=
  (1 <=? m) && (m <=? 12) && (1 <=? d) && (d <=? days_in_month y m).

(** [_check_date_fields], run by [date(y, m, d)] and [date.replace]. *)
Definition mkdate_checked (y m d : Z) : result date_error date :=
  if (MINYEAR <=? y) && (y <=? MAXYEAR) && valid_ymd y m d then Ok (mkdate y m d)
  else raise ValueError.

Definition toordinal (dt : date) : Z := ymd2ord (year dt) (month dt) (day dt).

(** [date.fromordinal(n)]: [_ord2ymd], then the constructor's checks. *)
Definition fromordinal (n : Z) : result date_error date :=
  let '(y, m, d) := ord2ymd n in mkdate_checked y m d.

(** [dt + timedelta(days=k)] (and [dt - timedelta(days=-k)]). *)
Definition add_days (dt : date) (k : Z) : result date_error date :=
  let o := toordinal dt + k in
  if (0 <? o) && (o <=? MAXORDINAL) then fromordinal o else raise OverflowError.

(** [dt.replace(year=y, month=m, day=d)]. *)
Definition replace (y m d : Z) : result date_error date := mkdate_checked y m d.

(** ** Datetimes

    A [DateTimeField] value is a [datetime] in UTC ([TIME_ZONE = 'UTC']),
    kept as the number of microseconds since 0001-01-01T00:00. *)
Definition US_PER_SECOND : Z := 1000000.
Definition US_PER_DAY : Z := 86400 * US_PER_SECOND.

(** A [datetime.time]. *)
Record time := mktime { hour : Z; minute : Z; second : Z; microsecond : Z }.

#[export] Instance time_eq_dec : EqDecision time.
Proof. solve_decision. Defined.

(** [datetime.combine(d, t)]. *)
Definition combine (dt : date) (t : time) : Z :=
  (toordinal dt - 1) * US_PER_DAY +
  ((hour t * 60 + minute t) * 60 + second t) * US_PER_SECOND + microsecond t.

(** [value.date()] and [value.time()] of a stored datetime. *)
Definition date_of (v : Z) : result date_error date := fromordinal (v / US_PER_DAY + 1).

Definition time_of (v : Z) : time :=
  let r := v mod US_PER_DAY in
  mktime (r / (3600 * US_PER_SECOND)) ((r / (60 * US_PER_SECOND)) mod 60)
         ((r / US_PER_SECOND) mod 60) (r mod US_PER_SECOND).

(** [t.replace(microsecond=0)]. *)
Definition drop_microsecond (t : time) : time := mktime (hour t) (minute t) (second t) 0.

(** ** The 400-year cycle *)

Lemma DI400Y_eq : DI400Y = 146097.
Proof. reflexivity. Qed.

Lemma is_leap_shift y q : is_leap (y + 400 * q) = is_leap y.
Proof.
  unfold is_leap.
  replace ((y + 400 * q) mod 4) with (y mod 4) by (Z.div_mod_to_equations; lia).
  replace ((y + 400 * q) mod 100) with (y mod 100) by (Z.div_mod_to_equations; lia).
  replace ((y + 400 * q) mod 400) with (y mod 400) by (Z.div_mod_to_equations; lia).
  done.
Qed.

Lemma days_in_month_shift y q m : days_in_month (y + 400 * q) m = days_in_month y m.
Proof. unfold days_in_month. by rewrite is_leap_shift. Qed.

Lemma valid_ymd_shift y q m d : valid_ymd (y + 400 * q) m d = valid_ymd y m d.
Proof. unfold valid_ymd. by rewrite days_in_month_shift. Qed.

Lemma days_before_year_shift y q :
  days_before_year (y + 400 * q) = days_before_year y + DI400Y * q.
Proof. rewrite DI400Y_eq. unfold days_before_year. Z.div_mod_to_equations. lia. Qed.

Lemma ymd2ord_shift y q m d : ymd2ord (y + 400 * q) m d = ymd2ord y m d + DI400Y * q.
Proof.
  unfold ymd2ord, days_before_month. rewrite is_leap_shift, days_before_year_shift. lia.
Qed.

Lemma ord2ymd_shift n q :
  ord2ymd (n + DI400Y * q) = let '(y, m, d) := ord2ymd n in (y + 400 * q, m, d).
Proof.
  unfold ord2ymd.
  replace ((n + DI400Y * q - 1) / DI400Y) with ((n - 1) / DI400Y + q)
    by (rewrite DI400Y_eq; Z.div_mod_to_equations; lia).
  replace ((n + DI400Y * q - 1) mod DI400Y) with ((n - 1) mod DI400Y)
    by (rewrite DI400Y_eq; Z.div_mod_to_equations; lia).
  cbv zeta. repeat case_match; rewrite !pair_equal_spec; split_and!; lia.
Qed.

(** One cycle, checked by evaluation: every ordinal of the first 400
    years gives a valid date of those years, whose ordinal it is. *)
Definition cycle_ok (r : Z) : bool :=
  let '(y, m, d) := ord2ymd (r + 1) in
  (1 <=? y) && (y <=? 400) && valid_ymd y m d && (ymd2ord y m d =? r + 1).

Lemma cycle_check : forall_range cycle_ok 0 (Z.to_nat DI400Y) = true.
Proof. vm_compute. reflexivity. Qed.

Lemma cycle_ok_all r : 0 ≤ r < 146097 → cycle_ok r = true.
Proof.
  intros Hr. apply (forall_range_spec _ _ _ cycle_check).
  rewrite Z2Nat.id by (rewrite DI400Y_eq; lia). rewrite DI400Y_eq. lia.
Qed.

Lemma ord2ymd_valid n :
  1 ≤ n → let '(y, m, d) := ord2ymd n in 1 ≤ y ∧ valid_ymd y m d = true ∧ ymd2ord y m d = n.
Proof.
  intros Hn.
  assert (Hr : 0 ≤ (n - 1) mod 146097 < 146097) by (Z.div_mod_to_equations; lia).
  assert (Hq : 0 ≤ (n - 1) / 146097) by (Z.div_mod_to_equations; lia).
  assert (En : n = ((n - 1) mod 146097 + 1) + DI400Y * ((n - 1) / 146097))
    by (rewrite DI400Y_eq; Z.div_mod_to_equations; lia).
  apply cycle_ok_all in Hr.
  revert Hr Hq En. generalize ((n - 1) mod 146097) ((n - 1) / 146097). intros r q Hc Hq ->.
  rewrite ord2ymd_shift. unfold cycle_ok in Hc.
  destruct (ord2ymd (r + 1)) as [[y m] d].
  apply andb_prop in Hc as [Hc Ho]. apply andb_prop in Hc as [Hc Hv].
  apply andb_prop in Hc as [Hy _]. apply Z.leb_le in Hy. apply Z.eqb_eq in Ho.
  rewrite valid_ymd_shift, ymd2ord_shift, Ho. split_and!; [lia|done|lia].
Qed.

(** ** Years and months in order *)

Definition days_in_year (y : Z) : Z := 365 + Z.b2z (is_leap y).

Lemma days_in_year_bounds y : 365 ≤ days_in_year y ≤ 366.
Proof. unfold days_in_year. destruct (is_leap y); simpl; lia. Qed.

Lemma days_before_year_succ y : days_before_year (y + 1) = days_before_year y + days_in_year y.
Proof.
  unfold days_before_year, days_in_year, is_leap.
  destruct (Z.eqb_spec (y mod 4) 0), (Z.eqb_spec (y mod 100) 0), (Z.eqb_spec (y mod 400) 0);
    simpl; Z.div_mod_to_equations; lia.
Qed.

Lemma month_cases m : 1 ≤ m ≤ 12 →
  m = 1 ∨ m = 2 ∨ m = 3 ∨ m = 4 ∨ m = 5 ∨ m = 6 ∨ m = 7 ∨ m = 8 ∨ m = 9 ∨ m = 10 ∨ m = 11 ∨ m = 12.
Proof. lia. Qed.

Ltac by_month m :=
  let Hm := fresh in
  match goal with H : 1 ≤ m ≤ 12 |- _ => pose proof (month_cases m H) as Hm end;
  repeat destruct Hm as [->|Hm]; subst.

Lemma days_in_month_bounds y m : 1 ≤ m ≤ 12 → 28 ≤ days_in_month y m ≤ 31.
Proof. intros Hm. unfold days_in_month. by_month m; destruct (is_leap y); vm_compute; split; discriminate. Qed.

Lemma days_before_month_succ y m :
  1 ≤ m ≤ 11 → days_before_month y (m + 1) = days_before_month y m + days_in_month y m.
Proof.
  intros Hm. assert (Hm' : 1 ≤ m ≤ 12) by lia.
  unfold days_before_month, days_in_month. by_month m; [..|lia]; destruct (is_leap y); reflexivity.
Qed.

Lemma days_before_month_first y : days_before_month y 1 = 0.
Proof. reflexivity. Qed.

Lemma days_before_month_last y : days_before_month y 12 + days_in_month y 12 = days_in_year y.
Proof. unfold days_before_month, days_in_month, days_in_year. by destruct (is_leap y). Qed.

Lemma days_before_month_mono y m m' :
  1 ≤ m < m' → m' ≤ 12 → days_before_month y m + days_in_month y m ≤ days_before_month y m'.
Proof.
  intros Hm Hm'. replace m' with (m + 1 + Z.of_nat (Z.to_nat (m' - m - 1))) by lia.
  assert (Hk : m + Z.of_nat (Z.to_nat (m' - m - 1)) ≤ 11) by lia. clear Hm'.
  induction (Z.to_nat (m' - m - 1)) as [|k IH].
  - change (Z.of_nat 0) with 0. rewrite Z.add_0_r, days_before_month_succ by lia. lia.
  - replace (m + 1 + Z.of_nat (S k)) with (m + 1 + Z.of_nat k + 1) by lia.
    rewrite days_before_month_succ by lia.
    pose proof (days_in_month_bounds y (m + 1 + Z.of_nat k)). specialize (IH ltac:(lia)). lia.
Qed.

Lemma days_before_year_mono y y' :
  y < y' → days_before_year y + days_in_year y ≤ days_before_year y'.
Proof.
  intros Hy. replace y' with (y + 1 + Z.of_nat (Z.to_nat (y' - y - 1))) by lia.
  induction (Z.to_nat (y' - y - 1)) as [|k IH].
  - change (Z.of_nat 0) with 0. rewrite Z.add_0_r, days_before_year_succ. lia.
  - replace (y + 1 + Z.of_nat (S k)) with (y + 1 + Z.of_nat k + 1) by lia.
    rewrite days_before_year_succ. pose proof (days_in_year_bounds (y + 1 + Z.of_nat k)). lia.
Qed.

Lemma valid_ymd_spec y m d :
  valid_ymd y m d = true ↔ 1 ≤ m ≤ 12 ∧ 1 ≤ d ≤ days_in_month y m.
Proof. unfold valid_ymd. rewrite !andb_true_iff, !Z.leb_le. tauto. Qed.

(** The day of the year of a valid date, counted from 1. *)
Lemma ymd2ord_in_year y m d :
  valid_ymd y m d = true →
  days_before_year y < ymd2ord y m d ≤ days_before_year y + days_in_year y.
Proof.
  intros [Hm Hd]%valid_ymd_spec. unfold ymd2ord.
  pose proof (days_before_month_last y). pose proof (days_in_month_bounds y 12 ltac:(lia)).
  destruct (Z.eq_dec m 12) as [->|].
  - assert (0 ≤ days_before_month y 12) by (unfold days_before_month; destruct (is_leap y); vm_compute; discriminate). lia.
  - pose proof (days_before_month_mono y m 12 ltac:(lia) ltac:(lia)).
    assert (0 ≤ days_before_month y m).
    { destruct (Z.eq_dec m 1) as [->|]; [done|].
      pose proof (days_before_month_mono y 1 m ltac:(lia) ltac:(lia)).
      pose proof (days_in_month_bounds y 1 ltac:(lia)). rewrite days_before_month_first in *. lia. }
    lia.
Qed.

(** [_ymd2ord] is strictly increasing in the order of dates. *)
Lemma ymd2ord_lt y m d y' m' d' :
  valid_ymd y m d = true → valid_ymd y' m' d' = true →
  (y < y' ∨ (y = y' ∧ (m < m' ∨ (m = m' ∧ d < d')))) →
  ymd2ord y m d < ymd2ord y' m' d'.
Proof.
  intros Hv Hv' [Hy|[-> [Hm|[-> Hd]]]].
  - pose proof (ymd2ord_in_year y m d Hv). pose proof (ymd2ord_in_year y' m' d' Hv').
    pose proof (days_before_year_mono y y' Hy). lia.
  - apply valid_ymd_spec in Hv as [? ?]. apply valid_ymd_spec in Hv' as [? ?].
    pose proof (days_before_month_mono y' m m' ltac:(lia) ltac:(lia)). unfold ymd2ord. lia.
  - unfold ymd2ord. lia.
Qed.

Lemma ymd2ord_inj y m d y' m' d' :
  valid_ymd y m d = true → valid_ymd y' m' d' = true →
  ymd2ord y m d = ymd2ord y' m' d' → (y, m, d) = (y', m', d').
Proof.
  intros Hv Hv' E.
  destruct (Z.lt_total y y') as [Hy|[<-|Hy]];
    [|destruct (Z.lt_total m m') as [Hm|[<-|Hm]];
      [|destruct (Z.lt_total d d') as [Hd|[<-|Hd]]|]|]; try done;
    [ pose proof (ymd2ord_lt y m d y' m' d' Hv Hv')
    | pose proof (ymd2ord_lt y m d y m' d' Hv Hv')
    | pose proof (ymd2ord_lt y m d y m d' Hv Hv')
    | pose proof (ymd2ord_lt y m d' y m d Hv' Hv)
    | pose proof (ymd2ord_lt y m' d' y m d Hv' Hv)
    | pose proof (ymd2ord_lt y' m' d' y m d Hv' Hv) ]; lia.
Qed.

(** [_ord2ymd] undoes [_ymd2ord] on every valid date of a year [>= 1]. *)
Lemma ord2ymd_ymd2ord y m d :
  1 ≤ y → valid_ymd y m d = true → ord2ymd (ymd2ord y m d) = (y, m, d).
Proof.
  intros Hy Hv.
  assert (H1 : 1 ≤ ymd2ord y m d).
  { pose proof (ymd2ord_in_year y m d Hv). unfold days_before_year in *. Z.div_mod_to_equations. lia. }
  pose proof (ord2ymd_valid _ H1) as Hr. destruct (ord2ymd _) as [[y' m'] d'] eqn:E.
  destruct Hr as (_ & Hv' & Ho). by apply ymd2ord_inj.
Qed.

Lemma MAXORDINAL_eq : MAXORDINAL = ymd2ord MAXYEAR 12 31.
Proof. reflexivity. Qed.

(** ** Dates *)

(** The invariant of a [date] object: what its constructor checks. *)
Definition is_date (dt : date) : Prop :=
  MINYEAR ≤ year dt ≤ MAXYEAR ∧ valid_ymd (year dt) (month dt) (day dt) = true.

Lemma mkdate_checked_Ok y m d dt :
  mkdate_checked y m d = Ok dt ↔ dt = mkdate y m d ∧ is_date dt.
Proof.
  unfold mkdate_checked, is_date. split.
  - destruct (_ && _ && _) eqn:Hc; intros E; [|discriminate]. injection E as <-. simpl.
    apply andb_prop in Hc as [Hc Hv]. apply andb_prop in Hc as [H1 H2].
    apply Z.leb_le in H1. apply Z.leb_le in H2. auto.
  - intros (-> & [H1 H2] & Hv). simpl in *. apply Z.leb_le in H1. apply Z.leb_le in H2.
    by rewrite H1, H2, Hv.
Qed.

Lemma toordinal_bounds dt : is_date dt → 1 ≤ toordinal dt ≤ MAXORDINAL.
Proof.
  intros [Hy Hv]. rewrite MAXORDINAL_eq. unfold toordinal, MINYEAR, MAXYEAR in *. split.
  - pose proof (ymd2ord_in_year _ _ _ Hv). unfold days_before_year in *. Z.div_mod_to_equations. lia.
  - destruct (Z.eq_dec (year dt) 9999) as [E|].
    + apply valid_ymd_spec in Hv as [? Hd]. pose proof (days_in_month_bounds (year dt) (month dt)).
      destruct (Z.eq_dec (month dt) 12) as [Em|].
      * rewrite E, Em in *. unfold ymd2ord. change (days_in_month 9999 12) with 31 in Hd. lia.
      * pose proof (ymd2ord_lt _ _ _ 9999 12 31 ltac:(by apply valid_ymd_spec) eq_refl ltac:(lia)). lia.
    + pose proof (ymd2ord_lt _ _ _ 9999 12 31 Hv eq_refl ltac:(lia)). lia.
Qed.

(** [date.fromordinal(n)] succeeds exactly on [1 <= n <= MAXORDINAL],
    with the date whose ordinal is [n]. *)
Lemma fromordinal_Ok n dt :
  fromordinal n = Ok dt ↔ 1 ≤ n ≤ MAXORDINAL ∧ is_date dt ∧ toordinal dt = n.
Proof.
  unfold fromordinal. split.
  - destruct (ord2ymd n) as [[y m] d] eqn:E. intros [-> Hd]%mkdate_checked_Ok.
    assert (Hn : 1 ≤ n).
    { destruct (Z.le_gt_cases 1 n) as [|Hn]; [done|].
      destruct Hd as [Hy _]. unfold MINYEAR in Hy; simpl in Hy.
      revert E. unfold ord2ymd. rewrite DI400Y_eq. change DI100Y with 36524. change DI4Y with 1461.
      cbv zeta. intros E. repeat case_match; simplify_eq; Z.div_mod_to_equations; lia. }
    pose proof (ord2ymd_valid n Hn) as Hv. rewrite E in Hv. destruct Hv as (_ & _ & Ho).
    split_and!; [lia| |done|done]. rewrite <- Ho. by apply (toordinal_bounds (mkdate y m d)).
  - intros (Hn & Hd & <-). destruct dt as [y m d]. destruct Hd as [Hy Hv]. simpl in *.
    unfold toordinal. simpl. rewrite ord2ymd_ymd2ord by (done || unfold MINYEAR in Hy; lia).
    apply mkdate_checked_Ok. split; [done|split; done].
Qed.

Lemma fromordinal_Err n : n < 1 ∨ MAXORDINAL < n → fromordinal n = raise ValueError.
Proof.
  intros Hn. unfold fromordinal. destruct (ord2ymd n) as [[y m] d] eqn:E.
  unfold mkdate_checked. destruct (_ && _ && _) eqn:Hc; [|done].
  assert (Ok (mkdate y m d) = mkdate_checked y m d :> result date_error date) as Hk
    by (unfold mkdate_checked; by rewrite Hc).
  symmetry in Hk. assert (fromordinal n = Ok (mkdate y m d)) as Hf by (unfold fromordinal; by rewrite E).
  apply fromordinal_Ok in Hf. lia.
Qed.

(** [dt + timedelta(days=k)] on a date: the date [k] days later, or
    [OverflowError] outside [1..MAXORDINAL]. *)
Lemma add_days_Ok dt k dt' :
  add_days dt k = Ok dt' ↔ 1 ≤ toordinal dt + k ≤ MAXORDINAL ∧ is_date dt' ∧ toordinal dt' = toordinal dt + k.
Proof.
  unfold add_days. destruct (Z.ltb_spec 0 (toordinal dt + k)), (Z.leb_spec (toordinal dt + k) MAXORDINAL);
    simpl; rewrite ?fromordinal_Ok; split; try (intros; discriminate); try tauto; intros; lia.
Qed.

(** Every ordinal in range is the ordinal of a date. *)
Lemma fromordinal_total n :
  1 ≤ n ≤ MAXORDINAL → ∃ dt, fromordinal n = Ok dt ∧ toordinal dt = n.
Proof.
  intros Hn. pose proof (ord2ymd_valid n ltac:(lia)) as Hv.
  destruct (ord2ymd n) as [[y m] d] eqn:E. destruct Hv as (Hy & Hv & Ho).
  assert (y ≤ MAXYEAR).
  { unfold MAXYEAR. destruct (Z.le_gt_cases y 9999); [done|].
    pose proof (ymd2ord_lt 9999 12 31 y m d eq_refl Hv ltac:(lia)).
    rewrite MAXORDINAL_eq in Hn. unfold MAXYEAR in Hn. lia. }
  exists (mkdate y m d). split; [|done].
  unfold fromordinal. rewrite E. apply mkdate_checked_Ok. split; [done|].
  split; [unfold MINYEAR; simpl; lia|done].
Qed.

Lemma fromordinal_toordinal dt : is_date dt → fromordinal (toordinal dt) = Ok dt.
Proof. intros Hd. apply fromordinal_Ok. pose proof (toordinal_bounds dt Hd). auto. Qed.

Lemma add_days_total dt k :
  1 ≤ toordinal dt + k ≤ MAXORDINAL → ∃ dt', add_days dt k = Ok dt' ∧ toordinal dt' = toordinal dt + k.
Proof.
  intros Hk. unfold add_days.
  rewrite (proj2 (Z.ltb_lt _ _)), (proj2 (Z.leb_le _ _)) by lia. by apply fromordinal_total.
Qed.

Lemma add_days_out dt k :
  toordinal dt + k < 1 ∨ MAXORDINAL < toordinal dt + k → add_days dt k = raise OverflowError.
Proof.
  intros Hk. unfold add_days.
  destruct (Z.ltb_spec 0 (toordinal dt + k)), (Z.leb_spec (toordinal dt + k) MAXORDINAL); simpl;
    [lia|done..].
Qed.

Lemma replace_Ok y m d :
  MINYEAR ≤ y ≤ MAXYEAR → valid_ymd y m d = true → replace y m d = Ok (mkdate y m d).
Proof. intros. apply mkdate_checked_Ok. split; [done|split; done]. Qed.

Lemma replace_year_Err y m d : MAXYEAR < y → replace y m d = raise ValueError.
Proof.
  intros Hy. unfold replace, mkdate_checked.
  by rewrite (proj2 (Z.leb_gt y MAXYEAR) Hy), andb_false_r.
Qed.

(** The order of ordinals is the order of dates. *)
Lemma ymd2ord_le_iff y m d y' m' d' :
  valid_ymd y m d = true → valid_ymd y' m' d' = true →
  ymd2ord y m d ≤ ymd2ord y' m' d' ↔ y < y' ∨ (y = y' ∧ (m < m' ∨ (m = m' ∧ d ≤ d'))).
Proof.
  intros Hv Hv'. split.
  - intros Hle. destruct (Z.lt_total y y') as [|[<-|Hy]]; [by left| |].
    + destruct (Z.lt_total m m') as [|[<-|Hm]]; [by right; auto| |].
      * destruct (Z.le_gt_cases d d'); [by right; auto|].
        pose proof (ymd2ord_lt y m d' y m d Hv' Hv ltac:(lia)). lia.
      * pose proof (ymd2ord_lt y m' d' y m d Hv' Hv ltac:(lia)). lia.
    + pose proof (ymd2ord_lt y' m' d' y m d Hv' Hv ltac:(lia)). lia.
  - intros H. destruct (decide (y = y' ∧ m = m' ∧ d = d')) as [(-> & -> & ->)|Hne]; [lia|].
    pose proof (ymd2ord_lt y m d y' m' d' Hv Hv' ltac:(lia)). lia.
Qed.

(** The invariant of a [time] object. *)
Definition is_time (t : time) : Prop :=
  0 ≤ hour t ≤ 23 ∧ 0 ≤ minute t ≤ 59 ∧ 0 ≤ second t ≤ 59 ∧ 0 ≤ microsecond t < US_PER_SECOND.

Lemma time_of_combine dt t : is_time t → time_of (combine dt t) = t.
Proof.
  destruct t as [h m s us]. unfold is_time, time_of, combine, US_PER_DAY, US_PER_SECOND.
  simpl. intros (Hh & Hm & Hs & Hus). f_equal; Z.div_mod_to_equations; lia.
Qed.

Lemma date_of_combine dt t : is_date dt → is_time t → date_of (combine dt t) = Ok dt.
Proof.
  intros Hd Ht. unfold date_of.
  replace (combine dt t / US_PER_DAY + 1) with (toordinal dt); [by apply fromordinal_toordinal|].
  destruct t as [h m s us]. unfold is_time, combine, US_PER_DAY, US_PER_SECOND in *. simpl in *.
  Z.div_mod_to_equations; lia.
Qed.

Lemma time_of_is_time v : is_time (time_of v).
Proof. unfold is_time, time_of, US_PER_DAY, US_PER_SECOND. simpl. Z.div_mod_to_equations. lia. Qed.

Lemma drop_microsecond_is_time t : is_time t → is_time (drop_microsecond t).
Proof. unfold is_time, US_PER_SECOND. destruct t; simpl. lia. Qed.

(** The date and the whole seconds of a stored datetime give it back
    without its microseconds. *)
Lemma combine_time_of v dt :
  toordinal dt = v / US_PER_DAY + 1 → combine dt (drop_microsecond (time_of v)) = v - v mod US_PER_SECOND.
Proof.
  intros Ho. unfold combine, drop_microsecond, time_of. simpl. rewrite Ho.
  unfold US_PER_DAY, US_PER_SECOND. Z.div_mod_to_equations. lia.
Qed.

(** The datetime of a date and a time is in the day of the date. *)
Lemma combine_bounds dt t :
  is_time t → (toordinal dt - 1) * US_PER_DAY ≤ combine dt t < toordinal dt * US_PER_DAY.
Proof.
  destruct t as [h m s us]. unfold is_time, combine, US_PER_DAY, US_PER_SECOND. simpl. lia.
Qed.

End Calendar.
