(* ===== verification/Search.v ===== *)
(** * Search: the admin's [search_fields = ['title']]

    [BlogAdmin.search_fields = ['title']] ([src/blog/admin.py] line 16)
    makes the changelist's search box run Django's
    [ModelAdmin.get_search_results]: the query is cut into words by
    [django.utils.text.smart_split] (quoted phrases stay whole), a quoted
    word loses its quotes ([unescape_string_literal]), and each word
    becomes a [title__icontains] lookup, which SQLite runs as
    [title LIKE '%word%' ESCAPE '\'] once [prep_for_like_query] has
    escaped the word's [\], [%] and [_].  This file models the four steps
    on lists of 8-bit characters:
    - [smart_split] as the [re.finditer] loop of its regular expression:
      [match_token] is one match attempt (the quoted alternative by a
      scanner that remembers the last point where the match could end,
      then the [\S+] fallback), [finditer] the loop, with fuel;
    - [unescape_string_literal] with Python's [str.replace];
    - [prep_for_like_query] as its three [str.replace] calls;
    - [like], SQLite's [patternCompare] for [LIKE] with an escape
      character ([%], [_], the escape, ASCII-only case folding).
    The properties: the loop finishes within its fuel, and the
    [icontains] lookup refines substring search up to ASCII case. *)

From Stdlib Require Import Ascii String.
From stdpp Require Import base list strings.
From S2P Require Import Prelude.

Module Search.

Definition DQUOTE : ascii := ascii_of_nat 34.
Definition SQUOTE : ascii := ascii_of_nat 39.
Definition BACKSLASH : ascii := ascii_of_nat 92.
Definition NEWLINE : ascii := ascii_of_nat 10.
Definition PERCENT : ascii := ascii_of_nat 37.
Definition UNDERSCORE : ascii := ascii_of_nat 95.

Definition is_quote (c : ascii) : bool := Ascii.eqb c DQUOTE || Ascii.eqb c SQUOTE.

(** The class of the plain characters: neither whitespace ([\s] is
    [str.isspace]) nor one of the two quote characters. *)
Definition plain (c : ascii) : bool := negb (Py.isspace c) && negb (is_quote c).

(** ** [smart_split]

    Its expression has two alternatives.  The first is a run of plain
    characters followed by one or more quoted groups, each followed by plain characters; a group
    opened by a quote runs to the next unescaped occurrence of that
    quote, a backslash escaping any character but a newline.  A group
    that is never closed (or whose escape precedes a newline) ends the
    match after the last complete group, and with no complete group the
    alternative fails and [\S+] takes the maximal non-space run. *)
Inductive scan :=
| Lead                 (** the plain run before the first group *)
| After                (** after a complete group: the match may end here *)
| InQuote (q : ascii)  (** inside a group opened by [q] *)
| Escape (q : ascii).  (** after a backslash inside a group *)

(** [acc] holds the characters read, in reverse; [commit] the longest
    match found so far, with the input after it. *)
Fixpoint scan_quoted (st : scan) (acc l : list ascii) (commit : option (list ascii * list ascii))
    : option (list ascii * list ascii) :=
  match l with
  | [] => commit
  | c :: l' =>
      match st with
      | Lead =>
          if plain c then scan_quoted Lead (c :: acc) l' commit
          else if is_quote c then scan_quoted (InQuote c) (c :: acc) l' commit
          else commit
      | After =>
          if plain c then scan_quoted After (c :: acc) l' (Some (reverse (c :: acc), l'))
          else if is_quote c then scan_quoted (InQuote c) (c :: acc) l' commit
          else commit
      | InQuote q =>
          if Ascii.eqb c q then scan_quoted After (c :: acc) l' (Some (reverse (c :: acc), l'))
          else if Ascii.eqb c BACKSLASH then scan_quoted (Escape q) (c :: acc) l' commit
          else scan_quoted (InQuote q) (c :: acc) l' commit
      | Escape q =>
          if Ascii.eqb c NEWLINE then commit
          else scan_quoted (InQuote q) (c :: acc) l' commit
      end
  end.

(** [\S+]. *)
Fixpoint span_nonspace (l : list ascii) : list ascii * list ascii :=
  match l with
  | [] => ([], [])
  | c :: l' =>
      if Py.isspace c then ([], l)
      else let '(t, r) := span_nonspace l' in (c :: t, r)
  end.

(** One match attempt at a non-space character. *)
Definition match_token (l : list ascii) : list ascii * list ascii :=
  match scan_quoted Lead [] l None with
  | Some tr => tr
  | None => span_nonspace l
  end.

(** [for bit in smart_split_re.finditer(text): yield bit[0]]: no match
    starts at a whitespace character, so the search moves on. *)
Fixpoint finditer (fuel : nat) (l : list ascii) : option (list (list ascii)) :=
  match fuel with
  | O => None
  | S fuel' =>
      match l with
      | [] => Some []
      | c :: l' =>
          if Py.isspace c then finditer fuel' l'
          else let '(t, r) := match_token l in cons t <$> finditer fuel' r
      end
  end.

Definition smart_split (text : string) : option (list (list ascii)) :=
  let l := String.list_ascii_of_string text in finditer (S (length l)) l.

(** ** Quoted words *)

(** [s.replace(a + b, r)] for a two-character [a + b]: left to right,
    without overlaps. *)
Fixpoint replace_pair (a b r : ascii) (l : list ascii) : list ascii :=
  match l with
  | c1 :: l' =>
      match l' with
      | c2 :: l'' =>
          if Ascii.eqb c1 a && Ascii.eqb c2 b then r :: replace_pair a b r l''
          else c1 :: replace_pair a b r l'
      | [] => l
      end
  | [] => []
  end.

(** [s[1:-1]]. *)
Definition middle (l : list ascii) : list ascii := removelast (tail l).

(** [unescape_string_literal(s)]; [None] is its [ValueError]. *)
Definition unescape_string_literal (s : list ascii) : option (list ascii) :=
  match s with
  | q :: _ =>
      if is_quote q && Ascii.eqb (List.last s q) q
      then Some (replace_pair BACKSLASH BACKSLASH BACKSLASH (replace_pair BACKSLASH q q (middle s)))
      else None
  | [] => None
  end.

(** [if bit.startswith(QUOTES) and bit[0] == bit[-1]:
        bit = unescape_string_literal(bit)], where [QUOTES] are the
    double and the single quote. *)
Definition search_bit (bit : list ascii) : list ascii :=
  match bit with
  | q :: _ =>
      if is_quote q && Ascii.eqb q (List.last bit q)
      then default bit (unescape_string_literal bit) else bit
  | [] => bit
  end.

(** ** [icontains] on SQLite *)

(** [s.replace(c, r)] for a one-character [c]. *)
Fixpoint replace_char (c : ascii) (r l : list ascii) : list ascii :=
  match l with
  | [] => []
  | d :: l' => (if Ascii.eqb d c then r else [d]) ++ replace_char c r l'
  end.

(** [DatabaseOperations.prep_for_like_query]. *)
Definition prep_for_like_query (x : list ascii) : list ascii :=
  replace_char UNDERSCORE [BACKSLASH; UNDERSCORE]
    (replace_char PERCENT [BACKSLASH; PERCENT]
      (replace_char BACKSLASH [BACKSLASH; BACKSLASH] x)).

(** The [icontains] pattern [%%%s%%] around the escaped word. *)
Definition icontains_pattern (t : list ascii) : list ascii :=
  PERCENT :: prep_for_like_query t ++ [PERCENT].

(** SQLite's [sqlite3Tolower], on ASCII letters only. *)
Definition ascii_lower (c : ascii) : ascii :=
  let n := nat_of_ascii c in
  if (65 <=? n) && (n <=? 90) then ascii_of_nat (n + 32) else c.

(** Two characters match under [LIKE]: equal, or equal once folded if
    both are ASCII. *)
Definition like_char_eq (c d : ascii) : bool :=
  Ascii.eqb c d ||
  ((nat_of_ascii c <? 128) && (nat_of_ascii d <? 128) && Ascii.eqb (ascii_lower c) (ascii_lower d)).

(** [patternCompare] for [LIKE ... ESCAPE '\']: [%] matches any run,
    [_] any one character, [\] makes the next pattern character literal. *)
Fixpoint like (p s : list ascii) : bool :=
  match p with
  | [] => match s with [] => true | _ => false end
  | c :: p' =>
      if Ascii.eqb c PERCENT then
        (fix any (s : list ascii) : bool :=
           like p' s || match s with [] => false | _ :: s' => any s' end) s
      else if Ascii.eqb c UNDERSCORE then
        match s with [] => false | _ :: s' => like p' s' end
      else if Ascii.eqb c BACKSLASH then
        match p', s with
        | e :: p'', d :: s' => like_char_eq e d && like p'' s'
        | _, _ => false
        end
      else
        match s with [] => false | d :: s' => like_char_eq c d && like p' s' end
  end.

(** [value LIKE '%word%' ESCAPE '\']. *)
Definition icontains (value t : list ascii) : bool := like (icontains_pattern t) value.

(** [ModelAdmin.get_search_results(request, queryset, search_term)]:
    with search fields and a non-empty term, the rows kept are those
    where every word matches ([icontains]) at least one search field. *)
Definition get_search_results {R} (search_fields : list (R → string)) (qs : list R)
    (search_term : string) : list R :=
  if bool_decide (search_fields ≠ []) && negb (String.eqb search_term EmptyString) then
    let bits := search_bit <$> default [] (smart_split search_term) in
    filter (λ r, forallb (λ bit, existsb (λ f, icontains (String.list_ascii_of_string (f r)) bit)
                                         search_fields) bits = true) qs
  else qs.

(** ** The scanner consumes its input *)

Definition rest_shorter (n : nat) (commit : option (list ascii * list ascii)) : Prop :=
  match commit with Some (t, r) => t ≠ [] ∧ length r < n | None => True end.

Lemma scan_quoted_shorter st acc l commit n :
  length l ≤ n → rest_shorter n commit → rest_shorter n (scan_quoted st acc l commit).
Proof.
  revert st acc commit. induction l as [|c l IH]; intros st acc commit Hl Hc; [done|].
  simpl in Hl. destruct st; simpl; repeat case_match; try done; apply IH; simpl; try lia; try done;
    (split; [rewrite reverse_cons; by destruct (reverse acc)|lia]).
Qed.

Lemma span_nonspace_le l : length (span_nonspace l).2 ≤ length l.
Proof.
  induction l as [|c l IH]; simpl; [lia|].
  destruct (Py.isspace c); simpl; [lia|]. destruct (span_nonspace l); simpl in *. lia.
Qed.

(** A match at a non-space character is non-empty and leaves a shorter input. *)
Lemma match_token_shorter c l :
  Py.isspace c = false →
  (match_token (c :: l)).1 ≠ [] ∧ length (match_token (c :: l)).2 < length (c :: l).
Proof.
  intros Hc. unfold match_token.
  pose proof (scan_quoted_shorter Lead [] (c :: l) None (length (c :: l)) (le_n _) I) as H.
  destruct (scan_quoted _ _ _ _) as [[t r]|]; [done|].
  simpl. rewrite Hc. pose proof (span_nonspace_le l).
  destruct (span_nonspace l); simpl in *. split; [done|lia].
Qed.

Lemma finditer_total fuel l :
  length l < fuel → ∃ bits, finditer fuel l = Some bits ∧ Forall (λ b, b ≠ []) bits.
Proof.
  revert l. induction fuel as [|fuel IH]; intros l Hl; [lia|].
  destruct l as [|c l]; simpl; [by exists []|].
  destruct (Py.isspace c) eqn:Hc; [apply IH; simpl in Hl; lia|].
  pose proof (match_token_shorter c l Hc) as [Ht Hr].
  destruct (match_token (c :: l)) as [t r]. simpl in *.
  destruct (IH r ltac:(lia)) as (bits & -> & Hb). exists (t :: bits). split; [done|by constructor].
Qed.

(** [smart_split] terminates: the [finditer] loop, given one step
    per character of the query and one more, always finishes, and every
    word it yields is non-empty. *)
Theorem smart_split_terminates text :
  ∃ bits, smart_split text = Some bits ∧ Forall (λ b, b ≠ []) bits.
Proof. unfold smart_split. apply finditer_total. lia. Qed.

(** ** [icontains] is substring search up to ASCII case *)

Definition escape_char (c : ascii) : list ascii :=
  if Ascii.eqb c BACKSLASH || Ascii.eqb c PERCENT || Ascii.eqb c UNDERSCORE
  then [BACKSLASH; c] else [c].

Lemma replace_char_app c r l1 l2 :
  replace_char c r (l1 ++ l2) = replace_char c r l1 ++ replace_char c r l2.
Proof. induction l1 as [|d l1 IH]; simpl; [done|]. by rewrite IH, app_assoc. Qed.

Lemma prep_for_like_query_cons c t :
  prep_for_like_query (c :: t) = escape_char c ++ prep_for_like_query t.
Proof.
  unfold prep_for_like_query, escape_char. simpl (replace_char BACKSLASH _ (c :: t)).
  rewrite !replace_char_app.
  destruct (Ascii.eqb_spec c BACKSLASH) as [->|]; [reflexivity|].
  destruct (Ascii.eqb_spec c PERCENT) as [->|]; [reflexivity|].
  destruct (Ascii.eqb_spec c UNDERSCORE) as [->|]; [reflexivity|].
  simpl. repeat (rewrite (proj2 (Ascii.eqb_neq _ _)) by done; simpl). reflexivity.
Qed.

(** Every character, for the finite check below. *)
Definition all_ascii : list ascii := map ascii_of_nat (seq 0 256).

Lemma in_all_ascii c : In c all_ascii.
Proof.
  apply in_map_iff. exists (nat_of_ascii c).
  split; [apply ascii_nat_embedding|]. apply in_seq. pose proof (nat_ascii_bounded c). lia.
Qed.

Lemma like_char_eq_check :
  forallb (λ c, forallb (λ d, Bool.eqb (like_char_eq c d) (Ascii.eqb (ascii_lower c) (ascii_lower d)))
                        all_ascii) all_ascii = true.
Proof. vm_compute. reflexivity. Qed.

Lemma like_char_eq_spec c d : like_char_eq c d = true ↔ ascii_lower c = ascii_lower d.
Proof.
  pose proof like_char_eq_check as H. rewrite forallb_forall in H.
  specialize (H c (in_all_ascii c)). rewrite forallb_forall in H.
  specialize (H d (in_all_ascii d)).
  apply Bool.eqb_prop in H. rewrite H. apply Ascii.eqb_eq.
Qed.

Lemma like_percent p s :
  like (PERCENT :: p) s = true ↔ ∃ s1 s2, s = s1 ++ s2 ∧ like p s2 = true.
Proof.
  change (like (PERCENT :: p) s) with
    ((fix any (s : list ascii) : bool := like p s || match s with [] => false | _ :: s' => any s' end) s).
  induction s as [|c s IH].
  - rewrite orb_false_r. split; [intros H; by exists [], []|].
    intros ([|? ?] & s2 & E & H); [by simpl in E; subst|discriminate].
  - rewrite orb_true_iff, IH. split.
    + intros [H|(s1 & s2 & -> & H)]; [by exists [], (c :: s)|by exists (c :: s1), s2].
    + intros ([|d s1] & s2 & E & H); simpl in E; [subst; by left|].
      injection E as -> ->. right. eauto.
Qed.

Lemma like_escape_char c p s :
  like (escape_char c ++ p) s = true ↔ ∃ d s', s = d :: s' ∧ like_char_eq c d = true ∧ like p s' = true.
Proof.
  unfold escape_char.
  destruct (Ascii.eqb_spec c BACKSLASH) as [->|Hb]; [|destruct (Ascii.eqb_spec c PERCENT) as [->|Hp]];
    [| |destruct (Ascii.eqb_spec c UNDERSCORE) as [->|Hu]]; simpl;
    try (destruct s as [|d s']; simpl; [split; [discriminate|by intros (? & ? & ? & _)]|]);
    try (rewrite andb_true_iff; split; [intros []; eauto|intros (? & ? & E & ? & ?); by injection E as -> ->]).
  repeat (rewrite (proj2 (Ascii.eqb_neq _ _)) by done).
  destruct s as [|d s']; [split; [discriminate|by intros (? & ? & ? & _)]|].
  rewrite andb_true_iff. split; [intros []; eauto|intros (? & ? & E & ? & ?); by injection E as -> ->].
Qed.

Lemma like_prep t p s :
  like (prep_for_like_query t ++ p) s = true ↔
  ∃ s1 s2, s = s1 ++ s2 ∧ ascii_lower <$> s1 = ascii_lower <$> t ∧ like p s2 = true.
Proof.
  revert s. induction t as [|c t IH]; intros s.
  - simpl. split; [intros H; by exists [], s|]. intros ([|? ?] & s2 & -> & E & H); [done|discriminate].
  - rewrite prep_for_like_query_cons, <- app_assoc, like_escape_char. split.
    + intros (d & s' & -> & Hd & (s1 & s2 & -> & E & H)%IH). apply like_char_eq_spec in Hd.
      exists (d :: s1), s2. split_and!; [done|by rewrite !fmap_cons, E, Hd|done].
    + intros ([|d s1] & s2 & -> & E & H); [discriminate|]. rewrite !fmap_cons in E. injection E as Hd E.
      exists d, (s1 ++ s2). split_and!; [done|by apply like_char_eq_spec|]. apply IH. eauto.
Qed.

Lemma icontains_substring value t :
  icontains value t = true ↔ ∃ pre suf, ascii_lower <$> value = pre ++ (ascii_lower <$> t) ++ suf.
Proof.
  unfold icontains, icontains_pattern. rewrite like_percent. split.
  - intros (s1 & s2 & -> & (s21 & s22 & -> & E & _)%like_prep).
    exists (ascii_lower <$> s1), (ascii_lower <$> s22). by rewrite !fmap_app, E.
  - intros (pre & suf & E).
    apply fmap_app_inv in E as (s1 & s2' & -> & E & ->).
    symmetry in E. apply fmap_app_inv in E as (s21 & s22 & E & -> & ->).
    exists s1, (s21 ++ s22). split; [done|]. apply like_prep. exists s21, s22.
    split_and!; [done|done|]. apply like_percent. exists s22, []. by rewrite app_nil_r.
Qed.

(** C29: the [icontains] lookup refines substring search: SQLite's
    [LIKE] on the pattern Django builds (the word with [\], [%] and [_]
    escaped, between two [%]) holds exactly when the word occurs in the
    value, ignoring the case of ASCII letters. *)
Theorem icontains_spec value t :
  icontains value t = true ↔ ∃ pre suf, ascii_lower <$> value = pre ++ (ascii_lower <$> t) ++ suf.
Proof. apply icontains_substring. Qed.

(** ** The search filter *)

Lemma elem_of_get_search_results {R} (fields : list (R → string)) qs q bits r :
  smart_split q = Some bits →
  r ∈ get_search_results fields qs q ↔
  r ∈ qs ∧ (fields = [] ∨
            Forall (λ bit, ∃ f, f ∈ fields ∧ icontains (String.list_ascii_of_string (f r)) (search_bit bit) = true) bits).
Proof.
  intros Hb. unfold get_search_results.
  destruct (String.eqb_spec q EmptyString) as [->|Hq].
  - rewrite andb_false_r. vm_compute in Hb. injection Hb as <-. split; [intros; split; [done|by right]|tauto].
  - rewrite andb_true_r. destruct (bool_decide_reflect (fields ≠ [])) as [Hf|Hf]; simpl.
    + rewrite list_elem_of_filter, Hb. simpl. rewrite forallb_forall, Forall_forall.
      split; [intros [H1 H2]; split; [done|right]|intros [H1 [H2|H2]]; [done|split; [|done]]].
      * intros bit Hbit. specialize (H1 (search_bit bit) (proj1 (list_elem_of_In _ _) (list_elem_of_fmap_2 _ _ _ Hbit))).
        apply existsb_exists in H1 as (f & Hf' & Hi). exists f. split; [by apply list_elem_of_In|done].
      * intros bit' Hbit'. apply list_elem_of_In, list_elem_of_fmap in Hbit' as (bit & -> & Hbit).
        destruct (H2 bit Hbit) as (f & Hf' & Hi). apply existsb_exists. exists f.
        split; [by apply list_elem_of_In|done].
    + assert (fields = []) by (destruct fields; [done|]; exfalso; apply Hf; discriminate). tauto.
Qed.

End Search.
