(* ===== verification/Models.v ===== *)
(** * Models: the data layer of [src/blog/models.py]

    The three models [Blog], [Author] and [Comment] as records whose
    fields keep the source's names, the database as one [gmap] per table
    keyed by primary key with an auto-increment counter per table, the
    ORM operations the views and the admin call ([objects.create],
    [save()] of an existing row, [objects.count], [get], [filter],
    [delete] with the [on_delete] action each foreign key declares),
    sequences of them ([run_ops]) and the default ordering of
    [Meta.ordering].  The well-formedness invariant [wf_db] (referential
    integrity, the one-to-one constraint on [Author.name], fresh
    primary keys) is preserved by every operation.  A [DateField] value
    is the date's ordinal and a [DateTimeField] value microseconds from
    0001-01-01T00:00 ([Calendar.combine]), both in [Z]. *)

From Stdlib Require Import String.
From stdpp Require Import base list gmap strings sorting.
From S2P Require Import Prelude.

(** ** Field types *)

(** Primary keys are the positive integers of an [AutoField] ([nat]); a
    [DateField] is a day number and a [DateTimeField] a tick count,
    both [nat] and compared as integers, which is all the code does
    with them. *)

(** [django.contrib.auth.models.User]: only the username is read. *)
Module User.
Record t := mk { username : string }.
End User.

Module Blog.
Record t := mk {
  title : string;
  author : option nat;
  content : string;
  post_date : option Z           (** the date's ordinal, [date.toordinal()] *)
}.
End Blog.

Module Author.
Record t := mk {
  name : option nat;
  biography : string
}.
End Author.

Module Comment.
Record t := mk {
  blog : option nat;
  content : string;
  post_date : option Z;          (** [timezone.now()] as a tick of the server's clock *)
  author : option nat
}.
End Comment.

(** ** The database *)

Record Db := mkDb {
  users : gmap nat User.t;
  authors : gmap nat Author.t;
  blogs : gmap nat Blog.t;
  comments : gmap nat Comment.t;
  next_user : nat;
  next_author : nat;
  next_blog : nat;
  next_comment : nat
}.

Definition empty_db : Db := mkDb ∅ ∅ ∅ ∅ 1 1 1 1.

(** The errors the ORM raises on the paths the application reaches. *)
Inductive db_error :=
| IntegrityError      (** a foreign key to a missing row, or a second
                          [Author] for one [User] ([OneToOneField]) *)
| RestrictedError     (** [on_delete=models.RESTRICT] blocks a delete *)
| DoesNotExist.       (** [get] or [delete] of a missing primary key *)

(** ** Queries *)

(** The rows of a table in primary-key order: the order of an unordered
    queryset on a table with an auto-increment key. *)
Definition pk_le {A} (x y : nat * A) : Prop := x.1 ≤ y.1.
#[export] Instance pk_le_dec {A} : RelDecision (@pk_le A) := λ x y, decide (x.1 ≤ y.1).

Definition rows {A} (m : gmap nat A) : list (nat * A) :=
  merge_sort pk_le (map_to_list m).

(** SQL's [ORDER BY] on a nullable column: NULL is the smallest value
    (the SQLite and MySQL convention), so it comes first ascending and
    last descending. *)
Definition sql_le (a b : option Z) : bool :=
  match a, b with
  | None, _ => true
  | Some _, None => false
  | Some x, Some y => (x <=? y)%Z
  end.

(** [ORDER BY col] ([DESC] when [desc]) on a nullable column.  Rows
    with the same value come in the order of the table scan, ascending
    primary key (SQLite's rowid order); the SQL standard leaves it open. *)
Definition order_by {A} (desc : bool) (col : A → option Z) (x y : nat * A) : Prop :=
  if decide (col x.2 = col y.2) then x.1 ≤ y.1
  else (if desc then sql_le (col y.2) (col x.2) else sql_le (col x.2) (col y.2)) = true.

#[export] Instance order_by_dec {A} desc (col : A → option Z) : RelDecision (order_by desc col).
Proof. intros x y. unfold order_by. case_decide; apply _. Defined.

(** [Meta.ordering = ['-post_date']] of [Blog]. *)
Definition blog_ordering : nat * Blog.t → nat * Blog.t → Prop := order_by true Blog.post_date.

(** [Meta.ordering = ['post_date']] of [Comment]. *)
Definition comment_ordering : nat * Comment.t → nat * Comment.t → Prop := order_by false Comment.post_date.

(** [Blog.objects.all()]: every blog, newest post date first. *)
Definition blog_objects_all (db : Db) : list (nat * Blog.t) :=
  merge_sort blog_ordering (rows (blogs db)).

(** [Blog.objects.filter(author=target_author)]. *)
Definition blog_objects_filter_author (db : Db) (a : nat) : list (nat * Blog.t) :=
  filter (λ r : nat * Blog.t, Blog.author r.2 = Some a) (blog_objects_all db).

(** [Author.objects.all()]: no [Meta.ordering], so primary-key order. *)
Definition author_objects_all (db : Db) : list (nat * Author.t) := rows (authors db).

(** [blog.comment_set.all()]: the comments of one blog, oldest first. *)
Definition comment_set (db : Db) (b : nat) : list (nat * Comment.t) :=
  merge_sort comment_ordering
    (filter (λ r : nat * Comment.t, Comment.blog r.2 = Some b) (rows (comments db))).

(** [Blog.objects.all().count()] and [Author.objects.count()]. *)
Definition blog_count (db : Db) : nat := size (blogs db).
Definition author_count (db : Db) : nat := size (authors db).

(** ** Writes: [objects.create] and [delete] *)

(** A nullable foreign key is satisfied when it is NULL or names a row. *)
Definition fk_ok {A} (m : gmap nat A) (o : option nat) : bool :=
  match o with
  | None => true
  | Some k => match m !! k with Some _ => true | None => false end
  end.

(** The [UNIQUE] constraint of [Author.name = models.OneToOneField(User)]:
    no other author is linked to the same user (NULLs never collide). *)
Definition name_free (db : Db) (o : option nat) : bool :=
  match o with
  | None => true
  | Some u => bool_decide (map_Forall (λ _ a, Author.name a ≠ Some u) (authors db))
  end.

(** [User.objects.create_user(...)]: users have no foreign key. *)
Definition create_user (u : User.t) (db : Db) : Db * nat :=
  let k := next_user db in
  (mkDb (<[k := u]> (users db)) (authors db) (blogs db) (comments db)
        (S k) (next_author db) (next_blog db) (next_comment db), k).

(** [Author.objects.create(name=..., biography=...)]. *)
Definition create_author (a : Author.t) (db : Db) : result db_error (Db * nat) :=
  if fk_ok (users db) (Author.name a) && name_free db (Author.name a) then
    let k := next_author db in
    Ok (mkDb (users db) (<[k := a]> (authors db)) (blogs db) (comments db)
             (next_user db) (S k) (next_blog db) (next_comment db), k)
  else raise IntegrityError.

(** [Blog.objects.create(title=..., content=..., author=...)]. *)
Definition create_blog (b : Blog.t) (db : Db) : result db_error (Db * nat) :=
  if fk_ok (authors db) (Blog.author b) then
    let k := next_blog db in
    Ok (mkDb (users db) (authors db) (<[k := b]> (blogs db)) (comments db)
             (next_user db) (next_author db) (S k) (next_comment db), k)
  else raise IntegrityError.

(** [Comment.objects.create(content=..., blog=..., author=..., post_date=...)]. *)
Definition create_comment_row (c : Comment.t) (db : Db) : result db_error (Db * nat) :=
  if fk_ok (blogs db) (Comment.blog c) && fk_ok (users db) (Comment.author c) then
    let k := next_comment db in
    Ok (mkDb (users db) (authors db) (blogs db) (<[k := c]> (comments db))
             (next_user db) (next_author db) (next_blog db) (S k), k)
  else raise IntegrityError.

(** [SET_NULL] on one foreign key column. *)
Definition set_null (k : nat) (o : option nat) : option nat :=
  if decide (o = Some k) then None else o.

Definition clear_blog_author (k : nat) (b : Blog.t) : Blog.t :=
  Blog.mk (Blog.title b) (set_null k (Blog.author b)) (Blog.content b) (Blog.post_date b).
Definition clear_author_name (k : nat) (a : Author.t) : Author.t :=
  Author.mk (set_null k (Author.name a)) (Author.biography a).
Definition clear_comment_author (k : nat) (c : Comment.t) : Comment.t :=
  Comment.mk (Comment.blog c) (Comment.content c) (Comment.post_date c)
             (set_null k (Comment.author c)).

(** Deleting a blog: [Comment.blog] is [on_delete=models.RESTRICT] and no
    cascade reaches [Comment], so any comment on the blog blocks it. *)
Definition delete_blog (k : nat) (db : Db) : result db_error Db :=
  match blogs db !! k with
  | None => raise DoesNotExist
  | Some _ =>
      if bool_decide (map_Forall (λ _ c, Comment.blog c ≠ Some k) (comments db)) then
        Ok (mkDb (users db) (authors db) (delete k (blogs db)) (comments db)
                 (next_user db) (next_author db) (next_blog db) (next_comment db))
      else raise RestrictedError
  end.

(** Deleting an author: [Blog.author] is [on_delete=models.SET_NULL]. *)
Definition delete_author (k : nat) (db : Db) : result db_error Db :=
  match authors db !! k with
  | None => raise DoesNotExist
  | Some _ =>
      Ok (mkDb (users db) (delete k (authors db)) (clear_blog_author k <$> blogs db)
               (comments db) (next_user db) (next_author db) (next_blog db) (next_comment db))
  end.

(** Deleting a user: [Author.name] and [Comment.author] are both
    [on_delete=models.SET_NULL]; neither row is deleted. *)
Definition delete_user (k : nat) (db : Db) : result db_error Db :=
  match users db !! k with
  | None => raise DoesNotExist
  | Some _ =>
      Ok (mkDb (delete k (users db)) (clear_author_name k <$> authors db) (blogs db)
               (clear_comment_author k <$> comments db)
               (next_user db) (next_author db) (next_blog db) (next_comment db))
  end.

(** Deleting a comment: nothing refers to comments. *)
Definition delete_comment (k : nat) (db : Db) : result db_error Db :=
  match comments db !! k with
  | None => raise DoesNotExist
  | Some _ =>
      Ok (mkDb (users db) (authors db) (blogs db) (delete k (comments db))
               (next_user db) (next_author db) (next_blog db) (next_comment db))
  end.

(** [instance.save()] of a row the caller has just fetched: an [UPDATE]
    of every column, under the constraints the insert checks.  A key
    with no row is [DoesNotExist] (the admin fetches the row first). *)
Definition update_blog (k : nat) (b : Blog.t) (db : Db) : result db_error Db :=
  match blogs db !! k with
  | None => raise DoesNotExist
  | Some _ =>
      if fk_ok (authors db) (Blog.author b) then
        Ok (mkDb (users db) (authors db) (<[k := b]> (blogs db)) (comments db)
                 (next_user db) (next_author db) (next_blog db) (next_comment db))
      else raise IntegrityError
  end.

(** The [UNIQUE] constraint when row [k] itself is rewritten: no other
    author is linked to the same user. *)
Definition name_free_except (db : Db) (k : nat) (o : option nat) : bool :=
  match o with
  | None => true
  | Some u => bool_decide (map_Forall (λ j a, j = k ∨ Author.name a ≠ Some u) (authors db))
  end.

Definition update_author (k : nat) (a : Author.t) (db : Db) : result db_error Db :=
  match authors db !! k with
  | None => raise DoesNotExist
  | Some _ =>
      if fk_ok (users db) (Author.name a) && name_free_except db k (Author.name a) then
        Ok (mkDb (users db) (<[k := a]> (authors db)) (blogs db) (comments db)
                 (next_user db) (next_author db) (next_blog db) (next_comment db))
      else raise IntegrityError
  end.

Definition update_comment (k : nat) (c : Comment.t) (db : Db) : result db_error Db :=
  match comments db !! k with
  | None => raise DoesNotExist
  | Some _ =>
      if fk_ok (blogs db) (Comment.blog c) && fk_ok (users db) (Comment.author c) then
        Ok (mkDb (users db) (authors db) (blogs db) (<[k := c]> (comments db))
                 (next_user db) (next_author db) (next_blog db) (next_comment db))
      else raise IntegrityError
  end.

(** ** The well-formedness invariant *)

(** Every key of a table is a positive integer below the table's counter. *)
Definition keys_lt {A} (m : gmap nat A) (n : nat) : Prop :=
  map_Forall (λ k _, 0 < k < n) m.

(** A foreign-key column satisfies its constraint. *)
Definition fk {A} (m : gmap nat A) (o : option nat) : Prop := fk_ok m o = true.

Record wf_db (db : Db) : Prop := {
  wf_next_user : 0 < next_user db;
  wf_next_author : 0 < next_author db;
  wf_next_blog : 0 < next_blog db;
  wf_next_comment : 0 < next_comment db;
  wf_keys_users : keys_lt (users db) (next_user db);
  wf_keys_authors : keys_lt (authors db) (next_author db);
  wf_keys_blogs : keys_lt (blogs db) (next_blog db);
  wf_keys_comments : keys_lt (comments db) (next_comment db);
  wf_author_name : map_Forall (λ _ a, fk (users db) (Author.name a)) (authors db);
  wf_author_unique : ∀ k1 k2 a1 a2 u,
    authors db !! k1 = Some a1 → authors db !! k2 = Some a2 →
    Author.name a1 = Some u → Author.name a2 = Some u → k1 = k2;
  wf_blog_author : map_Forall (λ _ b, fk (authors db) (Blog.author b)) (blogs db);
  wf_comment_blog : map_Forall (λ _ c, fk (blogs db) (Comment.blog c)) (comments db);
  wf_comment_author : map_Forall (λ _ c, fk (users db) (Comment.author c)) (comments db)
}.

Lemma fk_Some {A} (m : gmap nat A) k : fk m (Some k) ↔ is_Some (m !! k).
Proof. unfold fk, fk_ok. destruct (m !! k); split; try done; by intros []. Qed.

Section table_lemmas.
Context {A B : Type}.
Implicit Types (m : gmap nat A) (o : option nat).

Lemma keys_lt_fresh m n : keys_lt m n → m !! n = None.
Proof.
  intros Hk. destruct (m !! n) eqn:E; [|done].
  apply Hk in E. lia.
Qed.

Lemma keys_lt_insert m n (v : A) : 0 < n → keys_lt m n → keys_lt (<[n := v]> m) (S n).
Proof.
  intros Hn Hk. apply map_Forall_insert_2; [lia|].
  eapply map_Forall_impl; [exact Hk|]. simpl. lia.
Qed.

Lemma keys_lt_delete m n k : keys_lt m n → keys_lt (delete k m) n.
Proof. apply map_Forall_delete. Qed.

Lemma keys_lt_fmap m n (f : A → B) : keys_lt m n → keys_lt (f <$> m) n.
Proof. intros Hk. apply map_Forall_fmap. exact Hk. Qed.

Lemma fk_insert m k (v : A) o : fk m o → fk (<[k := v]> m) o.
Proof.
  destruct o as [j|]; [|done]. rewrite !fk_Some. intros Hj.
  rewrite lookup_insert. case_decide; [done|exact Hj].
Qed.

Lemma fk_delete m k o : fk m o → o ≠ Some k → fk (delete k m) o.
Proof.
  destruct o as [j|]; [|done]. rewrite !fk_Some. intros Hj Hne.
  rewrite lookup_delete_ne; [exact Hj|congruence].
Qed.

Lemma fk_fmap m (f : A → B) o : fk (f <$> m) o ↔ fk m o.
Proof.
  destruct o as [j|]; [|done]. rewrite !fk_Some, lookup_fmap.
  destruct (m !! j); simpl; [split; eauto|split; intros []; discriminate].
Qed.

Lemma fk_set_null m k o : fk m o → fk (delete k m) (set_null k o).
Proof.
  intros H. unfold set_null. case_decide; [done|]. by apply fk_delete.
Qed.
End table_lemmas.

#[export] Hint Resolve keys_lt_insert keys_lt_delete keys_lt_fmap
  fk_insert fk_set_null : blog.

Lemma map_Forall_fk_insert {A C} (t : gmap nat C) (g : C → option nat) (m : gmap nat A) k v :
  map_Forall (λ _ x, fk m (g x)) t → map_Forall (λ _ x, fk (<[k := v]> m) (g x)) t.
Proof. intros H. eapply map_Forall_impl; [exact H|]. eauto using fk_insert. Qed.

Lemma set_null_Some k o u : set_null k o = Some u → o = Some u.
Proof. unfold set_null. case_decide; congruence. Qed.

#[export] Hint Resolve map_Forall_fk_insert map_Forall_delete : blog.

(** The lookups an insertion at a fresh key leaves alone. *)
Lemma lookup_insert_fresh {A} (m : gmap nat A) n k v x :
  keys_lt m n → <[n := v]> m !! k = Some x → k = n ∧ v = x ∨ k ≠ n ∧ m !! k = Some x.
Proof. intros _. rewrite lookup_insert. case_decide; naive_solver. Qed.

Lemma create_user_wf u db : wf_db db → wf_db (create_user u db).1.
Proof. intros []; constructor; simpl; eauto with blog. Qed.

Lemma create_author_wf a db db' k :
  wf_db db → create_author a db = Ok (db', k) → wf_db db'.
Proof.
  unfold create_author. intros [] Hc.
  destruct (fk_ok _ _) eqn:Hfk, (name_free _ _) eqn:Hfree; simplify_eq/=.
  constructor; simpl; eauto with blog.
  - by apply map_Forall_insert_2.
  - intros k1 k2 a1 a2 u H1 H2 Hu1 Hu2.
    apply lookup_insert_fresh in H1 as [[-> <-]|[Hne1 H1]],
          H2 as [[-> <-]|[Hne2 H2]]; eauto; exfalso;
      unfold name_free in Hfree; [rewrite Hu1 in Hfree|rewrite Hu2 in Hfree];
      apply bool_decide_eq_true in Hfree; eapply Hfree; eauto.
Qed.

Lemma create_blog_wf b db db' k :
  wf_db db → create_blog b db = Ok (db', k) → wf_db db'.
Proof.
  unfold create_blog. intros [] Hc.
  destruct (fk_ok _ _) eqn:Hfk; simplify_eq/=.
  constructor; simpl; eauto with blog. by apply map_Forall_insert_2.
Qed.

Lemma create_comment_row_wf c db db' k :
  wf_db db → create_comment_row c db = Ok (db', k) → wf_db db'.
Proof.
  unfold create_comment_row. intros [] Hc.
  destruct (fk_ok _ _) eqn:Hb, (fk_ok (users db) _) eqn:Hu; simplify_eq/=.
  constructor; simpl; eauto with blog; by apply map_Forall_insert_2.
Qed.

Lemma delete_blog_wf k db db' : wf_db db → delete_blog k db = Ok db' → wf_db db'.
Proof.
  unfold delete_blog. intros [] Hd. destruct_result.
  case_bool_decide as Hfree; simplify_eq/=.
  constructor; simpl; eauto with blog.
  - by apply map_Forall_delete.
  - intros j c Hj. apply fk_delete; [by apply wf_comment_blog0 in Hj|by apply (Hfree j)].
Qed.

Lemma map_Forall_fmap_impl {A B} (P : nat → A → Prop) (Q : nat → B → Prop)
    (f : A → B) (m : gmap nat A) :
  map_Forall P m → (∀ k x, P k x → Q k (f x)) → map_Forall Q (f <$> m).
Proof. intros HP HPQ. apply map_Forall_fmap. intros k x Hx. by apply HPQ, HP. Qed.

Lemma delete_author_wf k db db' : wf_db db → delete_author k db = Ok db' → wf_db db'.
Proof.
  unfold delete_author. intros [] Hd. destruct_result.
  constructor; simpl; eauto with blog.
  - by apply map_Forall_delete.
  - intros k1 k2 a1 a2 u H1 H2.
    apply lookup_delete_Some in H1 as [_ H1], H2 as [_ H2]. eauto.
  - apply (map_Forall_fmap_impl _ _ _ _ wf_blog_author0). intros. by apply fk_set_null.
  - eapply map_Forall_impl; [exact wf_comment_blog0|]. intros. by apply fk_fmap.
Qed.

Lemma delete_user_wf k db db' : wf_db db → delete_user k db = Ok db' → wf_db db'.
Proof.
  unfold delete_user. intros [] Hd. destruct_result.
  constructor; simpl; eauto with blog.
  - apply (map_Forall_fmap_impl _ _ _ _ wf_author_name0). intros. by apply fk_set_null.
  - intros k1 k2 a1 a2 u H1 H2 Hu1 Hu2.
    rewrite lookup_fmap in H1, H2.
    destruct (authors db !! k1) as [a1'|] eqn:E1, (authors db !! k2) as [a2'|] eqn:E2;
      simplify_eq/=.
    apply set_null_Some in Hu1, Hu2. eauto.
  - eapply map_Forall_impl; [exact wf_blog_author0|]. intros. by apply fk_fmap.
  - apply (map_Forall_fmap_impl _ _ _ _ wf_comment_blog0). done.
  - apply (map_Forall_fmap_impl _ _ _ _ wf_comment_author0). intros. by apply fk_set_null.
Qed.

Lemma delete_comment_wf k db db' : wf_db db → delete_comment k db = Ok db' → wf_db db'.
Proof.
  unfold delete_comment. intros [] Hd. destruct_result.
  constructor; simpl; eauto with blog; by apply map_Forall_delete.
Qed.

(** Rewriting an existing key keeps the keys below the counter. *)
Lemma keys_lt_insert_existing {A} (m : gmap nat A) n k (v w : A) :
  m !! k = Some w → keys_lt m n → keys_lt (<[k := v]> m) n.
Proof. intros Hk Hl. apply map_Forall_insert_2; [by apply Hl in Hk|exact Hl]. Qed.

#[export] Hint Resolve keys_lt_insert_existing : blog.

Lemma update_blog_wf k b db db' : wf_db db → update_blog k b db = Ok db' → wf_db db'.
Proof.
  unfold update_blog. intros [] Hu. destruct (blogs db !! k) eqn:Hk; [|discriminate].
  destruct (fk_ok _ _) eqn:Hfk; simplify_eq/=.
  constructor; simpl; eauto with blog. by apply map_Forall_insert_2.
Qed.

Lemma update_comment_wf k c db db' : wf_db db → update_comment k c db = Ok db' → wf_db db'.
Proof.
  unfold update_comment. intros [] Hu. destruct (comments db !! k) eqn:Hk; [|discriminate].
  destruct (fk_ok _ _) eqn:Hb, (fk_ok (users db) _) eqn:Hu'; simplify_eq/=.
  constructor; simpl; eauto with blog; by apply map_Forall_insert_2.
Qed.

Lemma update_author_wf k a db db' : wf_db db → update_author k a db = Ok db' → wf_db db'.
Proof.
  unfold update_author. intros [] Hu. destruct (authors db !! k) eqn:Hk; [|discriminate].
  destruct (fk_ok _ _) eqn:Hfk, (name_free_except _ _ _) eqn:Hfree; simplify_eq/=.
  constructor; simpl; eauto with blog.
  - by apply map_Forall_insert_2.
  - assert (Hother : ∀ j a' u, j ≠ k → authors db !! j = Some a' → Author.name a' = Some u →
                     Author.name a = Some u → False).
    { intros j a' u Hj Ha' Hu1 Hu2. unfold name_free_except in Hfree. rewrite Hu2 in Hfree.
      apply bool_decide_eq_true in Hfree. by destruct (Hfree j a' Ha'). }
    intros k1 k2 a1 a2 u H1 H2 Hu1 Hu2. rewrite lookup_insert in H1, H2.
    case_decide as E1; case_decide as E2; simplify_eq; eauto; exfalso; eauto.
Qed.

(** ** The ORM as a transition system *)

(** The writes the application and its admin site perform. *)
Inductive orm_op :=
| CreateUser (u : User.t)
| CreateAuthor (a : Author.t)
| CreateBlog (b : Blog.t)
| CreateComment (c : Comment.t)
| DeleteUser (k : nat)
| DeleteAuthor (k : nat)
| DeleteBlog (k : nat)
| DeleteComment (k : nat)
| UpdateAuthor (k : nat) (a : Author.t)
| UpdateBlog (k : nat) (b : Blog.t)
| UpdateComment (k : nat) (c : Comment.t).

Definition run_op (op : orm_op) (db : Db) : result db_error Db :=
  match op with
  | CreateUser u => Ok (create_user u db).1
  | CreateAuthor a => fst <$> create_author a db
  | CreateBlog b => fst <$> create_blog b db
  | CreateComment c => fst <$> create_comment_row c db
  | DeleteUser k => delete_user k db
  | DeleteAuthor k => delete_author k db
  | DeleteBlog k => delete_blog k db
  | DeleteComment k => delete_comment k db
  | UpdateAuthor k a => update_author k a db
  | UpdateBlog k b => update_blog k b db
  | UpdateComment k c => update_comment k c db
  end.

(** The databases a fresh installation can reach. *)
Inductive reachable : Db → Prop :=
| reachable_empty : reachable empty_db
| reachable_step db op db' : reachable db → run_op op db = Ok db' → reachable db'.

Lemma fmap_fst_Ok {E A B} (r : result E (A * B)) a :
  fst <$> r = Ok a → ∃ b, r = Ok (a, b).
Proof. destruct r as [[]|]; simpl; intros H; simplify_eq; eauto. Qed.

Lemma run_op_wf op db db' : wf_db db → run_op op db = Ok db' → wf_db db'.
Proof.
  intros Hwf. destruct op; simpl; intros Hr;
    try (apply fmap_fst_Ok in Hr as [k Hr]); simplify_eq.
  - by apply create_user_wf.
  - by eapply create_author_wf.
  - by eapply create_blog_wf.
  - by eapply create_comment_row_wf.
  - by eapply delete_user_wf.
  - by eapply delete_author_wf.
  - by eapply delete_blog_wf.
  - by eapply delete_comment_wf.
  - by eapply update_author_wf.
  - by eapply update_blog_wf.
  - by eapply update_comment_wf.
Qed.

Lemma empty_db_wf : wf_db empty_db.
Proof. constructor; simpl; try lia; try apply map_Forall_empty. intros ????? H. done. Qed.

Lemma wf_of_reachable db : reachable db → wf_db db.
Proof.
  induction 1; [apply empty_db_wf|]. by eapply run_op_wf.
Qed.

(** C6: every reachable database is well formed: each primary key is
    below its table's counter, every non-NULL foreign key names an
    existing row, and no two authors share a user. *)
Theorem reachable_wf db : reachable db → wf_db db.
Proof. apply wf_of_reachable. Qed.

(** ** Referential actions *)

(** C9: deleting an existing blog fails with [RestrictedError] exactly
    when some comment still refers to it, and otherwise removes only
    that blog. *)
Theorem delete_blog_restrict k db b :
  blogs db !! k = Some b →
  (delete_blog k db = raise RestrictedError ↔
     ∃ j c, comments db !! j = Some c ∧ Comment.blog c = Some k) ∧
  (∀ db', delete_blog k db = Ok db' →
     blogs db' = delete k (blogs db) ∧ comments db' = comments db).
Proof.
  intros Hb. unfold delete_blog. rewrite Hb. split.
  - case_bool_decide as Hfree.
    + split; [discriminate|]. intros (j & c & Hj & Hc). exfalso. by apply (Hfree j c).
    + split; [intros _|done].
      apply map_not_Forall in Hfree as (j & c & Hj & Hc); [|intros ??; apply _].
      exists j, c. split; [done|]. by apply dec_stable.
  - intros db'. case_bool_decide; intros ?; simplify_eq/=; done.
Qed.

(** C10: deleting an existing user ([on_delete=SET_NULL] on
    [Author.name] and [Comment.author]) always succeeds, removes only that
    user, keeps every author, blog and comment, and empties exactly the
    links that named the user. *)
Theorem delete_user_set_null k u db :
  users db !! k = Some u →
  ∃ db', delete_user k db = Ok db' ∧
    users db' = delete k (users db) ∧
    authors db' = (λ a, if decide (Author.name a = Some k) then Author.mk None (Author.biography a) else a)
                    <$> authors db ∧
    blogs db' = blogs db ∧
    comments db' = (λ c, if decide (Comment.author c = Some k)
                         then Comment.mk (Comment.blog c) (Comment.content c) (Comment.post_date c) None
                         else c) <$> comments db.
Proof.
  intros Hu. unfold delete_user. rewrite Hu. eexists. split; [reflexivity|]. simpl.
  split_and!; [done| |done|]; apply map_fmap_ext; intros j x _;
    [unfold clear_author_name|unfold clear_comment_author]; unfold set_null; case_decide; by destruct x.
Qed.

(** C11: deleting an existing author ([on_delete=SET_NULL] on
    [Blog.author]) always succeeds, removes only that author, keeps every
    blog and empties exactly the blogs' links to it. *)
Theorem delete_author_set_null k a db :
  authors db !! k = Some a →
  ∃ db', delete_author k db = Ok db' ∧
    users db' = users db ∧ authors db' = delete k (authors db) ∧
    blogs db' = (λ b, if decide (Blog.author b = Some k)
                      then Blog.mk (Blog.title b) None (Blog.content b) (Blog.post_date b) else b)
                  <$> blogs db ∧
    comments db' = comments db.
Proof.
  intros Ha. unfold delete_author. rewrite Ha. eexists. split; [reflexivity|]. simpl.
  split_and!; try done. apply map_fmap_ext. intros j x _.
  unfold clear_blog_author, set_null. case_decide; by destruct x.
Qed.

(** C12: [Author.name] is one-to-one: creating a second author for a
    user that already has one raises [IntegrityError]. *)
Theorem create_author_one_to_one a db u j a' :
  Author.name a = Some u → authors db !! j = Some a' → Author.name a' = Some u →
  create_author a db = raise IntegrityError.
Proof.
  intros Hu Hj Hu'. unfold create_author, name_free. rewrite Hu.
  rewrite (bool_decide_eq_false_2 (map_Forall _ _)), andb_false_r; [done|].
  intros Hall. by apply (Hall j a').
Qed.

(** ** Default ordering *)

Lemma sql_le_total a b : sql_le a b = true ∨ sql_le b a = true.
Proof.
  destruct a as [x|], b as [y|]; simpl; auto.
  rewrite !Z.leb_le. lia.
Qed.

Lemma sql_le_trans a b c : sql_le a b = true → sql_le b c = true → sql_le a c = true.
Proof.
  destruct a as [x|], b as [y|], c as [z|]; simpl; try done.
  rewrite !Z.leb_le. lia.
Qed.

Lemma sql_le_antisym a b : sql_le a b = true → sql_le b a = true → a = b.
Proof. destruct a as [x|], b as [y|]; simpl; try done. rewrite !Z.leb_le. intros. f_equal. lia. Qed.

#[export] Instance order_by_total {A} desc (col : A → option Z) : Total (order_by desc col).
Proof.
  intros x y. unfold order_by. rewrite (decide_ext (col y.2 = col x.2) (col x.2 = col y.2)) by done.
  case_decide; [lia|]. destruct desc; apply sql_le_total.
Qed.

#[export] Instance order_by_trans {A} desc (col : A → option Z) : Transitive (order_by desc col).
Proof.
  intros x y z. unfold order_by.
  destruct (decide (col x.2 = col y.2)) as [Exy|Exy], (decide (col y.2 = col z.2)) as [Eyz|Eyz],
    (decide (col x.2 = col z.2)) as [Exz|Exz]; intros H1 H2; try congruence; try lia.
  - by rewrite Exy.
  - by rewrite <- Eyz.
  - exfalso. apply Eyz. rewrite Exz in H1. destruct desc; eauto using sql_le_antisym.
  - destruct desc; eauto using sql_le_trans.
Qed.

(** Strict sortedness from sortedness and distinct keys. *)
Lemma StronglySorted_strict {A} (R R' : nat * A → nat * A → Prop) (l : list (nat * A)) :
  StronglySorted R l → NoDup l.*1 → (∀ x y, R x y → x.1 ≠ y.1 → R' x y) → StronglySorted R' l.
Proof.
  induction 1 as [|x l Hs IH Hf]; intros Hnd HR; constructor.
  - apply IH; [by inversion Hnd|done].
  - rewrite Forall_forall in Hf |- *. intros y Hy. apply HR; [by apply Hf|].
    intros E. inversion Hnd as [|? ? Hnot]. apply Hnot. rewrite E. by apply list_elem_of_fmap_2.
Qed.

Lemma elem_of_rows {A} (m : gmap nat A) k v : (k, v) ∈ rows m ↔ m !! k = Some v.
Proof. unfold rows. rewrite merge_sort_Permutation. apply elem_of_map_to_list. Qed.

Lemma rows_NoDup {A} (m : gmap nat A) : NoDup (rows m).*1.
Proof. unfold rows. rewrite merge_sort_Permutation. apply NoDup_fst_map_to_list. Qed.

Lemma length_rows {A} (m : gmap nat A) : length (rows m) = size m.
Proof. unfold rows. rewrite merge_sort_Permutation. apply length_map_to_list. Qed.

Lemma length_blog_objects_all db : length (blog_objects_all db) = blog_count db.
Proof. unfold blog_objects_all, blog_count. rewrite merge_sort_Permutation. apply length_rows. Qed.

(** The keys of [rows] are distinct, so a sorted listing is strictly
    sorted in its primary-key tie break. *)
Lemma order_by_strict {A} desc (col : A → option Z) l :
  StronglySorted (order_by desc col) l → NoDup l.*1 →
  StronglySorted (λ x y, col x.2 ≠ col y.2 ∨ x.1 < y.1) l.
Proof.
  intros Hs Hnd. eapply StronglySorted_strict; [done|done|]. intros x y. unfold order_by.
  case_decide; [intros; right; lia|by left].
Qed.

(** C13: [Blog.objects.all()] lists every blog exactly once, newest post
    date first, the blogs without a date last, and blogs of the same date
    by ascending key. *)
Theorem blog_objects_all_spec db :
  StronglySorted (λ x y : nat * Blog.t,
      match Blog.post_date x.2, Blog.post_date y.2 with
      | Some dx, Some dy => (dy < dx)%Z ∨ (dx = dy ∧ x.1 < y.1)
      | Some _, None => True
      | None, Some _ => False
      | None, None => x.1 < y.1
      end) (blog_objects_all db) ∧
  length (blog_objects_all db) = blog_count db ∧
  ∀ k b, (k, b) ∈ blog_objects_all db ↔ blogs db !! k = Some b.
Proof.
  unfold blog_objects_all, blog_count. split_and!.
  - eapply StronglySorted_strict; [apply StronglySorted_merge_sort; apply _| |].
    + rewrite merge_sort_Permutation. apply rows_NoDup.
    + intros [i x] [j y]. unfold blog_ordering, order_by; simpl.
      destruct (Blog.post_date x) as [dx|], (Blog.post_date y) as [dy|]; simpl;
        repeat case_decide; simplify_eq; rewrite ?Z.leb_le; intros; try done;
        try (assert (dx ≠ dy) by congruence); lia.
  - rewrite merge_sort_Permutation. apply length_rows.
  - intros k b. rewrite merge_sort_Permutation. apply elem_of_rows.
Qed.

Lemma NoDup_keys_filter {A} (P : nat * A → Prop) `{∀ x, Decision (P x)} (l : list (nat * A)) :
  NoDup l.*1 → NoDup (filter P l).*1.
Proof. intros Hnd. eapply sublist_NoDup; [done|]. apply fmap_sublist, sublist_filter. Qed.

Lemma elem_of_comment_set db b k c :
  (k, c) ∈ comment_set db b ↔ comments db !! k = Some c ∧ Comment.blog c = Some b.
Proof.
  unfold comment_set. rewrite merge_sort_Permutation, list_elem_of_filter, elem_of_rows.
  simpl. tauto.
Qed.

Lemma comment_set_NoDup db b : NoDup (comment_set db b).*1.
Proof. unfold comment_set. rewrite merge_sort_Permutation. apply NoDup_keys_filter, rows_NoDup. Qed.

(** C14: [blog.comment_set.all()] lists exactly the comments of the blog,
    each once, oldest first, the comments without a date first, and
    comments of the same date by ascending key. *)
Theorem comment_set_spec db b :
  StronglySorted (λ x y : nat * Comment.t,
      match Comment.post_date x.2, Comment.post_date y.2 with
      | Some dx, Some dy => (dx < dy)%Z ∨ (dx = dy ∧ x.1 < y.1)
      | None, Some _ => True
      | Some _, None => False
      | None, None => x.1 < y.1
      end) (comment_set db b) ∧
  ∀ k c, (k, c) ∈ comment_set db b ↔ comments db !! k = Some c ∧ Comment.blog c = Some b.
Proof.
  split; [|apply elem_of_comment_set].
  eapply StronglySorted_strict; [apply StronglySorted_merge_sort; apply _|apply comment_set_NoDup|].
  intros [i x] [j y]. unfold comment_ordering, order_by; simpl.
  destruct (Comment.post_date x) as [dx|], (Comment.post_date y) as [dy|]; simpl;
    repeat case_decide; simplify_eq; rewrite ?Z.leb_le; intros; try done;
        try (assert (dx ≠ dy) by congruence); lia.
Qed.

(** ** String representations *)

(** [Blog.__str__]: the title. *)
Definition blog_str (b : Blog.t) : string := Blog.title b.

(** [Author.__str__]: [f'{self.name}'], the user's username, or
    ["None"] once [SET_NULL] has cleared the link. *)
Definition author_str (db : Db) (a : Author.t) : string :=
  match Author.name a ≫= λ u, users db !! u with
  | Some u => User.username u
  | None => "None"
  end.

(** [Comment.__str__]: [f'{self.id} ({self.blog.title})']; with a NULL
    blog, [self.blog.title] raises [AttributeError]. *)
Inductive attribute_error := AttributeError.

Definition comment_str (db : Db) (k : nat) (c : Comment.t) : result attribute_error string :=
  match Comment.blog c ≫= λ b, blogs db !! b with
  | Some b => Ok (Py.str k +:+ " (" +:+ Blog.title b +:+ ")")
  | None => raise AttributeError
  end.

(** [Comment.display_comment]: [self.content[:50]], the admin's preview. *)
Definition display_comment (c : Comment.t) : string := String.substring 0 50 (Comment.content c).

Lemma substring_0_prefix (s : string) n :
  String.length (String.substring 0 n s) = Nat.min n (String.length s) ∧
  String.prefix (String.substring 0 n s) s = true.
Proof.
  revert n. induction s as [|c s IH]; intros [|n]; simpl; try done.
  destruct (IH n) as [Hl Hp]. rewrite Hl, Hp. split; [done|].
  destruct (Ascii.ascii_dec c c); [done|congruence].
Qed.

(** C27: the admin's preview of a comment is its first 50 characters:
    a prefix of the content, as long as the content up to 50. *)
Theorem display_comment_bound c :
  String.length (display_comment c) = Nat.min 50 (String.length (Comment.content c)) ∧
  String.prefix (display_comment c) (Comment.content c) = true.
Proof. apply substring_0_prefix. Qed.

(** In a well-formed database, a comment with a blog has a [str()]. *)
Lemma comment_str_Ok db k c :
  wf_db db → comments db !! k = Some c → Comment.blog c ≠ None → is_ok (comment_str db k c) = true.
Proof.
  intros Hwf Hk Hb. unfold comment_str.
  destruct (Comment.blog c) as [b|] eqn:Eb; [simpl|done].
  pose proof (wf_comment_blog _ Hwf k c Hk) as Hfk. cbn beta in Hfk. rewrite Eb in Hfk.
  apply fk_Some in Hfk as [x Hx]. by rewrite Hx.
Qed.

(** C28: in a well-formed database, [str()] of a comment fails exactly
    when its blog is NULL, which the schema allows ([null=True]) though
    the view never writes it. *)
Theorem comment_str_error db k c :
  wf_db db → comments db !! k = Some c →
  (comment_str db k c = raise AttributeError ↔ Comment.blog c = None).
Proof.
  intros Hwf Hk. unfold comment_str.
  destruct (Comment.blog c) as [b|] eqn:Hb; simpl; [|done].
  pose proof (wf_comment_blog _ Hwf k c Hk) as Hfk. cbn beta in Hfk. rewrite Hb in Hfk.
  apply fk_Some in Hfk as [x Hx]. rewrite Hx. split; discriminate.
Qed.

(** ** Fixtures: the [setUpTestData] of [src/blog/tests/test_models.py] *)

(** A sequence of ORM writes, stopping at the first error. *)
Definition run_ops (ops : list orm_op) (db : Db) : result db_error Db :=
  foldl (λ acc op, acc ≫= run_op op) (Ok db) ops.

Lemma foldl_run_op_Err ops e :
  foldl (λ acc op, acc ≫= run_op op) (Err e) ops = Err e.
Proof. induction ops; simpl; [done|]. done. Qed.

Lemma reachable_run_ops ops db db' : reachable db → run_ops ops db = Ok db' → reachable db'.
Proof.
  unfold run_ops. revert db. induction ops as [|op ops IH]; intros db Hr H; simpl in H.
  - by simplify_eq.
  - destruct (run_op op db) as [d|e] eqn:E; simpl in H.
    + apply (IH d); [by eapply reachable_step|done].
    + by rewrite foldl_run_op_Err in H.
Qed.

Lemma run_ops_nil db : run_ops [] db = Ok db.
Proof. reflexivity. Qed.

Lemma run_ops_cons op ops db : run_ops (op :: ops) db = run_op op db ≫= run_ops ops.
Proof. unfold run_ops. simpl. destruct (run_op op db); simpl; [done|apply foldl_run_op_Err]. Qed.

Lemma run_ops_app ops1 ops2 db : run_ops (ops1 ++ ops2) db = run_ops ops1 db ≫= run_ops ops2.
Proof.
  revert db. induction ops1 as [|op ops1 IH]; intros db; [done|].
  rewrite <- app_comm_cons, !run_ops_cons. destruct (run_op op db); simpl; [apply IH|done].
Qed.

(** A property every step of [ops] keeps holds after them. *)
Lemma run_ops_preserve (P : Db → Prop) ops db db' :
  (∀ op d d', op ∈ ops → P d → run_op op d = Ok d' → P d') →
  P db → run_ops ops db = Ok db' → P db'.
Proof.
  revert db. induction ops as [|op ops IH]; intros db Hstep Hdb Hr.
  - rewrite run_ops_nil in Hr. by simplify_eq.
  - rewrite run_ops_cons in Hr. destruct (run_op op db) as [d|] eqn:E; [|discriminate].
    apply (IH d); [intros; eapply Hstep; [by right|..]; eauto|by eapply Hstep; [left|..]|done].
Qed.

Lemma run_ops_wf ops db db' : wf_db db → run_ops ops db = Ok db' → wf_db db'.
Proof. apply run_ops_preserve. intros. by eapply run_op_wf. Qed.

(** [CommentModelTest.setUpTestData]: a user, its author, one blog by
    that author and one comment on it by that user. *)
Definition CommentModelTest_setUpTestData : list orm_op := [
  CreateUser (User.mk "test_user");
  CreateAuthor (Author.mk (Some 1) "My biography.");
  CreateBlog (Blog.mk "My blog post" (Some 1) "This is a post." None);
  CreateComment (Comment.mk (Some 1) "My comment" None (Some 1))
].

Definition fixture_db : Db :=
  match run_ops CommentModelTest_setUpTestData empty_db with Ok d => d | Err _ => empty_db end.

Lemma fixture_db_reachable : reachable fixture_db.
Proof.
  apply (reachable_run_ops CommentModelTest_setUpTestData empty_db); [constructor|].
  vm_compute. reflexivity.
Qed.

(** ** Witnesses: the theorems at the fixture *)

Definition fixture_blog : Blog.t := Blog.mk "My blog post" (Some 1) "This is a post." None.
Definition fixture_comment : Comment.t := Comment.mk (Some 1) "My comment" None (Some 1).
Definition fixture_author : Author.t := Author.mk (Some 1) "My biography.".

Lemma reachable_wf_witness : reachable fixture_db ∧ wf_db fixture_db.
Proof. split; [apply fixture_db_reachable|apply (reachable_wf fixture_db fixture_db_reachable)]. Defined.

Lemma delete_blog_restrict_witness :
  blogs fixture_db !! 1 = Some fixture_blog ∧ delete_blog 1 fixture_db = raise RestrictedError.
Proof.
  split; [vm_compute; reflexivity|].
  apply (proj1 (delete_blog_restrict 1 fixture_db fixture_blog ltac:(vm_compute; reflexivity))).
  exists 1, fixture_comment. split; vm_compute; reflexivity.
Defined.

Lemma delete_user_set_null_witness :
  users fixture_db !! 1 = Some (User.mk "test_user") ∧
  ∃ db', delete_user 1 fixture_db = Ok db' ∧ users db' = delete 1 (users fixture_db) ∧
    authors db' = (λ a, if decide (Author.name a = Some 1) then Author.mk None (Author.biography a) else a)
                    <$> authors fixture_db ∧
    blogs db' = blogs fixture_db ∧
    comments db' = (λ c, if decide (Comment.author c = Some 1)
                         then Comment.mk (Comment.blog c) (Comment.content c) (Comment.post_date c) None
                         else c) <$> comments fixture_db.
Proof.
  split; [vm_compute; reflexivity|]. apply (delete_user_set_null 1 (User.mk "test_user")).
  vm_compute. reflexivity.
Defined.

Lemma delete_author_set_null_witness :
  authors fixture_db !! 1 = Some fixture_author ∧
  ∃ db', delete_author 1 fixture_db = Ok db' ∧ users db' = users fixture_db ∧
    authors db' = delete 1 (authors fixture_db) ∧
    blogs db' = (λ b, if decide (Blog.author b = Some 1)
                      then Blog.mk (Blog.title b) None (Blog.content b) (Blog.post_date b) else b)
                  <$> blogs fixture_db ∧
    comments db' = comments fixture_db.
Proof.
  split; [vm_compute; reflexivity|]. apply (delete_author_set_null 1 fixture_author).
  vm_compute. reflexivity.
Defined.

Lemma create_author_one_to_one_witness :
  Author.name (Author.mk (Some 1) "Second") = Some 1 ∧
  create_author (Author.mk (Some 1) "Second") fixture_db = raise IntegrityError.
Proof.
  split; [reflexivity|].
  apply (create_author_one_to_one _ fixture_db 1 1 fixture_author); vm_compute; reflexivity.
Defined.

(** A comment without a blog, as the admin site can save one. *)
Definition orphan_comment : Comment.t := Comment.mk None "orphan" None None.

Definition orphan_db : Db :=
  match run_ops (CommentModelTest_setUpTestData ++ [CreateComment orphan_comment]) empty_db with
  | Ok d => d | Err _ => empty_db end.

Lemma comment_str_error_witness :
  wf_db orphan_db ∧ comments orphan_db !! 2 = Some orphan_comment ∧
  comment_str orphan_db 2 orphan_comment = raise AttributeError.
Proof.
  assert (Hwf : wf_db orphan_db).
  { apply wf_of_reachable, (reachable_run_ops (CommentModelTest_setUpTestData ++ [CreateComment orphan_comment])
                           empty_db); [constructor|vm_compute; reflexivity]. }
  split_and!; [exact Hwf|vm_compute; reflexivity|].
  apply (comment_str_error orphan_db 2 orphan_comment Hwf); [vm_compute|]; reflexivity.
Defined.
