(* ===== verification/Forms.v ===== *)
(** * Forms: [CommentForm] of [src/blog/forms.py] and the form fields
    Django derives from [src/blog/models.py]

    [CommentForm] is a [ModelForm] over [Comment] with the one field
    [content].  Its form field is the one Django derives from
    [content = models.TextField(max_length=200)] (models.py line 53): a
    required [CharField] with [max_length=200] and [strip=True], whose
    validators are a [MaxLengthValidator] and a
    [ProhibitNullCharactersValidator], in that order.  The admin's forms
    ([AdminEdit]) use the same [CharField] with the limits of [Blog.title]
    (200), [Blog.content] (5000) and [Author.biography] (1000), a
    [ModelChoiceField] for each foreign key, a [DateField] for
    [Blog.post_date] and a [SplitDateTimeField] (a [DateField] and a
    [TimeField] under the [AdminSplitDateTime] widget) for
    [Comment.post_date]; all are required, the model fields having
    [blank=False].

    [Fields.clean] is [CharField.clean]: [to_python] (strip, empty to
    the empty string), [validate] (the required check) and
    [run_validators] (all validators run, their errors are collected).
    [DateField.to_python] tries Python's [strptime] with each of
    Django's eleven [DATE_INPUT_FORMATS] in turn; [strptime] is modelled
    as the regular expression [_strptime] compiles (with [IGNORECASE]),
    matched by backtracking, then the whole-input and valid-date checks.
    Strings are those of [Prelude.Py]. *)

From Stdlib Require Import Ascii String ZArith.
From stdpp Require Import base list gmap strings sorting.
From S2P Require Import Prelude Calendar Search.

Module Fields.

(** The error codes of field validation, in Django's names. *)
Inductive error :=
| required
| max_length_error (limit_value show_value : nat)
| null_characters_not_allowed
| invalid_choice                (** [ModelChoiceField]: no such row *)
| invalid                       (** [DateField]: no input format parses *)
| unique                        (** [validate_unique] of a [unique] model field *)
| invalid_date                  (** [SplitDateTimeField]: the date does not parse *)
| invalid_time                  (** [SplitDateTimeField]: the time does not parse *)
| missing_management_form       (** a formset's [ManagementForm] is missing or invalid *)
| too_many_forms (max_num : nat). (** more forms submitted than [absolute_max] *)

(** [request.POST]: a [QueryDict], the submitted pairs in order. *)
Definition QueryDict := list (string * string).

(** [QueryDict.get(key)]: the last value submitted for [key]. *)
Fixpoint querydict_get (d : QueryDict) (key : string) : option string :=
  match d with
  | [] => None
  | (k, v) :: d' =>
      match querydict_get d' key with
      | Some w => Some w
      | None => if String.eqb k key then Some v else None
      end
  end.

(** [CharField.to_python]: [None] and the empty string are empty; anything else is
    stripped, and an empty result stays empty. *)
Definition to_python (value : option string) : string :=
  match value with
  | None => EmptyString
  | Some s => Py.strip s
  end.

Definition has_null (s : string) : bool :=
  existsb (λ c, Ascii.eqb c Ascii.zero) (String.list_ascii_of_string s).

Section CharField.
Variable max_length : nat.

(** [run_validators]: [MaxLengthValidator(max_length)] then
    [ProhibitNullCharactersValidator()], every error kept. *)
Definition run_validators (s : string) : list error :=
  (if max_length <? String.length s
   then [max_length_error max_length (String.length s)] else []) ++
  (if has_null s then [null_characters_not_allowed] else []).

(** [CharField.clean(value)] of a required field. *)
Definition clean (value : option string) : result (list error) string :=
  let s := to_python value in
  if String.eqb s EmptyString then raise [required]
  else match run_validators s with
       | [] => Ok s
       | errs => raise errs
       end.
End CharField.

(** [ModelChoiceField.clean(value)] of a required foreign key: an empty
    value is [required]; otherwise [queryset.get(pk=value)], where the
    key goes through [int()] ([ValueError]) and a missing row
    ([DoesNotExist]) are both [invalid_choice]. *)
Definition ModelChoiceField_clean {A} (queryset : gmap nat A) (value : option string)
    : result (list error) nat :=
  match value with
  | None => raise [required]
  | Some s =>
      if String.eqb s EmptyString then raise [required]
      else match Py.int s with
           | Some z =>
               if (0 <? z)%Z then
                 match queryset !! Z.to_nat z with
                 | Some _ => Ok (Z.to_nat z)
                 | None => raise [invalid_choice]
                 end
               else raise [invalid_choice]
           | None => raise [invalid_choice]
           end
  end.

(** ** [DateField]

    [DateField.to_python] strips the value and tries the input formats
    in order with [datetime.strptime(value, format).date()]; the first
    that parses wins, and none gives [invalid].  The formats are
    Django's [DATE_INPUT_FORMATS] (those of the [en] locale, which
    [LANGUAGE_CODE = 'en-us'] selects):
    ['%Y-%m-%d'], ['%m/%d/%Y'], ['%m/%d/%y'], ['%b %d %Y'],
    ['%b %d, %Y'], ['%d %b %Y'], ['%d %b, %Y'], ['%B %d %Y'],
    ['%B %d, %Y'], ['%d %B %Y'], ['%d %B, %Y'].

    [_strptime] turns a format into a regular expression, compiled with
    [IGNORECASE]: [%Y] is [\d\d\d\d], [%y] is [\d\d], [%m] is
    [1[0-2]|0[1-9]|[1-9]], [%d] is [3[01]|[12]\d|0[1-9]|[1-9]| [1-9]],
    [%b] and [%B] the month names, longest first, a run of whitespace in
    the format is [\s+], any other character itself.  [re.match] keeps
    the first match in backtracking order (it need not reach the end);
    then text left over ([unconverted data remains]) or a date that
    does not exist raises [ValueError]. *)
Definition digit (c : ascii) : option Z :=
  if Py.is_digit c then Some (Py.digit_value c) else None.

(** A digit followed by [k]: [[1-9]] when [lo = 1], [\d] when [lo = 0]. *)
Definition digit_from {B} (lo : Z) (l : list ascii) (k : Z → list ascii → option B) : option B :=
  match l with
  | c :: l' => match digit c with Some v => if (lo <=? v)%Z then k v l' else None | None => None end
  | [] => None
  end.

(** [1[0-2]|0[1-9]|[1-9]], each alternative tried with the rest of the
    expression [k] before the next one. *)
Definition parse_month {B} (l : list ascii) (k : Z → list ascii → option B) : option B :=
  first_some [
    match l with
    | "1"%char :: l' => digit_from 0 l' (λ v l'', if (v <=? 2)%Z then k (10 + v)%Z l'' else None)
    | _ => None
    end;
    match l with "0"%char :: l' => digit_from 1 l' k | _ => None end;
    digit_from 1 l k].

(** [%d]: [3[01]|[12]\d|0[1-9]|[1-9]| [1-9]]. *)
Definition parse_day {B} (l : list ascii) (k : Z → list ascii → option B) : option B :=
  first_some [
    match l with
    | "3"%char :: l' => digit_from 0 l' (λ v l'', if (v <=? 1)%Z then k (30 + v)%Z l'' else None)
    | _ => None
    end;
    digit_from 1 l (λ v1 l', if (v1 <=? 2)%Z then digit_from 0 l' (λ v2, k (10 * v1 + v2)%Z) else None);
    match l with "0"%char :: l' => digit_from 1 l' k | _ => None end;
    digit_from 1 l k;
    match l with " "%char :: l' => digit_from 1 l' k | _ => None end].

(** [%Y]: four digits. *)
Definition parse_year4 {B} (l : list ascii) (k : Z → list ascii → option B) : option B :=
  digit_from 0 l (λ a l, digit_from 0 l (λ b l, digit_from 0 l (λ c l, digit_from 0 l (λ d,
    k (1000 * a + 100 * b + 10 * c + d)%Z)))).

(** [%y]: two digits; [_strptime] reads 69-99 as 19xx and 00-68 as 20xx. *)
Definition parse_year2 {B} (l : list ascii) (k : Z → list ascii → option B) : option B :=
  digit_from 0 l (λ a l, digit_from 0 l (λ b,
    let v := (10 * a + b)%Z in k (if (v <=? 68)%Z then 2000 + v else 1900 + v)%Z)).

(** [calendar.month_abbr] and [calendar.month_name], lower-cased as
    [LocaleTime] keeps them, with their month numbers. *)
Definition MONTH_ABBR : list (string * Z) :=
  [("jan", 1); ("feb", 2); ("mar", 3); ("apr", 4); ("may", 5); ("jun", 6);
   ("jul", 7); ("aug", 8); ("sep", 9); ("oct", 10); ("nov", 11); ("dec", 12)]%Z.

Definition MONTH_FULL : list (string * Z) :=
  [("january", 1); ("february", 2); ("march", 3); ("april", 4); ("may", 5); ("june", 6);
   ("july", 7); ("august", 8); ("september", 9); ("october", 10); ("november", 11); ("december", 12)]%Z.

(** [__seqToRE]: the alternatives sorted by decreasing length
    ([sorted(..., key=len, reverse=True)], a stable sort). *)
Definition longer_first (x y : string * Z) : Prop := String.length y.1 ≤ String.length x.1.
#[local] Instance longer_first_dec : RelDecision longer_first := λ x y, decide (_ ≤ _).

Definition seq_to_re (names : list (string * Z)) : list (string * Z) := merge_sort longer_first names.

(** One lower-case word at the start of the text, ignoring case. *)
Fixpoint match_word (w l : list ascii) : option (list ascii) :=
  match w, l with
  | [], _ => Some l
  | a :: w', c :: l' => if Ascii.eqb a (Search.ascii_lower c) then match_word w' l' else None
  | _ :: _, [] => None
  end.

(** [%b] and [%B]: the first alternative that matches and lets the rest
    of the expression match. *)
Definition parse_month_name {B} (names : list (string * Z)) (l : list ascii)
    (k : Z → list ascii → option B) : option B :=
  first_some ((λ '(w, v), match_word (String.list_ascii_of_string w) l ≫= k v) <$> seq_to_re names).

(** [\s+]: the longest run of whitespace first, then shorter ones. *)
Fixpoint spaces_star {B} (l : list ascii) (k : list ascii → option B) : option B :=
  match l with
  | c :: l' => if Py.isspace c then first_some [spaces_star l' k; k l] else k l
  | [] => k l
  end.

Definition spaces_plus {B} (l : list ascii) (k : list ascii → option B) : option B :=
  match l with
  | c :: l' => if Py.isspace c then spaces_star l' k else None
  | [] => None
  end.

Inductive date_directive := dY | dy | dm | dd | db | dB | dlit (c : ascii) | dws.

(** The groups a match sets; [_strptime]'s defaults are 1900-01-01. *)
Record date_fields := mkfields { f_year : Z; f_month : Z; f_day : Z }.

Definition match_directive {B} (d : date_directive) (l : list ascii) (f : date_fields)
    (k : date_fields → list ascii → option B) : option B :=
  match d with
  | dY => parse_year4 l (λ v, k (mkfields v (f_month f) (f_day f)))
  | dy => parse_year2 l (λ v, k (mkfields v (f_month f) (f_day f)))
  | dm => parse_month l (λ v, k (mkfields (f_year f) v (f_day f)))
  | dd => parse_day l (λ v, k (mkfields (f_year f) (f_month f) v))
  | db => parse_month_name MONTH_ABBR l (λ v, k (mkfields (f_year f) v (f_day f)))
  | dB => parse_month_name MONTH_FULL l (λ v, k (mkfields (f_year f) v (f_day f)))
  | dlit c => match l with c' :: l' => if Ascii.eqb c c' then k f l' else None | [] => None end
  | dws => spaces_plus l (k f)
  end.

Fixpoint match_directives {B} (fmt : list date_directive) (l : list ascii) (f : date_fields)
    (k : date_fields → list ascii → option B) : option B :=
  match fmt with
  | [] => k f l
  | d :: fmt' => match_directive d l f (λ f' l', match_directives fmt' l' f' k)
  end.

Definition DATE_INPUT_FORMATS : list (list date_directive) := [
  [dY; dlit "-"; dm; dlit "-"; dd];
  [dm; dlit "/"; dd; dlit "/"; dY];
  [dm; dlit "/"; dd; dlit "/"; dy];
  [db; dws; dd; dws; dY];
  [db; dws; dd; dlit ","; dws; dY];
  [dd; dws; db; dws; dY];
  [dd; dws; db; dlit ","; dws; dY];
  [dB; dws; dd; dws; dY];
  [dB; dws; dd; dlit ","; dws; dY];
  [dd; dws; dB; dws; dY];
  [dd; dws; dB; dlit ","; dws; dY]]%char.

(** [datetime.strptime(value, format).date()]. *)
Definition strptime_date (fmt : list date_directive) (s : string) : option Calendar.date :=
  match match_directives fmt (String.list_ascii_of_string s) (mkfields 1900 1 1) (λ f r, Some (f, r)) with
  | Some (f, []) =>
      match Calendar.mkdate_checked (f_year f) (f_month f) (f_day f) with Ok dt => Some dt | Err _ => None end
  | _ => None
  end.

(** [DateField.to_python] of a non-empty value. *)
Definition date_to_python (s : string) : option Calendar.date :=
  first_some ((λ fmt, strptime_date fmt (Py.strip s)) <$> DATE_INPUT_FORMATS).

(** [DateField.clean(value)] of a required field: empty is [required];
    otherwise [to_python], [invalid] when no format parses. *)
Definition DateField_clean (value : option string) : result (list error) Calendar.date :=
  match value with
  | None => raise [required]
  | Some s =>
      if String.eqb s EmptyString then raise [required]
      else match date_to_python s with
           | Some dt => Ok dt
           | None => raise [invalid]
           end
  end.

(** ** [TimeField] and [SplitDateTimeField]

    [TIME_INPUT_FORMATS]: ['%H:%M:%S'], ['%H:%M:%S.%f'], ['%H:%M'],
    tried in order with [datetime.strptime(value, format).time()].
    strptime's expressions: [%H] is [2[0-3]|[0-1]\d|\d], [%M] is
    [[0-5]\d|\d], [%S] is [6[0-1]|[0-5]\d|\d] and [%f] is
    [[0-9]{1,6}], right-padded with zeros to microseconds. *)
Definition parse_hour {B} (l : list ascii) (k : Z → list ascii → option B) : option B :=
  first_some [
    match l with
    | "2"%char :: l' => digit_from 0 l' (λ v l'', if (v <=? 3)%Z then k (20 + v)%Z l'' else None)
    | _ => None
    end;
    digit_from 0 l (λ v1 l', if (v1 <=? 1)%Z then digit_from 0 l' (λ v2, k (10 * v1 + v2)%Z) else None);
    digit_from 0 l k].

Definition parse_minute {B} (l : list ascii) (k : Z → list ascii → option B) : option B :=
  first_some [
    digit_from 0 l (λ v1 l', if (v1 <=? 5)%Z then digit_from 0 l' (λ v2, k (10 * v1 + v2)%Z) else None);
    digit_from 0 l k].

Definition parse_second {B} (l : list ascii) (k : Z → list ascii → option B) : option B :=
  first_some [
    match l with
    | "6"%char :: l' => digit_from 0 l' (λ v l'', if (v <=? 1)%Z then k (60 + v)%Z l'' else None)
    | _ => None
    end;
    parse_minute l k].

(** Up to [n] digits, as many as there are. *)
Fixpoint take_digits (n : nat) (l : list ascii) : list Z * list ascii :=
  match n, l with
  | S n', c :: l' =>
      match digit c with
      | Some v => let '(ds, r) := take_digits n' l' in (v :: ds, r)
      | None => ([], l)
      end
  | _, _ => ([], l)
  end.

(** [%f] ends the expression, so its greedy match is the one kept. *)
Definition parse_fraction (l : list ascii) : option (Z * list ascii) :=
  match take_digits 6 l with
  | ([], _) => None
  | (ds, r) => Some (fold_left (λ acc d, 10 * acc + d)%Z (ds ++ repeat 0%Z (6 - length ds)) 0%Z, r)
  end.

Inductive time_format := HMS | HMSf | HM.

Definition TIME_INPUT_FORMATS : list time_format := [HMS; HMSf; HM].

(** The match of a format's expression: the fields and what follows. *)
Definition match_time (fmt : time_format) (l : list ascii) : option (Calendar.time * list ascii) :=
  parse_hour l (λ h l1,
    match l1 with
    | ":"%char :: l2 =>
        parse_minute l2 (λ m l3,
          match fmt, l3 with
          | HM, _ => Some (Calendar.mktime h m 0 0, l3)
          | _, ":"%char :: l4 =>
              parse_second l4 (λ s l5,
                match fmt, l5 with
                | HMSf, "."%char :: l6 =>
                    (λ '(us, r), (Calendar.mktime h m s us, r)) <$> parse_fraction l6
                | HMSf, _ => None
                | _, _ => Some (Calendar.mktime h m s 0, l5)
                end)
          | _, _ => None
          end)
    | _ => None
    end).

(** Unconverted data, or a second the [time] constructor refuses. *)
Definition parse_time (fmt : time_format) (s : string) : option Calendar.time :=
  match match_time fmt (String.list_ascii_of_string s) with
  | Some (t, []) => if (Calendar.second t <=? 59)%Z then Some t else None
  | _ => None
  end.

(** [TimeField.to_python] on a non-empty value. *)
Definition time_to_python (s : string) : option Calendar.time :=
  first_some (map (λ fmt, parse_time fmt (Py.strip s)) TIME_INPUT_FORMATS).

Definition is_empty (value : option string) : bool :=
  match value with None => true | Some s => String.eqb s EmptyString end.

(** [SplitDateTimeField.clean([date, time])] of a required field
    ([MultiValueField] with [require_all_fields]): both empty, or an
    empty part when its turn comes, is [required] at once; the parts'
    errors are collected; [compress] is [datetime.combine] in UTC. *)
Definition SplitDateTimeField_clean (d t : option string) : result (list error) Z :=
  if is_empty d && is_empty t then raise [required]
  else if is_empty d then raise [required]
  else
    let d' := match d with Some s => date_to_python s | None => None end in
    if is_empty t then raise [required]
    else
      let t' := match t with Some s => time_to_python s | None => None end in
      match d', t' with
      | Some dt, Some tm => Ok (Calendar.combine dt tm)
      | _, _ =>
          raise (match d' with Some _ => [] | None => [invalid_date] end ++
                 match t' with Some _ => [] | None => [invalid_time] end)
      end.

(** ** The widgets' rendering of a stored value

    [DateInput] and [TimeInput] render with the first input format,
    ['%Y-%m-%d'] and ['%H:%M:%S'], by [strftime]; [BoundField.initial]
    first drops the microseconds (the widgets do not show them).  glibc's
    [%Y] does not pad the year. *)
Definition digit_char (v : Z) : ascii := ascii_of_nat (48 + Z.to_nat v).

Definition pad2 (n : Z) : list ascii := [digit_char (n / 10); digit_char (n mod 10)].

Definition strftime_date (dt : Calendar.date) : string :=
  String.string_of_list_ascii
    (String.list_ascii_of_string (Py.str (Z.to_nat (Calendar.year dt))) ++
     "-"%char :: pad2 (Calendar.month dt) ++ "-"%char :: pad2 (Calendar.day dt)).

Definition strftime_time (t : Calendar.time) : string :=
  String.string_of_list_ascii
    (pad2 (Calendar.hour t) ++ ":"%char :: pad2 (Calendar.minute t) ++
     ":"%char :: pad2 (Calendar.second t)).

(** The [post_date_0] and [post_date_1] values of the change form for a
    stored datetime. *)
Definition SplitDateTimeWidget_value (v : Z) : option (string * string) :=
  match Calendar.date_of v with
  | Ok dt => Some (strftime_date dt, strftime_time (Calendar.drop_microsecond (Calendar.time_of v)))
  | Err _ => None
  end.

(** ** Properties *)

Lemma eqb_empty s : String.eqb s EmptyString = true ↔ s = EmptyString.
Proof. apply String.eqb_eq. Qed.

Lemma run_validators_nil max_length s :
  run_validators max_length s = [] ↔ String.length s ≤ max_length ∧ has_null s = false.
Proof.
  unfold run_validators.
  destruct (Nat.ltb_spec max_length (String.length s)), (has_null s); simpl;
    split; intros; try lia; try discriminate; intuition (try lia; try discriminate).
Qed.

Lemma clean_Ok_length max_length value s :
  clean max_length value = Ok s → String.length s ≤ max_length.
Proof.
  unfold clean. destruct (String.eqb _ _); [discriminate|].
  destruct (run_validators _ _) eqn:Hv; [|discriminate]. intros [= <-].
  by apply run_validators_nil in Hv as [].
Qed.

(** *** The widgets' strings parse back *)

Lemma digit_digit_char v : (0 ≤ v ≤ 9)%Z → digit (digit_char v) = Some v.
Proof. intros Hv. enum_Z v 0%Z 10; reflexivity. Qed.

Lemma digit_from_digit_char {B} lo v l (k : Z → list ascii → option B) :
  (lo ≤ v ≤ 9)%Z → (0 ≤ lo)%Z → digit_from lo (digit_char v :: l) k = k v l.
Proof.
  intros Hv Hlo. unfold digit_from. rewrite digit_digit_char by lia.
  by rewrite (proj2 (Z.leb_le lo v)) by lia.
Qed.

Lemma pad2_digits n : (0 ≤ n ≤ 99)%Z → (0 ≤ n / 10 ≤ 9)%Z ∧ (0 ≤ n mod 10 ≤ 9)%Z ∧ n = (10 * (n / 10) + n mod 10)%Z.
Proof. intros Hn. Z.div_mod_to_equations. lia. Qed.

Lemma parse_month_pad2 {B} m l (k : Z → list ascii → option B) r :
  (1 ≤ m ≤ 12)%Z → k m l = Some r → parse_month (pad2 m ++ l) k = Some r.
Proof. intros Hm Hk. enum_Z m 1%Z 12; vm_compute; by rewrite Hk. Qed.

Lemma parse_day_pad2 {B} d l (k : Z → list ascii → option B) r :
  (1 ≤ d ≤ 31)%Z → k d l = Some r → parse_day (pad2 d ++ l) k = Some r.
Proof. intros Hd Hk. enum_Z d 1%Z 31; vm_compute; by rewrite Hk. Qed.

Lemma parse_hour_pad2 {B} h l (k : Z → list ascii → option B) r :
  (0 ≤ h ≤ 23)%Z → k h l = Some r → parse_hour (pad2 h ++ l) k = Some r.
Proof. intros Hh Hk. enum_Z h 0%Z 24; vm_compute; by rewrite Hk. Qed.

Lemma parse_minute_pad2 {B} m l (k : Z → list ascii → option B) r :
  (0 ≤ m ≤ 59)%Z → k m l = Some r → parse_minute (pad2 m ++ l) k = Some r.
Proof. intros Hm Hk. enum_Z m 0%Z 60; vm_compute; by rewrite Hk. Qed.

Lemma parse_second_pad2 {B} s l (k : Z → list ascii → option B) r :
  (0 ≤ s ≤ 59)%Z → k s l = Some r → parse_second (pad2 s ++ l) k = Some r.
Proof. intros Hs Hk. enum_Z s 0%Z 60; vm_compute; by rewrite Hk. Qed.

Lemma isspace_digit_char v : (0 ≤ v ≤ 9)%Z → Py.isspace (digit_char v) = false.
Proof. intros Hv. enum_Z v 0%Z 10; reflexivity. Qed.

(** [str(year)] of a four-digit year, checked on all of them. *)
Definition year_digits (y : Z) : list ascii :=
  [digit_char (y / 1000); digit_char (y / 100 mod 10); digit_char (y / 10 mod 10); digit_char (y mod 10)].

Definition year_check (y : Z) : bool :=
  bool_decide (String.list_ascii_of_string (Py.str (Z.to_nat y)) = year_digits y).

Lemma year_check_all : forall_range year_check 1000 (Z.to_nat 9000) = true.
Proof. vm_compute. reflexivity. Qed.

Lemma Py_str_year y :
  (1000 ≤ y ≤ 9999)%Z → String.list_ascii_of_string (Py.str (Z.to_nat y)) = year_digits y.
Proof.
  intros Hy. pose proof (forall_range_spec _ _ _ year_check_all y ltac:(rewrite Z2Nat.id; lia)) as H.
  unfold year_check in H. by apply bool_decide_eq_true in H.
Qed.

#[local] Arguments digit_char : simpl never.
#[local] Arguments pad2 : simpl never.

Lemma parse_year4_digits {B} y l (k : Z → list ascii → option B) :
  (0 ≤ y ≤ 9999)%Z → parse_year4 (year_digits y ++ l) k = k y l.
Proof.
  intros Hy. unfold parse_year4, year_digits. cbn [app].
  rewrite !digit_from_digit_char by (Z.div_mod_to_equations; lia).
  f_equal. Z.div_mod_to_equations. lia.
Qed.

(** The widget's ['%Y-%m-%d'] string parses back with the first format. *)
Lemma strptime_iso_strftime dt :
  Calendar.is_date dt → (1000 ≤ Calendar.year dt)%Z →
  strptime_date [dY; dlit "-"; dm; dlit "-"; dd]%char (strftime_date dt) = Some dt.
Proof.
  destruct dt as [y m d]. intros Hd Hy. pose proof Hd as [[_ Hy'] Hv]. simpl in *.
  apply Calendar.valid_ymd_spec in Hv as [Hm Hdm].
  pose proof (Calendar.days_in_month_bounds y m Hm). unfold Calendar.MAXYEAR in Hy'.
  unfold strptime_date, strftime_date. simpl Calendar.year; simpl Calendar.month; simpl Calendar.day.
  rewrite String.list_ascii_of_string_of_list_ascii, Py_str_year by lia.
  replace (pad2 d) with (pad2 d ++ []) by apply app_nil_r.
  cbn [match_directives]. unfold match_directive at 1. rewrite parse_year4_digits by lia.
  cbn [app]. unfold match_directive at 1. simpl Ascii.eqb. cbn iota beta.
  unfold match_directive at 1. erewrite parse_month_pad2; [|done|]; cycle 1.
  { cbn beta. unfold match_directive at 1. simpl Ascii.eqb. cbn iota beta.
    unfold match_directive. erewrite parse_day_pad2; [reflexivity|lia|]. reflexivity. }
  cbn iota beta. cbn [f_year f_month f_day].
  by rewrite (proj2 (Calendar.mkdate_checked_Ok y m d _) (conj eq_refl Hd)).
Qed.

Lemma no_lead_space_digits v l : (0 ≤ v ≤ 9)%Z → Py.no_lead_space (digit_char v :: l).
Proof. apply isspace_digit_char. Qed.

Lemma pad2_bounds n : (0 ≤ n ≤ 99)%Z → (0 ≤ n / 10 ≤ 9)%Z ∧ (0 ≤ n mod 10 ≤ 9)%Z.
Proof. intros Hn. Z.div_mod_to_equations. lia. Qed.

(** The string of a whole-second time parses back with the first format. *)
Lemma time_to_python_strftime t :
  Calendar.is_time t → Calendar.microsecond t = 0%Z → time_to_python (strftime_time t) = Some t.
Proof.
  destruct t as [h m s us]. unfold Calendar.is_time. simpl. intros (Hh & Hm & Hs & _) ->.
  destruct (pad2_bounds h ltac:(lia)), (pad2_bounds s ltac:(lia)).
  unfold time_to_python, strftime_time. simpl Calendar.hour; simpl Calendar.minute; simpl Calendar.second.
  rewrite Py.strip_nospace.
  2: { unfold pad2. by apply no_lead_space_digits. }
  2: { unfold pad2. simpl. by apply isspace_digit_char. }
  unfold TIME_INPUT_FORMATS. cbn [map]. unfold parse_time. rewrite String.list_ascii_of_string_of_list_ascii.
  replace (pad2 s) with (pad2 s ++ []) by apply app_nil_r.
  unfold match_time. erewrite parse_hour_pad2; [|done|]; cycle 1.
  { cbn beta iota. erewrite parse_minute_pad2; [|done|]; cycle 1.
    { cbn beta iota. erewrite parse_second_pad2; [|done|]; [reflexivity|]. cbn beta iota. reflexivity. }
    reflexivity. }
  assert (Hs' : (s <=? 59)%Z = true) by (apply Z.leb_le; lia).
  cbn -[Z.leb]. by rewrite Hs'.
Qed.

Lemma is_empty_nonnil l : l ≠ [] → is_empty (Some (String.string_of_list_ascii l)) = false.
Proof. by destruct l. Qed.

Lemma is_empty_strftime_time t : is_empty (Some (strftime_time t)) = false.
Proof. unfold strftime_time. apply is_empty_nonnil. by unfold pad2. Qed.

Lemma strftime_date_digits dt :
  (1000 ≤ Calendar.year dt ≤ 9999)%Z →
  strftime_date dt = String.string_of_list_ascii
    (year_digits (Calendar.year dt) ++ "-"%char :: pad2 (Calendar.month dt) ++ "-"%char :: pad2 (Calendar.day dt)).
Proof. intros Hy. unfold strftime_date. by rewrite Py_str_year. Qed.

Lemma strip_strftime_date dt :
  Calendar.is_date dt → (1000 ≤ Calendar.year dt)%Z → Py.strip (strftime_date dt) = strftime_date dt.
Proof.
  intros [[_ Hy] Hv] Hy'. unfold Calendar.MAXYEAR in Hy.
  apply Calendar.valid_ymd_spec in Hv as [_ Hd].
  pose proof (Calendar.days_in_month_bounds (Calendar.year dt) (Calendar.month dt)).
  rewrite strftime_date_digits by lia. apply Py.strip_nospace.
  - unfold year_digits. apply no_lead_space_digits. Z.div_mod_to_equations. lia.
  - unfold year_digits, pad2. simpl. apply isspace_digit_char. Z.div_mod_to_equations. lia.
Qed.

Lemma date_to_python_strftime dt :
  Calendar.is_date dt → (1000 ≤ Calendar.year dt)%Z → date_to_python (strftime_date dt) = Some dt.
Proof.
  intros Hd Hy. unfold date_to_python. rewrite strip_strftime_date by done.
  unfold DATE_INPUT_FORMATS. rewrite fmap_cons. by rewrite strptime_iso_strftime.
Qed.

(** C22: the admin's split date and time widgets show a stored
    [DateTimeField] value as ['%Y-%m-%d'] and ['%H:%M:%S'], and
    submitting the change form with those strings unchanged cleans to
    the value without its microseconds: resaving a comment in the
    admin truncates its [post_date] to the second (for years from
    1000 on, which [%Y] writes with four digits). *)
Theorem SplitDateTime_roundtrip v dt :
  Calendar.date_of v = Ok dt → (1000 ≤ Calendar.year dt)%Z →
  ∃ d t, SplitDateTimeWidget_value v = Some (d, t) ∧
    SplitDateTimeField_clean (Some d) (Some t) = Ok (v - v mod Calendar.US_PER_SECOND)%Z.
Proof.
  intros Hv Hy. unfold SplitDateTimeWidget_value. rewrite Hv. eexists _, _. split; [reflexivity|].
  pose proof Hv as Hv'. unfold Calendar.date_of in Hv'.
  apply Calendar.fromordinal_Ok in Hv' as (_ & Hd & Ho).
  pose proof Hd as [[_ Hy'] _]. unfold Calendar.MAXYEAR in Hy'.
  unfold SplitDateTimeField_clean.
  rewrite strftime_date_digits by lia.
  rewrite is_empty_strftime_time, is_empty_nonnil by (unfold year_digits; done). cbn [andb].
  rewrite <- strftime_date_digits by lia. rewrite date_to_python_strftime by done.
  rewrite time_to_python_strftime;
    [|apply Calendar.drop_microsecond_is_time, Calendar.time_of_is_time|reflexivity].
  by rewrite Calendar.combine_time_of.
Qed.

(** A comment posted at 2024-01-05T10:30:05.123456: the change form
    shows ["2024-01-05"] and ["10:30:05"], and saving it unchanged
    stores 10:30:05.000000. *)
Lemma SplitDateTime_roundtrip_witness :
  SplitDateTimeWidget_value 63840047405123456%Z = Some ("2024-01-05", "10:30:05") ∧
  ∃ d t, SplitDateTimeWidget_value 63840047405123456%Z = Some (d, t) ∧
    SplitDateTimeField_clean (Some d) (Some t) =
      Ok (63840047405123456 - 63840047405123456 mod Calendar.US_PER_SECOND)%Z.
Proof.
  split; [vm_compute; reflexivity|].
  apply (SplitDateTime_roundtrip _ (Calendar.mkdate 2024 1 5)); [vm_compute; reflexivity|simpl; lia].
Defined.

Lemma strptime_date_is_date fmt s dt : strptime_date fmt s = Some dt → Calendar.is_date dt.
Proof.
  unfold strptime_date. destruct (match_directives _ _ _ _) as [[f [|]]|]; try discriminate.
  destruct (Calendar.mkdate_checked _ _ _) eqn:Ec; [|discriminate]. intros [= <-].
  by apply Calendar.mkdate_checked_Ok in Ec as [_ ?].
Qed.

(** A cleaned date exists. *)
Lemma DateField_clean_Ok value dt : DateField_clean value = Ok dt → Calendar.is_date dt.
Proof.
  unfold DateField_clean. destruct value as [s|]; [|discriminate].
  destruct (String.eqb _ _); [discriminate|].
  destruct (date_to_python _) as [dt'|] eqn:E; [|discriminate]. intros [= <-].
  apply first_some_Some, list_elem_of_fmap in E as (fmt & Hf & _). by eapply strptime_date_is_date.
Qed.

(** C7: a required [CharField] accepts a submitted value exactly when,
    once stripped, it has between 1 and [max_length] characters (200
    for the comment) and no NUL character; the cleaned value is the
    stripped text. *)
Theorem clean_Ok max_length value s :
  clean max_length value = Ok s ↔
    s = to_python value ∧ 0 < String.length s ≤ max_length ∧ has_null s = false.
Proof.
  unfold clean. destruct (String.eqb (to_python value) EmptyString) eqn:E.
  - apply eqb_empty in E. rewrite E. split; [discriminate|]. intros (-> & ? & _). simpl in *. lia.
  - destruct (run_validators max_length (to_python value)) eqn:Hv.
    + apply run_validators_nil in Hv as [].
      assert (to_python value ≠ EmptyString) by (intros Hx; apply eqb_empty in Hx; congruence).
      split; [intros Hs; injection Hs as <-|intros (-> & _)]; [|done].
      split_and!; try done. destruct (to_python value); simpl; [done|lia].
    + split; [discriminate|]. intros (-> & Hlen & Hn).
      assert (run_validators max_length (to_python value) = []) by (apply run_validators_nil; lia || tauto).
      congruence.
Qed.

(** C8: an empty (or all-whitespace, or missing) value is rejected
    with the required-field error alone, and a stripped value longer
    than [max_length] characters is rejected with a max-length error
    that reports its length. *)
Theorem clean_rejects max_length value :
  (to_python value = EmptyString → clean max_length value = raise [required]) ∧
  (max_length < String.length (to_python value) →
     ∃ errs, clean max_length value =
             raise (max_length_error max_length (String.length (to_python value)) :: errs)).
Proof.
  unfold clean. split.
  - intros ->. reflexivity.
  - intros Hlt. destruct (String.eqb _ _) eqn:E.
    + apply eqb_empty in E. rewrite E in Hlt. simpl in Hlt. lia.
    + unfold run_validators. apply Nat.ltb_lt in Hlt. rewrite Hlt. simpl. eauto.
Qed.

End Fields.

Module CommentForm.

(** The field's metadata, from [Meta.labels], [Meta.help_texts] and
    the model field's [max_length]. *)
Definition label : string := "Comment".
Definition help_text : string := "Enter a comment".
Definition max_length : nat := 200.

(** [CommentForm(request.POST)], then [form.is_valid()] and
    [form.cleaned_data['content']]: the value comes from the
    [Textarea] widget, i.e. [data.get('content')]. *)
Definition full_clean (data : Fields.QueryDict) : result (list Fields.error) string :=
  Fields.clean max_length (Fields.querydict_get data "content").

Definition is_valid (data : Fields.QueryDict) : bool := is_ok (full_clean data).

(** The scenarios of the specification: an empty comment and one of
    201 characters are rejected, a valid one is accepted stripped. *)
Definition long_comment : string := String.string_of_list_ascii (repeat "a"%char 201).

Lemma clean_rejects_witness :
  Fields.clean max_length (Some "   ") = raise [Fields.required] ∧
  (∃ errs, Fields.clean max_length (Some long_comment) = raise (Fields.max_length_error 200 201 :: errs)).
Proof.
  split.
  - apply (proj1 (Fields.clean_rejects max_length (Some "   "))). vm_compute. reflexivity.
  - apply (proj2 (Fields.clean_rejects max_length (Some long_comment))). vm_compute. reflexivity.
Defined.

Lemma clean_Ok_witness : Fields.clean max_length (Some " Nice post ") = Ok "Nice post".
Proof. apply Fields.clean_Ok. vm_compute. split_and!; try reflexivity; lia. Defined.
End CommentForm.
