(* ===== verification/Paginator.v ===== *)
(** * Pagination: the [paginate_by] of the list views in [src/blog/views.py]

    [BlogListView] and [BlogListByAuthorView] set [paginate_by = 5];
    [AuthorListView] sets nothing.  Django's [ListView] then builds its
    context with [MultipleObjectMixin.paginate_queryset], a [Paginator]
    with [orphans=0] and [allow_empty_first_page=True], and the
    [page] query parameter.  This file models those library functions
    as the views use them: [num_pages], [validate_number], [page],
    [has_other_pages], [paginate_queryset] and the list context.  The
    main theorem is that the pages [page] gives partition the list, in
    order. *)

From Stdlib Require Import ZArith String.
From stdpp Require Import base list strings.
From S2P Require Import Prelude.

Module Paginator.
Section with_item.
Context {A : Type}.

(** [Page]: the items of one page, its number, and the page count. *)
Record Page := mkPage { object_list : list A; number : nat; num_pages : nat }.

Inductive invalid_page := PageNotAnInteger | EmptyPage.

(** [Paginator.num_pages] with [orphans=0] and
    [allow_empty_first_page=True]: [ceil(max(1, count) / per_page)]. *)
Definition num_pages_of (count per_page : nat) : nat :=
  (Nat.max 1 count + per_page - 1) / per_page.
#[global] Arguments num_pages_of : simpl never.

(** [Paginator.validate_number]. *)
Definition validate_number (n : Z) (np : nat) : result invalid_page nat :=
  if (n <? 1)%Z then raise EmptyPage
  else if (Z.of_nat np <? n)%Z then
    (if (n =? 1)%Z then Ok 1 else raise EmptyPage)
  else Ok (Z.to_nat n).

(** [object_list[bottom:top]]. *)
Definition slice (l : list A) (bottom top : nat) : list A :=
  take (top - bottom) (drop bottom l).

(** [Paginator.page(number)]. *)
Definition page (l : list A) (per_page : nat) (n : Z) : result invalid_page Page :=
  let count := length l in
  let np := num_pages_of count per_page in
  number ← validate_number n np;
  let bottom := (number - 1) * per_page in
  let top := bottom + per_page in
  let top := if count <=? top then count else top in
  Ok (mkPage (slice l bottom top) number np).

(** [Page.has_other_pages()]: [has_previous() or has_next()]. *)
Definition has_other_pages (p : Page) : bool :=
  (1 <? number p) || (number p <? num_pages p).

(** [MultipleObjectMixin.paginate_queryset]: the page is the URL's
    [page] keyword, else the [page] query parameter, else 1 (an empty
    string is falsy); [int()] of it, or the last page for ["last"]. *)
Definition paginate_queryset (l : list A) (page_size : nat)
    (kwarg : option string) (get : option string) : result http_error Page :=
  let np := num_pages_of (length l) page_size in
  let truthy o := match o with Some s => if String.eqb s EmptyString then None else Some s
                               | None => None end in
  let raw := match truthy kwarg with Some s => Some s | None => truthy get end in
  page_number ← match raw with
                | None => Ok 1%Z
                | Some s =>
                    match Py.int s with
                    | Some n => Ok n
                    | None => if String.eqb s "last" then Ok (Z.of_nat np) else raise Http404
                    end
                end;
  match page l page_size page_number with
  | Ok p => Ok p
  | Err _ => raise Http404
  end.

(** The [paginator]/[page_obj]/[is_paginated]/[object_list] part of
    [MultipleObjectMixin.get_context_data]. *)
Record ListContext := mkListContext {
  ctx_object_list : list A;
  is_paginated : bool;
  page_obj : option Page
  }.

Definition list_context (paginate_by : option nat) (qs : list A)
    (kwarg get : option string) : result http_error ListContext :=
  match paginate_by with
  | None => Ok (mkListContext qs false None)
  | Some size =>
      p ← paginate_queryset qs size kwarg get;
      Ok (mkListContext (object_list p) (has_other_pages p) (Some p))
  end.

(** ** Properties *)

Lemma num_pages_of_pos count per_page : 0 < per_page → 0 < num_pages_of count per_page.
Proof.
  intros Hp. unfold num_pages_of. apply Nat.div_str_pos. lia.
Qed.

(** The pages cover the list, and the last one is not empty unless
    the list is. *)
Lemma num_pages_of_bounds count per_page :
  0 < per_page →
  count ≤ num_pages_of count per_page * per_page ∧
  (num_pages_of count per_page - 1) * per_page < Nat.max 1 count.
Proof.
  intros Hp. unfold num_pages_of.
  pose proof (Nat.div_mod (Nat.max 1 count + per_page - 1) per_page ltac:(lia)) as Hd.
  pose proof (Nat.mod_upper_bound (Nat.max 1 count + per_page - 1) per_page ltac:(lia)).
  nia.
Qed.

Lemma validate_number_Ok n np k :
  0 < np → validate_number n np = Ok k ↔ (1 ≤ n ≤ Z.of_nat np)%Z ∧ k = Z.to_nat n.
Proof.
  intros Hnp. unfold validate_number.
  destruct (Z.ltb_spec n 1); [split; [discriminate|lia]|].
  destruct (Z.ltb_spec (Z.of_nat np) n).
  - destruct (Z.eqb_spec n 1); [lia|]. split; [discriminate|lia].
  - split; [intros Hv; injection Hv as <-; lia|intros [_ ->]; done].
Qed.

Lemma take_slice_min (l : list A) b per :
  take (Nat.min (length l) (b + per) - b) (drop b l) = take per (drop b l).
Proof.
  destruct (Nat.le_ge_cases (b + per) (length l)).
  - f_equal. lia.
  - rewrite !take_ge; [done| |]; rewrite length_drop; lia.
Qed.

(** The items of page [i] (counted from 1). *)
Definition page_items (l : list A) (per_page i : nat) : list A :=
  take per_page (drop ((i - 1) * per_page) l).

Lemma page_in_range (l : list A) per_page i :
  0 < per_page → 1 ≤ i ≤ num_pages_of (length l) per_page →
  page l per_page (Z.of_nat i) =
    Ok (mkPage (page_items l per_page i) i (num_pages_of (length l) per_page)).
Proof.
  intros Hp Hi. unfold page.
  rewrite (proj2 (validate_number_Ok _ _ i (num_pages_of_pos _ _ Hp))) by lia.
  simpl. f_equal. f_equal. unfold slice, page_items.
  rewrite <- (take_slice_min l ((i - 1) * per_page) per_page).
  f_equal. destruct (Nat.leb_spec (length l) ((i - 1) * per_page + per_page)); lia.
Qed.

(** C16: every page number from 1 to [num_pages] is valid, and page
    [i] holds the [per_page] items that follow the first
    [(i - 1) * per_page] (fewer on the last page). *)
Theorem page_Ok (l : list A) per_page i :
  0 < per_page → 1 ≤ i ≤ num_pages_of (length l) per_page →
  page l per_page (Z.of_nat i) =
    Ok (mkPage (page_items l per_page i) i (num_pages_of (length l) per_page)).
Proof. apply page_in_range. Qed.

(** C17: outside [1 .. num_pages] a page number raises [EmptyPage]. *)
Theorem page_Err (l : list A) per_page n :
  0 < per_page →
  (page l per_page n = raise EmptyPage ↔
     (n < 1)%Z ∨ (Z.of_nat (num_pages_of (length l) per_page) < n)%Z).
Proof.
  intros Hp. pose proof (num_pages_of_pos (length l) _ Hp). unfold page, validate_number.
  destruct (Z.ltb_spec n 1), (Z.ltb_spec (Z.of_nat (num_pages_of (length l) per_page)) n),
    (Z.eqb_spec n 1); simpl; split; intros Hv; try done; try lia.
Qed.

Lemma concat_pages (l : list A) per_page k :
  concat (page_items l per_page <$> seq 1 k) = take (k * per_page) l.
Proof.
  induction k as [|k IH]; [done|].
  rewrite seq_S, fmap_app, concat_app, IH.
  change (page_items l per_page <$> [1 + k]) with [page_items l per_page (1 + k)].
  cbn [concat]. rewrite app_nil_r.
  unfold page_items. replace (1 + k - 1) with k by lia.
  rewrite take_take_drop. f_equal. lia.
Qed.

Lemma page_items_nonempty (l : list A) per_page i :
  0 < per_page → l ≠ [] → 1 ≤ i ≤ num_pages_of (length l) per_page → page_items l per_page i ≠ [].
Proof.
  intros Hp Hl Hi. pose proof (num_pages_of_bounds (length l) _ Hp) as [_ Hb].
  assert ((i - 1) * per_page ≤ (num_pages_of (length l) per_page - 1) * per_page)
    by (apply Nat.mul_le_mono_r; lia).
  destruct l as [|x l]; [done|]. simpl in *. unfold page_items.
  rewrite <- length_zero_iff_nil, length_take, length_drop. simpl. lia.
Qed.

(** C15: the pages [Paginator.page] gives for [1 .. num_pages] are all
    valid and, read one after the other, give back the whole list in its
    order, so each item is on exactly one page; none of them is empty
    unless the list is. *)
Theorem pages_partition (l : list A) per_page :
  0 < per_page →
  ∃ pages, Forall2 (λ i p, page l per_page (Z.of_nat i) = Ok p) (seq 1 (num_pages_of (length l) per_page)) pages ∧
    concat (object_list <$> pages) = l ∧
    (l ≠ [] → Forall (λ p, object_list p ≠ []) pages).
Proof.
  intros Hp. set (np := num_pages_of (length l) per_page).
  exists ((λ i, mkPage (page_items l per_page i) i np) <$> seq 1 np). split_and!.
  - apply Forall2_fmap_r, Forall_Forall2_diag, Forall_forall. intros i Hi%elem_of_seq.
    apply page_in_range; [done|lia].
  - rewrite <- list_fmap_compose. change (concat (page_items l per_page <$> seq 1 np) = l).
    rewrite concat_pages.
    apply take_ge. pose proof (num_pages_of_bounds (length l) _ Hp). lia.
  - intros Hl. apply Forall_fmap, Forall_forall. intros i Hi%elem_of_seq. simpl.
    apply page_items_nonempty; [done|done|lia].
Qed.
End with_item.

(** The pagination test of [BlogPostListViewTest]: eight items, five per
    page, give a page of five and a page of three. *)
Lemma page_Ok_witness :
  page (seq 1 8) 5 2 = Ok (mkPage [6; 7; 8] 2 2).
Proof. apply (page_Ok (seq 1 8) 5 2); vm_compute; lia. Defined.

Lemma page_Err_witness : page (seq 1 8) 5 3 = raise EmptyPage.
Proof. apply (page_Err (seq 1 8) 5 3); [lia|]. right. vm_compute. reflexivity. Defined.

Lemma pages_partition_witness :
  ∃ pages, Forall2 (λ i p, page (seq 1 8) 5 (Z.of_nat i) = Ok p) (seq 1 (num_pages_of 8 5)) pages ∧
    concat (object_list <$> pages) = seq 1 8 ∧
    (seq 1 8 ≠ [] → Forall (λ p, object_list p ≠ []) pages).
Proof. apply (pages_partition (seq 1 8) 5). lia. Defined.
End Paginator.
