(* ===== verification/Urls.v ===== *)
(** * URLs: the route table of [src/blog/urls.py]

    [urlpatterns] as data: each entry is a route pattern (literal text
    and the [<int:pk>] converter), the view it dispatches to, and its
    name.  [resolve] is Django's resolver on a path below the app's
    mount point [/blog/] (the project's [include], which is not under
    [src/]); [reverse] is [django.urls.reverse] by name and [pk];
    [get_absolute_url] of [Blog] and [Author] (models.py) calls it.
    [quote] is [urllib.parse.quote], with which [redirect_to_login]
    writes the [next] parameter.  The round-trip theorem says that
    resolving a reversed URL gives back the view and the key, for every
    route. *)

From Stdlib Require Import Ascii String DecimalString.
From stdpp Require Import base list strings.
From S2P Require Import Prelude.

Module Urls.

(** The views of [views.py] the routes name. *)
Inductive view :=
| index
| AuthorListView
| AuthorDetailView
| BlogListByAuthorView
| BlogListView
| BlogDetailView
| create_comment.

#[export] Instance view_eq_dec : EqDecision view.
Proof. solve_decision. Defined.

(** A route pattern: literal text and the [<int:pk>] converter. *)
Inductive piece := Lit (s : string) | IntPk.

#[export] Instance piece_eq_dec : EqDecision piece.
Proof. solve_decision. Defined.

Record url_pattern := mkPattern { route : list piece; callback : view; name : string }.

Definition urlpatterns : list url_pattern := [
  mkPattern [] index "index";
  mkPattern [Lit "bloggers/"] AuthorListView "authors";
  mkPattern [Lit "bloggers/"; IntPk] AuthorDetailView "author-detail";
  mkPattern [Lit "bloggers2/"; IntPk] BlogListByAuthorView "blogs-by-author";
  mkPattern [Lit "blogs/"] BlogListView "blogs";
  mkPattern [Lit "blogs/"; IntPk] BlogDetailView "blog-detail";
  mkPattern [Lit "blogs/"; IntPk; Lit "/create"] create_comment "create-comment"
].

(** The mount point of the app, [path('blog/', include('blog.urls'))]. *)
Definition prefix : string := "/blog/".

(** The [int] converter: [regex = '[0-9]+'], [to_python = int],
    [to_url = str]. *)
Fixpoint span_digits (l : list ascii) : list ascii * list ascii :=
  match l with
  | c :: l' => if Py.is_digit c then let '(d, r) := span_digits l' in (c :: d, r) else ([], l)
  | [] => ([], [])
  end.

Definition int_to_python (ds : list ascii) : option nat :=
  Nat.of_uint <$> NilZero.uint_of_string (String.string_of_list_ascii ds).

(** Matching a route against the rest of a path: literal text must
    come next; the converter takes the longest run of digits (the
    regex engine's first success, since nothing that follows a
    converter in these routes starts with a digit); the whole path
    must be consumed. *)
Fixpoint match_route (ps : list piece) (l : list ascii) (pk : option nat)
    : option (option nat) :=
  match ps with
  | [] => match l with [] => Some pk | _ => None end
  | Lit t :: ps' =>
      let lt := String.list_ascii_of_string t in
      if decide (lt `prefix_of` l) then match_route ps' (drop (length lt) l) pk else None
  | IntPk :: ps' =>
      let '(ds, rest) := span_digits l in
      match ds with
      | [] => None
      | _ => k ← int_to_python ds; match_route ps' rest (Some k)
      end
  end.

Fixpoint resolve_in (pats : list url_pattern) (l : list ascii) : option (view * option nat) :=
  match pats with
  | [] => None
  | p :: pats' =>
      match match_route (route p) l None with
      | Some pk => Some (callback p, pk)
      | None => resolve_in pats' l
      end
  end.

(** [resolve(path)]: the first pattern that matches, or [None] (the
    [Resolver404] that becomes a 404). *)
Definition resolve (path : string) : option (view * option nat) :=
  let lp := String.list_ascii_of_string prefix in
  let l := String.list_ascii_of_string path in
  if decide (lp `prefix_of` l) then resolve_in urlpatterns (drop (length lp) l) else None.

(** Filling a route's converters: [None] is [NoReverseMatch]. *)
Fixpoint fill (ps : list piece) (pk : option nat) : option string :=
  match ps, pk with
  | [], _ => Some EmptyString
  | Lit t :: ps', _ => String.append t <$> fill ps' pk
  | IntPk :: ps', Some k => String.append (Py.str k) <$> fill ps' pk
  | IntPk :: _, None => None
  end.

Definition has_int (ps : list piece) : bool := bool_decide (IntPk ∈ ps).

(** [reverse(name, kwargs={'pk': pk})]: the first pattern of that name
    whose converters the arguments fill. *)
Definition reverse (nm : string) (pk : option nat) : option string :=
  match list_find (λ p, name p = nm ∧ has_int (route p) = bool_decide (is_Some pk)) urlpatterns with
  | Some (_, p) => String.append prefix <$> fill (route p) pk
  | None => None
  end.

(** [Blog.get_absolute_url] and [Author.get_absolute_url]:
    [reverse(..., args=[str(self.id)])]; the string argument goes
    through the converter's regex, so it is the [pk] itself. *)
Definition blog_get_absolute_url (id : nat) : option string := reverse "blog-detail" (Some id).
Definition author_get_absolute_url (id : nat) : option string := reverse "author-detail" (Some id).

(** [urllib.parse.quote(s, safe)]: letters, digits, [_.-~] and the
    [safe] characters are kept, every other character becomes the
    [%XX] escapes of its UTF-8 bytes. *)
Definition always_safe (c : ascii) : bool :=
  let n := Ascii.nat_of_ascii c in
  ((48 <=? n) && (n <=? 57)) || ((65 <=? n) && (n <=? 90)) || ((97 <=? n) && (n <=? 122)) ||
  bool_decide (c ∈ String.list_ascii_of_string "_.-~").

Definition hex_digit (n : nat) : ascii :=
  Ascii.ascii_of_nat (if n <? 10 then 48 + n else 55 + n).

Definition pct (b : nat) : list ascii := ["%"%char; hex_digit (b / 16); hex_digit (b mod 16)].

Definition utf8_bytes (c : ascii) : list nat :=
  let n := Ascii.nat_of_ascii c in
  if n <? 128 then [n] else [192 + n / 64; 128 + n mod 64].

Definition quote_char (safe : string) (c : ascii) : list ascii :=
  if always_safe c || bool_decide (c ∈ String.list_ascii_of_string safe) then [c]
  else concat (map pct (utf8_bytes c)).

Definition quote (s safe : string) : string :=
  String.string_of_list_ascii (concat (map (quote_char safe) (String.list_ascii_of_string s))).

(** [django.utils.encoding.escape_uri_path] and [iri_to_uri]. *)
Definition escape_uri_path (path : string) : string := quote path "/:@&+$,-_.!~*'()".
Definition iri_to_uri (iri : string) : string := quote iri "/#%[]=:;$&()+,!?*@'~".

(** [settings.LOGIN_URL], Django's default. *)
Definition LOGIN_URL : string := "/accounts/login/".

(** [redirect_to_login(next, LOGIN_URL, 'next')]: the login URL with
    the query string [next=...], written by [QueryDict.urlencode(safe='/')]. *)
Definition redirect_to_login (next : string) : string :=
  LOGIN_URL ++ "?next=" ++ quote next "/".
(** ** Properties of [reverse] and [quote] *)

Lemma blog_get_absolute_url_eq pk :
  blog_get_absolute_url pk = Some ("/blog/blogs/" +:+ Py.str pk).
Proof. unfold blog_get_absolute_url, reverse. simpl. by rewrite string_app_nil_r. Qed.

Lemma create_comment_url_eq pk :
  reverse "create-comment" (Some pk) = Some ("/blog/blogs/" +:+ Py.str pk +:+ "/create").
Proof. unfold reverse. simpl. by rewrite string_app_nil_r. Qed.

(** The characters a reversed URL is made of: [always_safe] ones and [/]. *)
Definition url_safe (c : ascii) : bool := always_safe c || Ascii.eqb c "/"%char.

Lemma quote_char_safe safe c :
  "/"%char ∈ String.list_ascii_of_string safe → url_safe c = true → quote_char safe c = [c].
Proof.
  intros Hs Hc. unfold quote_char, url_safe in *.
  destruct (always_safe c); [done|]. simpl in Hc.
  apply Ascii.eqb_eq in Hc as ->. by rewrite bool_decide_eq_true_2.
Qed.

Lemma quote_of_safe s safe :
  "/"%char ∈ String.list_ascii_of_string safe →
  Forall (λ c, url_safe c = true) (String.list_ascii_of_string s) →
  quote s safe = s.
Proof.
  intros Hs Hall. unfold quote.
  rewrite <- (String.string_of_list_ascii_of_string s) at 2. f_equal.
  induction Hall as [|c l Hc Hl IH]; [done|].
  simpl. rewrite quote_char_safe by done. simpl. by rewrite IH.
Qed.

Lemma digits_url_safe l :
  Forall (λ c, Py.is_digit c = true) l → Forall (λ c, url_safe c = true) l.
Proof.
  intros Hl. eapply Forall_impl; [exact Hl|]. intros c.
  unfold url_safe, always_safe, Py.is_digit. intros ->. done.
Qed.

Lemma create_comment_path_safe pk :
  Forall (λ c, url_safe c = true)
    (String.list_ascii_of_string ("/blog/blogs/" +:+ Py.str pk +:+ "/create")).
Proof.
  rewrite !list_ascii_of_string_app. apply Forall_app. split; [repeat constructor|].
  apply Forall_app. split; [apply digits_url_safe, Py_str_digits|repeat constructor].
Qed.
(** ** Resolving a reversed URL *)

Lemma span_digits_app ds rest :
  Forall (λ c, Py.is_digit c = true) ds →
  (match rest with c :: _ => Py.is_digit c = false | [] => True end) →
  span_digits (ds ++ rest) = (ds, rest).
Proof.
  induction 1 as [|c ds Hc Hds IH]; intros Hr.
  - destruct rest as [|c rest]; simpl; [done|]. by rewrite Hr.
  - simpl. rewrite Hc, IH by done. done.
Qed.
Lemma int_to_python_str k : int_to_python (list_ascii_of_string (Py.str k)) = Some k.
Proof. unfold int_to_python. rewrite string_of_list_ascii_of_string. apply Py_str_of_uint. Qed.

Ltac decide_prefix :=
  repeat first
    [ rewrite decide_True by (eexists; reflexivity)
    | rewrite decide_False by (intros [? Hx]; simplify_eq) ].

Lemma span_digits_cons c ds rest :
  Forall (λ c, Py.is_digit c = true) (c :: ds) →
  (match rest with c :: _ => Py.is_digit c = false | [] => True end) →
  span_digits (c :: ds ++ rest) = (c :: ds, rest).
Proof. apply (span_digits_app (c :: ds)). Qed.

Lemma span_digits_all c ds :
  Forall (λ c, Py.is_digit c = true) (c :: ds) → span_digits (c :: ds) = (c :: ds, []).
Proof. intros Hd. rewrite <- (app_nil_r (c :: ds)) at 1. by apply span_digits_app. Qed.

Ltac resolve_tac Hd Hne Hint :=
  repeat (decide_prefix; cbn [drop length callback match_route app]);
  try rewrite span_digits_cons by (exact Hd || done);
  try rewrite span_digits_all by exact Hd;
  cbn [drop length callback match_route app];
  try rewrite Hint; cbn [drop length callback match_route app mbind option_bind];
  repeat (decide_prefix; cbn [drop length callback match_route app]).

(** The string [/blog/] ++ [fill route pk], with the digits of the key
    abstracted: what [resolve] reads. *)
Ltac start_resolve k :=
  unfold resolve; rewrite ?list_ascii_of_string_app;
  let Hd := fresh "Hd" in let Hne := fresh "Hne" in let Hint := fresh "Hint" in
  destruct (Py_str_digits k) as [Hd Hne]; pose proof (int_to_python_str k) as Hint;
  revert Hd Hne Hint; generalize (String.list_ascii_of_string (Py.str k)) as ds;
  intros ds Hd Hne Hint; destruct ds as [|c ds]; [done|];
  cbn [String.list_ascii_of_string app resolve_in urlpatterns route match_route prefix];
  resolve_tac Hd Hne Hint.

(** C21: the URL [reverse] builds for a route and a key is resolved back
    to that route's view and that key, for every route of [urlpatterns]. *)
Theorem resolve_reverse p pk url :
  p ∈ urlpatterns → reverse (name p) pk = Some url → resolve url = Some (callback p, pk).
Proof.
  intros Hp Hrev. unfold urlpatterns in Hp.
  repeat (apply elem_of_cons in Hp as [->|Hp]); [..|by apply elem_of_nil in Hp];
    destruct pk as [k|]; unfold reverse in Hrev; simpl in Hrev; try discriminate Hrev;
    injection Hrev as <-; rewrite ?string_app_nil_r; try reflexivity; start_resolve k; reflexivity.
Qed.

Lemma resolve_reverse_witness :
  resolve "/blog/blogs/1/create" = Some (create_comment, Some 1).
Proof.
  apply (resolve_reverse (mkPattern [Lit "blogs/"; IntPk; Lit "/create"] create_comment "create-comment")
                         (Some 1)).
  - unfold urlpatterns. repeat (try (left; reflexivity); right). 
  - vm_compute. reflexivity.
Defined.
End Urls.
