(* ===== verification/Views.v ===== *)
(** * Views: the request handlers of [src/blog/views.py]

    A request is a record of what the handlers read ([method], [path],
    the query string, [GET], [POST], the authenticated user, the
    session); a response is a rendered template with its context, a
    redirect, or a 404.  Each handler takes the database and returns the
    response with the database and session it leaves.  [index] reads
    and bumps the session's visit counter; the generic views are
    [ListView]/[DetailView] with their [get_queryset] and
    [get_context_data]; [create_comment] is the [login_required]
    wrapper around the comment-creation function. *)

From Stdlib Require Import String.
From stdpp Require Import base list gmap strings.
From S2P Require Import Prelude Models Forms Paginator Urls.

Module Views.

(** [request.session]: a dictionary; the handlers store integers. *)
Abbreviation Session := (gmap string nat).

Record Request := mkRequest {
  method : string;
  path : string;
  query_string : string;
  GET : Fields.QueryDict;
  POST : Fields.QueryDict;
  user : option nat;          (** [request.user]: [None] is [AnonymousUser] *)
  session : Session
}.

(** [request.get_full_path()]. *)
Definition get_full_path (r : Request) : string :=
  Urls.escape_uri_path (path r) ++
  (if String.eqb (query_string r) EmptyString then EmptyString
   else "?" ++ Urls.iri_to_uri (query_string r)).

(** The state of the comment form a template receives. *)
Inductive FormState :=
| Unbound                                             (** [CommentForm()] *)
| Bound (data : Fields.QueryDict) (errors : list Fields.error).

Inductive Context :=
| IndexContext (num_posts num_authors num_visits : nat)
| BlogListContext (ctx : Paginator.ListContext (A := nat * Blog.t))
| BlogDetailContext (object : nat * Blog.t)
| AuthorListContext (ctx : Paginator.ListContext (A := nat * Author.t))
| AuthorDetailContext (object : nat * Author.t)
| BlogsByAuthorContext (ctx : Paginator.ListContext (A := nat * Blog.t)) (author : nat * Author.t)
| CreateCommentContext (form : FormState) (blog : nat * Blog.t).

Inductive Response :=
| Render (template_name : string) (context : Context)
| Redirect (url : string)                  (** 302 *)
| NotFound                                 (** 404, from [Http404] *)
| ServerError.                             (** 500, an uncaught exception *)

(** [get_object_or_404(Model, pk=pk)]. *)
Definition get_object_or_404 {A} (table : gmap nat A) (pk : nat) : result http_error (nat * A) :=
  of_option Http404 ((λ x, (pk, x)) <$> table !! pk).

Definition of_http {A} (r : result http_error A) (k : A → Response) : Response :=
  match r with Ok a => k a | Err Http404 => NotFound end.

(** ** [index] *)
Definition index (db : Db) (r : Request) : Response * Session :=
  let num_posts := blog_count db in
  let num_authors := author_count db in
  let num_visits := default 0 (session r !! "num_visits") in
  let session' := <["num_visits" := num_visits + 1]> (session r) in
  (Render "blog/index.html" (IndexContext num_posts num_authors num_visits), session').

(** ** The generic views *)

(** [BlogListView]: [paginate_by = 5]. *)
Definition BlogListView (db : Db) (r : Request) : Response :=
  of_http (Paginator.list_context (Some 5) (blog_objects_all db) None
                                  (Fields.querydict_get (GET r) "page"))
          (λ ctx, Render "blog/blog_list.html" (BlogListContext ctx)).

(** [BlogDetailView]. *)
Definition BlogDetailView (db : Db) (pk : nat) : Response :=
  of_http (get_object_or_404 (blogs db) pk)
          (λ b, Render "blog/blog_detail.html" (BlogDetailContext b)).

(** [AuthorListView]: not paginated. *)
Definition AuthorListView (db : Db) (r : Request) : Response :=
  of_http (Paginator.list_context None (author_objects_all db) None
                                  (Fields.querydict_get (GET r) "page"))
          (λ ctx, Render "blog/author_list.html" (AuthorListContext ctx)).

(** [AuthorDetailView]: a [DetailView], so [paginate_by = 1] is read
    by nothing. *)
Definition AuthorDetailView (db : Db) (pk : nat) : Response :=
  of_http (get_object_or_404 (authors db) pk)
          (λ a, Render "blog/author_detail.html" (AuthorDetailContext a)).

(** [BlogListByAuthorView]: [get_queryset] looks the author up (404)
    and filters the blogs; [get_context_data] paginates them by 5 and
    looks the author up a second time for the context. *)
Definition BlogListByAuthorView_get_queryset (db : Db) (pk : nat) : result http_error (list (nat * Blog.t)) :=
  target_author ← get_object_or_404 (authors db) pk;
  Ok (blog_objects_filter_author db target_author.1).

Definition BlogListByAuthorView (db : Db) (r : Request) (pk : nat) : Response :=
  of_http (qs ← BlogListByAuthorView_get_queryset db pk;
           ctx ← Paginator.list_context (Some 5) qs None (Fields.querydict_get (GET r) "page");
           author ← get_object_or_404 (authors db) pk;
           Ok (ctx, author))
          (λ '(ctx, author), Render "blog/blog_list_by_author.html" (BlogsByAuthorContext ctx author)).

(** ** [create_comment] *)

(** [comment.save()] on a row [objects.create] just inserted: an
    [UPDATE] of that row with the same values. *)
Definition save_comment (k : nat) (c : Comment.t) (db : Db) : Db :=
  mkDb (users db) (authors db) (blogs db) (<[k := c]> (comments db))
       (next_user db) (next_author db) (next_blog db) (next_comment db).

(** The body of [create_comment(request, pk)]; [uid] is the logged-in
    user, [now] is [timezone.now()]. *)
Definition create_comment_body (db : Db) (r : Request) (now : Z) (uid pk : nat) : Response * Db :=
  match get_object_or_404 (blogs db) pk with
  | Err Http404 => (NotFound, db)
  | Ok blog =>
      if String.eqb (method r) "POST" then
        match CommentForm.full_clean (POST r) with
        | Ok content =>
            let c := Comment.mk (Some pk) content (Some now) (Some uid) in
            match create_comment_row c db with
            | Ok (db', k) =>
                let db'' := save_comment k c db' in
                match Urls.reverse "blog-detail" (Some pk) with
                | Some url => (Redirect url, db'')
                | None => (ServerError, db'')
                end
            | Err _ => (ServerError, db)
            end
        | Err errs =>
            (Render "blog/create_comment.html" (CreateCommentContext (Bound (POST r) errs) blog), db)
        end
      else (Render "blog/create_comment.html" (CreateCommentContext Unbound blog), db)
  end.

(** [@login_required]: an anonymous user is sent to the login page
    with the full path of this request as [next]. *)
Definition login_required (handler : nat → Response * Db) (db : Db) (r : Request) : Response * Db :=
  match user r with
  | None => (Redirect (Urls.redirect_to_login (get_full_path r)), db)
  | Some uid => handler uid
  end.

Definition create_comment (db : Db) (r : Request) (now : Z) (pk : nat) : Response * Db :=
  login_required (λ uid, create_comment_body db r now uid pk) db r.

(** ** Properties of [create_comment] *)

Lemma fk_ok_lookup {A} (m : gmap nat A) k x : m !! k = Some x → fk_ok m (Some k) = true.
Proof. intros H. unfold fk_ok. by rewrite H. Qed.

Lemma get_object_or_404_Some {A} (m : gmap nat A) k x :
  m !! k = Some x → get_object_or_404 m k = Ok (k, x).
Proof. intros H. unfold get_object_or_404. by rewrite H. Qed.

Lemma get_object_or_404_None {A} (m : gmap nat A) k :
  m !! k = None → get_object_or_404 m k = raise Http404.
Proof. intros H. unfold get_object_or_404. by rewrite H. Qed.

Lemma save_comment_created c db db' k :
  create_comment_row c db = Ok (db', k) → save_comment k c db' = db'.
Proof.
  unfold create_comment_row, save_comment. intros H.
  destruct (_ && _); simplify_eq/=. by rewrite insert_insert_eq.
Qed.

Definition is_post (r : Request) : Prop := method r = "POST".

(** C1: a logged-in user's valid submission on an existing blog
    inserts exactly one comment, at a fresh key, with the cleaned
    text, the blog, the user and the current time, changes nothing
    else, and redirects to the blog's detail page. *)
Theorem create_comment_valid db r now pk uid u b content :
  wf_db db → user r = Some uid → users db !! uid = Some u → blogs db !! pk = Some b →
  is_post r → CommentForm.full_clean (POST r) = Ok content →
  let c := Comment.mk (Some pk) content (Some now) (Some uid) in
  comments db !! next_comment db = None ∧
  create_comment db r now pk =
    (Redirect ("/blog/blogs/" +:+ Py.str pk),
     mkDb (users db) (authors db) (blogs db) (<[next_comment db := c]> (comments db))
          (next_user db) (next_author db) (next_blog db) (S (next_comment db))).
Proof.
  intros Hwf Hu Huid Hb Hpost Hclean c. split; [apply keys_lt_fresh, Hwf|].
  unfold create_comment, login_required, create_comment_body. rewrite Hu.
  rewrite (get_object_or_404_Some _ _ _ Hb), Hpost, Hclean. simpl String.eqb; cbv iota.
  unfold create_comment_row. cbn [Comment.blog Comment.author].
  pose proof (Urls.blog_get_absolute_url_eq pk) as Hurl.
  unfold Urls.blog_get_absolute_url in Hurl.
  rewrite (fk_ok_lookup _ _ _ Hb), (fk_ok_lookup _ _ _ Huid), Hurl.
  unfold save_comment. simpl. by rewrite insert_insert_eq.
Qed.
(** C2: a logged-in user's invalid submission creates nothing and
    re-renders the form bound to the submitted data with the field's
    errors. *)
Theorem create_comment_invalid db r now pk uid b errs :
  user r = Some uid → blogs db !! pk = Some b → is_post r →
  CommentForm.full_clean (POST r) = raise errs →
  create_comment db r now pk =
    (Render "blog/create_comment.html" (CreateCommentContext (Bound (POST r) errs) (pk, b)), db).
Proof.
  intros Hu Hb Hpost Hclean.
  unfold create_comment, login_required, create_comment_body. rewrite Hu.
  by rewrite (get_object_or_404_Some _ _ _ Hb), Hpost, Hclean.
Qed.

(** C3: an anonymous request changes nothing and is redirected to the
    login page with its full path as [next]; for the create-comment
    URL of any blog, with no query string, [next] is that path itself. *)
Theorem create_comment_anonymous db r now pk :
  user r = None →
  create_comment db r now pk = (Redirect (Urls.redirect_to_login (get_full_path r)), db) ∧
  (path r = "/blog/blogs/" +:+ Py.str pk +:+ "/create" → query_string r = EmptyString →
   Urls.redirect_to_login (get_full_path r) = Urls.LOGIN_URL +:+ "?next=" +:+ path r).
Proof.
  intros Hu. split; [unfold create_comment, login_required; by rewrite Hu|].
  intros Hp Hq. unfold Urls.redirect_to_login, get_full_path. rewrite Hq. simpl.
  rewrite string_app_nil_r. unfold Urls.escape_uri_path.
  rewrite Hp, (Urls.quote_of_safe _ "/:@&+$,-_.!~*'()"), Urls.quote_of_safe;
    first [reflexivity | apply Urls.create_comment_path_safe | simpl; constructor].
Qed.

(** C4: for a logged-in user, a missing blog is a 404 and any method
    other than POST renders the empty form; neither changes the database. *)
Theorem create_comment_read db r now pk uid :
  user r = Some uid →
  (blogs db !! pk = None → create_comment db r now pk = (NotFound, db)) ∧
  (∀ b, blogs db !! pk = Some b → ¬ is_post r →
     create_comment db r now pk =
       (Render "blog/create_comment.html" (CreateCommentContext Unbound (pk, b)), db)).
Proof.
  intros Hu. unfold create_comment, login_required, create_comment_body. rewrite Hu. split.
  - intros Hb. by rewrite (get_object_or_404_None _ _ Hb).
  - intros b Hb Hnp. rewrite (get_object_or_404_Some _ _ _ Hb).
    destruct (String.eqb_spec (method r) "POST"); [contradiction|done].
Qed.

Lemma create_comment_keeps_wf db r now pk : wf_db db → wf_db (create_comment db r now pk).2.
Proof.
  intros Hwf. unfold create_comment, login_required, create_comment_body.
  destruct (user r) as [uid|]; [|done].
  destruct (get_object_or_404 _ _) as [blog|[]]; [|done].
  destruct (String.eqb _ _); [|done].
  destruct (CommentForm.full_clean _) as [content|]; [|done].
  destruct (create_comment_row _ _) as [[db' k]|] eqn:Hc; [|done].
  rewrite (save_comment_created _ _ _ _ Hc).
  destruct (Urls.reverse _ _); eapply create_comment_row_wf; eauto.
Qed.

(** [create_comment] leaves the database alone or inserts the cleaned
    comment of the logged-in user. *)
Lemma create_comment_db db r now pk :
  (create_comment db r now pk).2 = db ∨
  ∃ uid content k d', CommentForm.full_clean (POST r) = Ok content ∧
    create_comment_row (Comment.mk (Some pk) content (Some now) (Some uid)) db = Ok (d', k) ∧
    (create_comment db r now pk).2 = d'.
Proof.
  unfold create_comment, login_required, create_comment_body.
  destruct (user r) as [uid|]; [|by left].
  destruct (get_object_or_404 _ _) as [blog|[]]; [|by left].
  destruct (String.eqb _ _); [|by left].
  destruct (CommentForm.full_clean _) as [content|] eqn:Hf; [|by left].
  destruct (create_comment_row _ _) as [[db' k]|] eqn:Hc; [|by left].
  right. exists uid, content, k, db'. split_and!; [done|done|].
  rewrite (save_comment_created _ _ _ _ Hc). by destruct (Urls.reverse _ _).
Qed.

(** ** Properties of the list views *)

Lemma paginate_queryset_page {A} (l : list A) size s i :
  0 < size → 1 ≤ i ≤ Paginator.num_pages_of (length l) size →
  String.eqb s EmptyString = false → Py.int s = Some (Z.of_nat i) →
  Paginator.paginate_queryset l size None (Some s) =
    Ok (Paginator.mkPage (Paginator.page_items l size i) i (Paginator.num_pages_of (length l) size)).
Proof.
  intros Hs Hi Hne Hint. unfold Paginator.paginate_queryset. simpl. rewrite Hne, Hint. simpl.
  by rewrite Paginator.page_in_range.
Qed.

(** C18: [BlogListView] shows page [i] of the blogs, newest first, five
    per page, for every page number [i] from 1 to the page count,
    and [is_paginated] holds exactly when there is more than one page. *)
Theorem BlogListView_page db r s i :
  Fields.querydict_get (GET r) "page" = Some s →
  String.eqb s EmptyString = false → Py.int s = Some (Z.of_nat i) →
  1 ≤ i ≤ Paginator.num_pages_of (blog_count db) 5 →
  BlogListView db r =
    Render "blog/blog_list.html" (BlogListContext (Paginator.mkListContext
      (Paginator.page_items (blog_objects_all db) 5 i)
      (1 <? Paginator.num_pages_of (blog_count db) 5)
      (Some (Paginator.mkPage (Paginator.page_items (blog_objects_all db) 5 i) i
                              (Paginator.num_pages_of (blog_count db) 5))))).
Proof.
  intros Hget Hne Hint Hi.
  pose proof (length_blog_objects_all db) as Hlen.
  unfold BlogListView, Paginator.list_context. rewrite Hget, <- Hlen in *.
  rewrite (paginate_queryset_page _ _ _ i) by (done || lia). simpl.
  unfold Paginator.has_other_pages; simpl. do 4 f_equal.
  destruct (Nat.ltb_spec 1 i), (Nat.ltb_spec i (Paginator.num_pages_of (length (blog_objects_all db)) 5)),
    (Nat.ltb_spec 1 (Paginator.num_pages_of (length (blog_objects_all db)) 5)); simpl; try done; lia.
Qed.

(** C19: [BlogListByAuthorView] is a 404 for a missing author; for an
    existing one with no [page] parameter it shows the first five of
    that author's blogs, newest first, and the author. *)
Theorem BlogListByAuthorView_spec db r pk :
  Fields.querydict_get (GET r) "page" = None →
  (authors db !! pk = None → BlogListByAuthorView db r pk = NotFound) ∧
  (∀ a, authors db !! pk = Some a →
     ∃ ctx, BlogListByAuthorView db r pk =
              Render "blog/blog_list_by_author.html" (BlogsByAuthorContext ctx (pk, a)) ∧
            Paginator.ctx_object_list ctx = take 5 (blog_objects_filter_author db pk)).
Proof.
  intros Hget. unfold BlogListByAuthorView, BlogListByAuthorView_get_queryset. split.
  - intros Ha. by rewrite (get_object_or_404_None _ _ Ha).
  - intros a Ha. rewrite (get_object_or_404_Some _ _ _ Ha). simpl.
    unfold Paginator.list_context, Paginator.paginate_queryset. rewrite Hget. simpl.
    rewrite (Paginator.page_in_range _ _ 1); [|lia|split; [lia|apply Paginator.num_pages_of_pos; lia]].
    eexists. split; [reflexivity|]. done.
Qed.
(** ** Witnesses *)

(** A request to [/blog/blogs/1/create] with method [m], POST data
    [data] and user [u], and no query string. *)
Definition create_request (m : string) (data : Fields.QueryDict) (u : option nat) : Request :=
  mkRequest m "/blog/blogs/1/create" EmptyString [] data u ∅.

Lemma create_comment_valid_witness :
  ∃ d, create_comment fixture_db (create_request "POST" [("content", " Nice post ")] (Some 1)) 5 1 =
         (Redirect "/blog/blogs/1", d) ∧
       comments d !! 2 = Some (Comment.mk (Some 1) "Nice post" (Some 5%Z) (Some 1)).
Proof.
  eexists. split.
  - apply (proj2 (create_comment_valid fixture_db
                    (create_request "POST" [("content", " Nice post ")] (Some 1)) 5 1 1 (User.mk "test_user") fixture_blog "Nice post"
                    (wf_of_reachable fixture_db fixture_db_reachable) eq_refl
                    ltac:(vm_compute; reflexivity) ltac:(vm_compute; reflexivity)
                    eq_refl ltac:(vm_compute; reflexivity))).
  - vm_compute. reflexivity.
Defined.

Lemma create_comment_invalid_witness :
  create_comment fixture_db (create_request "POST" [("content", "  ")] (Some 1)) 5 1 =
    (Render "blog/create_comment.html"
       (CreateCommentContext (Bound [("content", "  ")] [Fields.required]) (1, fixture_blog)),
     fixture_db).
Proof.
  apply (create_comment_invalid fixture_db (create_request "POST" [("content", "  ")] (Some 1))
           5 1 1 fixture_blog); vm_compute; reflexivity.
Defined.

Lemma create_comment_anonymous_witness :
  create_comment fixture_db (create_request "GET" [] None) 5 1 =
    (Redirect "/accounts/login/?next=/blog/blogs/1/create", fixture_db).
Proof.
  destruct (create_comment_anonymous fixture_db (create_request "GET" [] None) 5 1 eq_refl) as [H1 H2].
  rewrite H1, H2 by reflexivity. reflexivity.
Defined.

Lemma create_comment_read_witness :
  create_comment fixture_db (create_request "GET" [] (Some 1)) 5 7 = (NotFound, fixture_db) ∧
  create_comment fixture_db (create_request "GET" [] (Some 1)) 5 1 =
    (Render "blog/create_comment.html" (CreateCommentContext Unbound (1, fixture_blog)), fixture_db).
Proof.
  destruct (create_comment_read fixture_db (create_request "GET" [] (Some 1)) 5 7 1 eq_refl) as [H _].
  destruct (create_comment_read fixture_db (create_request "GET" [] (Some 1)) 5 1 1 eq_refl) as [_ H'].
  split; [apply H; vm_compute; reflexivity|].
  apply H'; [vm_compute; reflexivity|]. unfold is_post. simpl. discriminate.
Defined.

Lemma BlogListByAuthorView_spec_witness :
  BlogListByAuthorView fixture_db (create_request "GET" [] None) 9 = NotFound ∧
  ∃ ctx, BlogListByAuthorView fixture_db (create_request "GET" [] None) 1 =
           Render "blog/blog_list_by_author.html" (BlogsByAuthorContext ctx (1, fixture_author)) ∧
         Paginator.ctx_object_list ctx = [(1, fixture_blog)].
Proof.
  destruct (BlogListByAuthorView_spec fixture_db (create_request "GET" [] None) 9 eq_refl) as [H _].
  destruct (BlogListByAuthorView_spec fixture_db (create_request "GET" [] None) 1 eq_refl) as [_ H'].
  split; [apply H; vm_compute; reflexivity|].
  destruct (H' fixture_author ltac:(vm_compute; reflexivity)) as (ctx & Hv & Hc).
  exists ctx. split; [exact Hv|]. rewrite Hc. vm_compute. reflexivity.
Defined.
(** [BlogPostListViewTest.setUpTestData]: one author and eight posts. *)
Definition BlogPostListViewTest_setUpTestData : list orm_op :=
  [CreateUser (User.mk "test_user"); CreateAuthor (Author.mk (Some 1) "My biography.")] ++
  map (λ i, CreateBlog (Blog.mk ("title " +:+ Py.str i) (Some 1) ("blog #" +:+ Py.str i) None)) (seq 0 8).

Definition blog_list_db : Db :=
  match run_ops BlogPostListViewTest_setUpTestData empty_db with Ok d => d | Err _ => empty_db end.

Lemma BlogListView_page_witness :
  ∃ ctx, BlogListView blog_list_db (mkRequest "GET" "/blog/blogs/" "page=2" [("page", "2")] [] None ∅) =
           Render "blog/blog_list.html" (BlogListContext ctx) ∧
         Paginator.ctx_object_list ctx = Paginator.page_items (blog_objects_all blog_list_db) 5 2 ∧
         Paginator.is_paginated ctx = true.
Proof.
  eexists. split.
  - apply (BlogListView_page blog_list_db _ "2" 2); vm_compute; try reflexivity; lia.
  - split; reflexivity.
Defined.
End Views.
