(* ===== verification/Admin.v ===== *)
(** * Admin: the admin site of [src/blog/admin.py], its changelists

    [admin.py] registers the three models: [Author] with a default
    [ModelAdmin], [Blog] with [BlogAdmin] ([list_display],
    [search_fields = ['title']], [list_filter = ['post_date']] and the
    [CommentInline] with [extra = 0]) and [Comment] with a [ModelAdmin]
    class also named [Comment] ([list_display] with the
    [display_comment] preview).  What the admin does with these
    declarations is Django's [ModelAdmin]; this file models the reading
    side the declarations configure:
    - [ModelAdmin]: a record of the declarations, one value per
      registration ([AuthorAdmin], [BlogAdmin], [CommentAdmin]);
    - the changelist's queryset ([get_queryset]): the [DateFieldListFilter]
      on [post_date] (its links computed from today's date with
      [Calendar]), the search of [Search], and the ordering, which
      [ChangeList._get_deterministic_ordering] completes with ["-pk"];
    - the changelist's cells ([list_display]).
    The writes (the forms, the inline formset and the add, change and
    delete views) are in [AdminEdit].  A date filter choice stands for
    the link the user follows (its query parameters); parsing arbitrary
    filter parameters, the sort links of the column headers and
    pagination ([list_per_page = 100]) are not modelled. *)

From Stdlib Require Import Ascii String ZArith.
From stdpp Require Import base list gmap strings sorting.
From S2P Require Import Prelude Calendar Search Models Forms.

Module Admin.

(** ** Cells of the changelist *)

Inductive cell :=
| Text (s : string)
| EmptyValue            (** [empty_value_display], a dash *)
| DateCell (ordinal : Z)
| DateTimeCell (ticks : Z).

(** A foreign key column: [str()] of the related row, the empty value
    for NULL, and for a row that no longer exists ([ObjectDoesNotExist]). *)
Definition fk_cell {B} (m : gmap nat B) (show : B → string) (o : option nat) : cell :=
  match o with
  | None => EmptyValue
  | Some k => match m !! k with Some b => Text (show b) | None => EmptyValue end
  end.

Definition date_cell (o : option Z) : cell :=
  match o with None => EmptyValue | Some d => DateCell d end.

(** ** Ordering *)

(** One [ORDER BY] term on a nullable integer column; [unique_not_null]
    marks a column that orders totally (the primary key). *)
Record order_term (A : Type) := mkterm {
  column : nat * A → option Z;
  descending : bool;
  unique_not_null : bool
}.
Arguments mkterm {A}.
Arguments column {A}.
Arguments descending {A}.
Arguments unique_not_null {A}.

(** [ORDER BY t1, t2, ...]: the first term that differs decides. *)
Fixpoint order_le {A} (terms : list (order_term A)) (x y : nat * A) : bool :=
  match terms with
  | [] => true
  | t :: ts =>
      let a := column t x in
      let b := column t y in
      if decide (a = b) then order_le ts x y
      else if descending t then sql_le b a else sql_le a b
  end.

#[export] Instance order_le_dec {A} (terms : list (order_term A)) :
  RelDecision (λ x y, order_le terms x y = true) := λ x y, decide (order_le terms x y = true).

(** ["-pk"]. *)
Definition pk_desc {A} : order_term A := mkterm (λ r, Some (Z.of_nat r.1)) true true.

(** [ChangeList._get_deterministic_ordering]: an ordering with no
    total column gets ["-pk"] appended. *)
Definition get_deterministic_ordering {A} (ordering : list (order_term A)) : list (order_term A) :=
  if existsb unique_not_null ordering then ordering else ordering ++ [pk_desc].

(** ** [ModelAdmin] *)

Record ModelAdmin (A : Type) := mkModelAdmin {
  table : Db → gmap nat A;
  ordering : list (order_term A);           (** [get_ordering]: the model's [Meta.ordering] *)
  search_fields : list (A → string);
  list_filter_date : option (A → option Z); (** a [DateFieldListFilter] on a nullable [DateField] *)
  list_display : Db → nat * A → list cell
}.
Arguments table {A}.
Arguments ordering {A}.
Arguments search_fields {A}.
Arguments list_filter_date {A}.
Arguments list_display {A}.

(** [admin.site.register(Author)]: the defaults, [list_display = ('__str__',)]. *)
Definition AuthorAdmin : ModelAdmin Author.t := {|
  table := authors;
  ordering := [];
  search_fields := [];
  list_filter_date := None;
  list_display := λ db r, [Text (author_str db r.2)]
|}.

(** [BlogAdmin]. *)
Definition BlogAdmin : ModelAdmin Blog.t := {|
  table := blogs;
  ordering := [mkterm (λ r, Blog.post_date r.2) true false];
  search_fields := [Blog.title];
  list_filter_date := Some Blog.post_date;
  list_display := λ db r,
    [Text (Blog.title r.2); fk_cell (authors db) (author_str db) (Blog.author r.2);
     date_cell (Blog.post_date r.2)]
|}.

(** The [ModelAdmin] registered for [Comment] (the class named [Comment]
    in admin.py). *)
Definition CommentAdmin : ModelAdmin Comment.t := {|
  table := comments;
  ordering := [mkterm (λ r, Comment.post_date r.2) false false];
  search_fields := [];
  list_filter_date := None;
  list_display := λ db r,
    [fk_cell (users db) User.username (Comment.author r.2);
     match Comment.post_date r.2 with None => EmptyValue | Some t => DateTimeCell t end;
     Text (display_comment r.2)]
|}.

(** ** [DateFieldListFilter] *)

Inductive date_choice := AnyDate | Today | Past7Days | ThisMonth | ThisYear | NoDate | HasDate.

#[export] Instance date_choice_eq_dec : EqDecision date_choice.
Proof. solve_decision. Defined.

(** The query parameters of a link: [post_date__gte] and [post_date__lt]
    (as ordinals), or [post_date__isnull]. *)
Inductive date_lookup := NoLookup | Range (since until : Z) | IsNull (b : bool).

(** [DateFieldListFilter.__init__] on a [DateField]: tomorrow, the first
    of next month and of next year, then the links in order. *)
Definition DateFieldListFilter_links (today : Calendar.date)
    : result Calendar.date_error (list (date_choice * string * date_lookup)) :=
  tomorrow ← Calendar.add_days today 1;
  next_month ← (if Calendar.month today =? 12
                then Calendar.replace (Calendar.year today + 1) 1 1
                else Calendar.replace (Calendar.year today) (Calendar.month today + 1) 1)%Z;
  next_year ← Calendar.replace (Calendar.year today + 1)%Z 1 1;
  week_ago ← Calendar.add_days today (-7);
  first_of_month ← Calendar.replace (Calendar.year today) (Calendar.month today) 1;
  first_of_year ← Calendar.replace (Calendar.year today) 1 1;
  let o := Calendar.toordinal in
  Ok [(AnyDate, "Any date", NoLookup);
      (Today, "Today", Range (o today) (o tomorrow));
      (Past7Days, "Past 7 days", Range (o week_ago) (o tomorrow));
      (ThisMonth, "This month", Range (o first_of_month) (o next_month));
      (ThisYear, "This year", Range (o first_of_year) (o next_year));
      (NoDate, "No date", IsNull true);
      (HasDate, "Has date", IsNull false)].

(** The parameters of the chosen link. *)
Definition lookup_of (ch : date_choice) (links : list (date_choice * string * date_lookup)) : date_lookup :=
  match list_find (λ l, l.1.1 = ch) links with Some (_, (_, _, lk)) => lk | None => NoLookup end.

(** [queryset.filter] with the link's parameters, on the column's value: a range
    never holds of NULL. *)
Definition date_lookup_matches (lk : date_lookup) (v : option Z) : bool :=
  match lk, v with
  | NoLookup, _ => true
  | Range since until, Some d => (since <=? d)%Z && (d <? until)%Z
  | Range _ _, None => false
  | IsNull b, _ => Bool.eqb b (bool_decide (v = None))
  end.

(** ** The changelist *)

(** [ChangeList.get_queryset]: the root queryset, the list filters (their
    links are computed when the filter is built, whatever the choice),
    the search, then [order_by] the deterministic ordering. *)
Definition get_queryset {A} (ma : ModelAdmin A) (db : Db) (today : Calendar.date)
    (choice : date_choice) (q : string) : result Calendar.date_error (list (nat * A)) :=
  links ← match list_filter_date ma with
          | Some _ => DateFieldListFilter_links today
          | None => Ok []
          end;
  let qs := rows (table ma db) in
  let qs := match list_filter_date ma with
            | Some col => filter (λ r, date_lookup_matches (lookup_of choice links) (col r.2) = true) qs
            | None => qs
            end in
  let qs := Search.get_search_results ((λ f (r : nat * A), f r.2) <$> search_fields ma) qs q in
  Ok (merge_sort (λ x y, order_le (get_deterministic_ordering (ordering ma)) x y = true) qs).

(** The rows of the changelist page, as [items_for_result] shows them. *)
Definition changelist {A} (ma : ModelAdmin A) (db : Db) (today : Calendar.date)
    (choice : date_choice) (q : string) : result Calendar.date_error (list (list cell)) :=
  map (list_display ma db) <$> get_queryset ma db today choice q.

(** ** Properties *)

(** *** The changelist's order *)

Lemma order_le_total {A} (terms : list (order_term A)) x y :
  order_le terms x y = true ∨ order_le terms y x = true.
Proof.
  induction terms as [|t ts IH]; simpl; [auto|].
  destruct (decide (column t x = column t y)) as [E|E];
    [rewrite decide_True by done; apply IH|rewrite decide_False by congruence].
  destruct (descending t); apply sql_le_total.
Qed.

Lemma order_le_trans {A} (terms : list (order_term A)) x y z :
  order_le terms x y = true → order_le terms y z = true → order_le terms x z = true.
Proof.
  induction terms as [|t ts IH]; simpl; [done|].
  destruct (decide (column t x = column t y)) as [Exy|Exy],
           (decide (column t y = column t z)) as [Eyz|Eyz].
  - rewrite decide_True by congruence. eauto.
  - rewrite decide_False by congruence. by rewrite Exy.
  - rewrite decide_False by congruence. by rewrite <- Eyz.
  - intros H1 H2. destruct (decide (column t x = column t z)) as [Exz|Exz].
    + exfalso. rewrite Exz in H1. apply Eyz. destruct (descending t); eauto using sql_le_antisym.
    + destruct (descending t); eauto using sql_le_trans.
Qed.

#[export] Instance order_le_Total {A} (terms : list (order_term A)) :
  Total (λ x y, order_le terms x y = true).
Proof. intros x y. apply order_le_total. Qed.

#[export] Instance order_le_Transitive {A} (terms : list (order_term A)) :
  Transitive (λ x y, order_le terms x y = true).
Proof. intros x y z. apply order_le_trans. Qed.

(** Rows with distinct keys are never tied once ["-pk"] ends the ordering. *)
Lemma order_le_pk_desc {A} (terms : list (order_term A)) x y :
  order_le (terms ++ [pk_desc]) x y = true → x.1 ≠ y.1 → order_le (terms ++ [pk_desc]) y x = false.
Proof.
  intros Hxy Hne. destruct (order_le _ y x) eqn:Hyx; [exfalso|done].
  induction terms as [|t ts IH]; simpl in *.
  - rewrite decide_False in Hxy by (intros [=]; lia). rewrite decide_False in Hyx by (intros [=]; lia).
    apply Z.leb_le in Hxy, Hyx. lia.
  - destruct (decide (column t x = column t y)) as [E|E].
    + rewrite decide_True in Hyx by done. auto.
    + rewrite decide_False in Hyx by congruence. apply E.
      destruct (descending t); symmetry; eauto using sql_le_antisym.
Qed.

Lemma get_search_results_sublist {R} (fields : list (R → string)) qs q :
  Search.get_search_results fields qs q `sublist_of` qs.
Proof. unfold Search.get_search_results. case_match; [apply sublist_filter|done]. Qed.

(** The keys of a changelist are distinct. *)
Lemma get_queryset_NoDup {A} (ma : ModelAdmin A) db today ch q qs :
  get_queryset ma db today ch q = Ok qs → NoDup qs.*1.
Proof.
  unfold get_queryset. destruct (list_filter_date ma) as [col|];
    [destruct (DateFieldListFilter_links today) as [links|]; [|discriminate]|];
    rewrite bind_Ok; intros [= <-]; rewrite merge_sort_Permutation;
    (eapply sublist_NoDup; [|apply fmap_sublist, get_search_results_sublist]);
    [apply NoDup_keys_filter|]; apply rows_NoDup.
Qed.

(** A changelist row is a row of the model's table. *)
Lemma get_queryset_rows {A} (ma : ModelAdmin A) db today ch q qs k a :
  get_queryset ma db today ch q = Ok qs → (k, a) ∈ qs → table ma db !! k = Some a.
Proof.
  unfold get_queryset. destruct (list_filter_date ma) as [col|];
    [destruct (DateFieldListFilter_links today) as [links|]; [|discriminate]|];
    rewrite bind_Ok; intros [= <-] Hin; rewrite merge_sort_Permutation in Hin;
    pose proof (elem_of_sublist _ _ _ Hin (get_search_results_sublist _ _ _)) as Hin';
    [apply list_elem_of_filter in Hin' as [_ Hin']|]; by apply elem_of_rows.
Qed.

Lemma get_queryset_sorted {A} (ma : ModelAdmin A) db today ch q qs :
  get_queryset ma db today ch q = Ok qs →
  StronglySorted (λ x y, order_le (get_deterministic_ordering (ordering ma)) x y = true) qs.
Proof.
  unfold get_queryset. destruct (list_filter_date ma) as [col|];
    [destruct (DateFieldListFilter_links today) as [links|]; [|discriminate]|];
    rewrite bind_Ok; intros [= <-]; apply StronglySorted_merge_sort; apply _.
Qed.

(** C34: the admin's changelists are in one determined order: blogs by
    post date, newest first and undated last, and blogs of the same
    date by descending primary key ([Meta.ordering] completed with
    ["-pk"]; [Blog.objects.all()] keeps ascending keys instead); authors,
    which have no [Meta.ordering], by descending primary key (the
    authors' list view shows them ascending). *)
Theorem admin_changelist_order db today ch q qs qs' :
  (get_queryset BlogAdmin db today ch q = Ok qs →
   StronglySorted (λ x y : nat * Blog.t,
      (sql_le (Blog.post_date y.2) (Blog.post_date x.2) = true ∧ Blog.post_date x.2 ≠ Blog.post_date y.2) ∨
      (Blog.post_date x.2 = Blog.post_date y.2 ∧ y.1 < x.1)) qs) ∧
  (get_queryset AuthorAdmin db today ch q = Ok qs' → StronglySorted (λ x y : nat * Author.t, y.1 < x.1) qs').
Proof.
  split; intros Hq.
  - eapply StronglySorted_strict; [by apply (get_queryset_sorted _ _ _ _ _ _ Hq)|by eapply get_queryset_NoDup|].
    intros x y Hxy Hne. simpl in Hxy. destruct (decide _) as [E|E] in Hxy.
    + rewrite decide_False in Hxy by (intros [=]; lia). right. split; [done|]. apply Z.leb_le in Hxy. lia.
    + by left.
  - eapply StronglySorted_strict; [by apply (get_queryset_sorted _ _ _ _ _ _ Hq)|by eapply get_queryset_NoDup|].
    intros x y Hxy Hne. simpl in Hxy. rewrite decide_False in Hxy by (intros [=]; lia).
    apply Z.leb_le in Hxy. lia.
Qed.

(** *** The date filter *)

(** The ordinal of the first day of the month after [y-m]. *)
Definition next_month_ord (y m : Z) : Z :=
  if (m =? 12)%Z then Calendar.ymd2ord (y + 1) 1 1 else Calendar.ymd2ord y (m + 1) 1.

Lemma valid_first_of_month y m : (1 ≤ m ≤ 12)%Z → Calendar.valid_ymd y m 1 = true.
Proof.
  intros Hm. apply Calendar.valid_ymd_spec.
  pose proof (Calendar.days_in_month_bounds y m Hm). lia.
Qed.

(** The links when the filter can be built: today's ordinal is above 7
    and its year below [MAXYEAR]. *)
Lemma DateFieldListFilter_links_Ok today :
  Calendar.is_date today → (7 < Calendar.toordinal today)%Z →
  (Calendar.year today < Calendar.MAXYEAR)%Z →
  DateFieldListFilter_links today = Ok
    [(AnyDate, "Any date", NoLookup);
     (Today, "Today", Range (Calendar.toordinal today) (Calendar.toordinal today + 1));
     (Past7Days, "Past 7 days", Range (Calendar.toordinal today - 7) (Calendar.toordinal today + 1));
     (ThisMonth, "This month", Range (Calendar.ymd2ord (Calendar.year today) (Calendar.month today) 1)
                                     (next_month_ord (Calendar.year today) (Calendar.month today)));
     (ThisYear, "This year", Range (Calendar.ymd2ord (Calendar.year today) 1 1)
                                   (Calendar.ymd2ord (Calendar.year today + 1) 1 1));
     (NoDate, "No date", IsNull true);
     (HasDate, "Has date", IsNull false)].
Proof.
  intros Hd H7 Hy. pose proof (Calendar.toordinal_bounds today Hd) as Hb.
  destruct today as [y m d]. destruct Hd as [Hy' Hv]. simpl in *.
  pose proof Hv as [Hm Hdd]%Calendar.valid_ymd_spec.
  unfold Calendar.toordinal in *. simpl in *. unfold Calendar.MAXYEAR, Calendar.MINYEAR in *.
  assert (Ht : (Calendar.ymd2ord y m d + 1 ≤ Calendar.MAXORDINAL)%Z).
  { rewrite Calendar.MAXORDINAL_eq. unfold Calendar.MAXYEAR.
    pose proof (Calendar.ymd2ord_lt y m d 9999 1 1 Hv eq_refl ltac:(lia)).
    pose proof (Calendar.ymd2ord_lt 9999 1 1 9999 12 31 eq_refl eq_refl ltac:(lia)). lia. }
  destruct (Calendar.add_days_total (Calendar.mkdate y m d) 1 ltac:(unfold Calendar.toordinal; simpl; lia))
    as (tom & Htom & Otom).
  destruct (Calendar.add_days_total (Calendar.mkdate y m d) (-7) ltac:(unfold Calendar.toordinal; simpl; lia))
    as (wk & Hwk & Owk).
  unfold DateFieldListFilter_links, next_month_ord. simpl Calendar.month. simpl Calendar.year.
  rewrite Htom, bind_Ok. cbv beta.
  destruct (Z.eqb_spec m 12) as [->|Hm12]; cbv beta iota;
    rewrite ?Calendar.replace_Ok
      by (first [unfold Calendar.MAXYEAR, Calendar.MINYEAR; lia | apply valid_first_of_month; lia]);
    rewrite Hwk; cbn -[Calendar.toordinal Calendar.ymd2ord]; rewrite Otom, Owk; reflexivity.
Qed.

(** Otherwise building the filter raises: [OverflowError] for a week
    before 0001-01-08, [ValueError] for next year after 9999. *)
Lemma DateFieldListFilter_links_Err today :
  Calendar.is_date today →
  (Calendar.toordinal today ≤ 7 ∨ Calendar.year today = Calendar.MAXYEAR)%Z →
  is_ok (DateFieldListFilter_links today) = false.
Proof.
  intros Hd Hc. unfold DateFieldListFilter_links.
  destruct (Calendar.add_days today 1) as [tom|e]; [rewrite bind_Ok; cbv beta|done].
  assert (Hny : Calendar.year today = Calendar.MAXYEAR →
                Calendar.replace (Calendar.year today + 1) 1 1 = raise Calendar.ValueError)
    by (intros E; apply Calendar.replace_year_Err; rewrite E; unfold Calendar.MAXYEAR; lia).
  assert (Hwk : (Calendar.toordinal today ≤ 7)%Z → Calendar.add_days today (-7) = raise Calendar.OverflowError)
    by (intros; apply Calendar.add_days_out; lia).
  destruct (Calendar.month today =? 12)%Z; cbv iota.
  - destruct Hc as [Hc|Hc]; [|by rewrite Hny].
    destruct (Calendar.replace (Calendar.year today + 1) 1 1) as [ny|e]; [|done].
    rewrite bind_Ok; cbv beta. rewrite bind_Ok; cbv beta. by rewrite Hwk.
  - destruct (Calendar.replace (Calendar.year today) (Calendar.month today + 1) 1) as [nm|e]; [|done].
    rewrite bind_Ok; cbv beta. destruct Hc as [Hc|Hc]; [|by rewrite Hny].
    destruct (Calendar.replace (Calendar.year today + 1) 1 1) as [ny|e]; [|done].
    rewrite bind_Ok; cbv beta. by rewrite Hwk.
Qed.

Lemma DateFieldListFilter_links_cond today links :
  Calendar.is_date today → DateFieldListFilter_links today = Ok links →
  (7 < Calendar.toordinal today)%Z ∧ (Calendar.year today < Calendar.MAXYEAR)%Z.
Proof.
  intros Hd Hl. destruct Hd as [Hy Hv] eqn:Hd'.
  destruct (decide ((7 < Calendar.toordinal today)%Z ∧ (Calendar.year today < Calendar.MAXYEAR)%Z)); [done|].
  pose proof (DateFieldListFilter_links_Err today Hd ltac:(lia)) as He. by rewrite Hl in He.
Qed.

Lemma DateFieldListFilter_links_AnyDate today links :
  DateFieldListFilter_links today = Ok links → lookup_of AnyDate links = NoLookup.
Proof.
  unfold DateFieldListFilter_links. intros Hl.
  repeat (apply bind_eq_Ok in Hl as (? & _ & Hl)). by injection Hl as <-.
Qed.

(** The blog changelist, unfolded. *)
Lemma get_queryset_BlogAdmin db today ch q :
  get_queryset BlogAdmin db today ch q =
    links ← DateFieldListFilter_links today;
    Ok (merge_sort (λ x y, order_le [mkterm (λ r, Blog.post_date r.2) true false; pk_desc] x y = true)
          (Search.get_search_results [λ r : nat * Blog.t, Blog.title r.2]
             (filter (λ r, date_lookup_matches (lookup_of ch links) (Blog.post_date r.2) = true)
                     (rows (blogs db))) q)).
Proof. reflexivity. Qed.

(** A row is listed when it exists, passes the chosen date link and
    contains every search word in its title. *)
Lemma elem_of_blog_queryset db today ch q links bits qs k b :
  DateFieldListFilter_links today = Ok links → Search.smart_split q = Some bits →
  get_queryset BlogAdmin db today ch q = Ok qs →
  (k, b) ∈ qs ↔ blogs db !! k = Some b ∧
    date_lookup_matches (lookup_of ch links) (Blog.post_date b) = true ∧
    Forall (λ bit, ∃ pre suf, Search.ascii_lower <$> String.list_ascii_of_string (Blog.title b) =
                              pre ++ (Search.ascii_lower <$> Search.search_bit bit) ++ suf) bits.
Proof.
  intros Hl Hb. rewrite get_queryset_BlogAdmin, Hl, bind_Ok. intros [= <-].
  rewrite merge_sort_Permutation, (Search.elem_of_get_search_results _ _ _ bits _ Hb),
    list_elem_of_filter, elem_of_rows. simpl.
  rewrite !Forall_forall. split.
  - intros [[Hm Hk] [Hnil|Hall]]; [discriminate|]. split_and!; [done|done|].
    intros bit Hbit. destruct (Hall bit Hbit) as (f & Hf & Hi).
    apply list_elem_of_singleton in Hf as ->. by apply Search.icontains_substring.
  - intros (Hk & Hm & Hall). split; [done|]. right. intros bit Hbit.
    exists (λ r : nat * Blog.t, Blog.title r.2). split; [by apply list_elem_of_singleton|].
    by apply Search.icontains_substring, Hall.
Qed.

(** C31: the blog changelist can be shown exactly when today is after
    0001-01-07 and before the year 9999: the date filter is built on
    every page, and its "Past 7 days" link raises [OverflowError] in the
    first week of year 1, its "This year" link [ValueError] all through
    the year 9999. *)
Theorem blog_changelist_bounds db today ch q :
  Calendar.is_date today →
  is_ok (get_queryset BlogAdmin db today ch q) = true ↔
    (7 < Calendar.toordinal today)%Z ∧ (Calendar.year today < Calendar.MAXYEAR)%Z.
Proof.
  intros Hd. rewrite get_queryset_BlogAdmin.
  destruct (decide ((7 < Calendar.toordinal today)%Z ∧ (Calendar.year today < Calendar.MAXYEAR)%Z))
    as [[H7 Hy]|Hn].
  - rewrite DateFieldListFilter_links_Ok by done. simpl. tauto.
  - pose proof Hd as [[_ Hy] _].
    pose proof (DateFieldListFilter_links_Err today Hd ltac:(lia)) as He.
    destruct (DateFieldListFilter_links today); [discriminate|]. simpl. split; [discriminate|tauto].
Qed.

(** C30: the search box of the blog changelist refines substring
    search: with the "Any date" link, a blog is listed exactly when
    every word of the query ([smart_split], quotes removed) occurs in
    its title, ignoring the case of ASCII letters. *)
Theorem blog_search_spec db today q bits qs :
  Search.smart_split q = Some bits →
  get_queryset BlogAdmin db today AnyDate q = Ok qs →
  ∀ k b, (k, b) ∈ qs ↔ blogs db !! k = Some b ∧
    Forall (λ bit, ∃ pre suf, Search.ascii_lower <$> String.list_ascii_of_string (Blog.title b) =
                              pre ++ (Search.ascii_lower <$> Search.search_bit bit) ++ suf) bits.
Proof.
  intros Hb Hq k b. pose proof Hq as Hq'. rewrite get_queryset_BlogAdmin in Hq'.
  destruct (DateFieldListFilter_links today) as [links|] eqn:Hl; [|discriminate].
  rewrite (elem_of_blog_queryset db today AnyDate q links bits qs k b Hl Hb Hq).
  rewrite (DateFieldListFilter_links_AnyDate today links Hl). simpl. tauto.
Qed.

(** A stored [post_date] is the ordinal of a date ([DateField.to_python]
    only produces dates). *)
Definition post_date_ok (b : Blog.t) : Prop :=
  ∀ d, Blog.post_date b = Some d → (1 ≤ d ≤ Calendar.MAXORDINAL)%Z.

(** The ordinals between the first of a month and the first of the
    next are the days of that month. *)
Lemma in_month_range y m n :
  (1 ≤ y < Calendar.MAXYEAR)%Z → (1 ≤ m ≤ 12)%Z → (1 ≤ n ≤ Calendar.MAXORDINAL)%Z →
  (Calendar.ymd2ord y m 1 ≤ n < next_month_ord y m)%Z ↔
  ∃ dt, Calendar.fromordinal n = Ok dt ∧ Calendar.year dt = y ∧ Calendar.month dt = m.
Proof.
  intros Hy Hm Hn. destruct (Calendar.fromordinal_total n Hn) as (dt & Hf & Ho).
  pose proof (proj1 (Calendar.fromordinal_Ok n dt) Hf) as (_ & [Hy' Hv] & _).
  destruct dt as [y' m' d']. simpl in *. unfold Calendar.toordinal in Ho. simpl in Ho. subst n.
  pose proof Hv as [Hm' Hd']%Calendar.valid_ymd_spec.
  rewrite (Calendar.ymd2ord_le_iff y m 1 y' m' d') by (done || by apply valid_first_of_month).
  unfold next_month_ord, Calendar.MAXYEAR in *.
  assert (Hiff : (y' = y ∧ m' = m) ↔
                 ∃ dt, Calendar.fromordinal (Calendar.ymd2ord y' m' d') = Ok dt ∧
                       Calendar.year dt = y ∧ Calendar.month dt = m).
  { rewrite Hf. split; [intros [-> ->]; by eexists|]. intros (dt & [= <-] & Hy1 & Hm1). by simpl in *. }
  rewrite <- Hiff. destruct (Z.eqb_spec m 12) as [->|Hm12].
  - rewrite <- (Z.nle_gt _ (Calendar.ymd2ord y' m' d')), (Calendar.ymd2ord_le_iff (y + 1) 1 1 y' m' d')
      by (done || by apply valid_first_of_month). lia.
  - rewrite <- (Z.nle_gt _ (Calendar.ymd2ord y' m' d')), (Calendar.ymd2ord_le_iff y (m + 1) 1 y' m' d')
      by (done || apply valid_first_of_month; lia). lia.
Qed.

(** A blog changelist that could be built had its date links. *)
Lemma blog_queryset_links db today ch q qs :
  Calendar.is_date today → get_queryset BlogAdmin db today ch q = Ok qs →
  (7 < Calendar.toordinal today)%Z ∧ (Calendar.year today < Calendar.MAXYEAR)%Z ∧
  ∃ links, DateFieldListFilter_links today = Ok links.
Proof.
  intros Hd Hq. rewrite get_queryset_BlogAdmin in Hq.
  destruct (DateFieldListFilter_links today) as [links|] eqn:Hl; [|discriminate].
  destruct (DateFieldListFilter_links_cond today links Hd Hl). eauto.
Qed.

(** C32: the "This month" link of the blog changelist lists exactly the
    blogs dated in today's month of today's year: the range of
    ordinals it queries is that month. *)
Theorem this_month_filter db today qs :
  Calendar.is_date today → map_Forall (λ _, post_date_ok) (blogs db) →
  get_queryset BlogAdmin db today ThisMonth EmptyString = Ok qs →
  ∀ k b, (k, b) ∈ qs ↔ blogs db !! k = Some b ∧
    ∃ d dt, Blog.post_date b = Some d ∧ Calendar.fromordinal d = Ok dt ∧
            Calendar.year dt = Calendar.year today ∧ Calendar.month dt = Calendar.month today.
Proof.
  intros Hd Hpd Hq k b.
  destruct (blog_queryset_links db today ThisMonth EmptyString qs Hd Hq) as (H7 & Hy & links & Hl).
  rewrite (elem_of_blog_queryset db today ThisMonth EmptyString links [] qs k b Hl eq_refl Hq).
  rewrite DateFieldListFilter_links_Ok in Hl by done. injection Hl as <-. simpl.
  pose proof Hd as [[Hy1 _] [Hm _]%Calendar.valid_ymd_spec].
  split.
  - intros (Hk & Hm' & _). split; [done|].
    destruct (Blog.post_date b) as [d|] eqn:Ed; [|discriminate]. pose proof (Hpd k b Hk d Ed).
    apply andb_prop in Hm' as [H1 H2]. apply Z.leb_le in H1. apply Z.ltb_lt in H2.
    destruct (proj1 (in_month_range (Calendar.year today) (Calendar.month today) d ltac:(unfold Calendar.MINYEAR in *; lia) Hm ltac:(done))
                    (conj H1 H2)) as (dt & ? & ? & ?).
    eauto 6.
  - intros (Hk & d & dt & Ed & Hf & Hyd & Hmd). split; [done|]. rewrite Ed.
    pose proof (Hpd k b Hk d Ed).
    destruct (proj2 (in_month_range (Calendar.year today) (Calendar.month today) d ltac:(unfold Calendar.MINYEAR in *; lia) Hm ltac:(done))
                    (ex_intro _ dt (conj Hf (conj Hyd Hmd)))).
    split; [|by constructor]. apply andb_true_intro. split; [by apply Z.leb_le|by apply Z.ltb_lt].
Qed.

(** C33: the "Today" link lists the blogs dated today, and the "Past 7
    days" link the blogs dated from seven days before today up to today:
    eight calendar days. *)
Theorem recent_date_filters db today qs qs' :
  Calendar.is_date today →
  get_queryset BlogAdmin db today Today EmptyString = Ok qs →
  get_queryset BlogAdmin db today Past7Days EmptyString = Ok qs' →
  (∀ k b, (k, b) ∈ qs ↔ blogs db !! k = Some b ∧
            Blog.post_date b = Some (Calendar.toordinal today)) ∧
  (∀ k b, (k, b) ∈ qs' ↔ blogs db !! k = Some b ∧
            ∃ d, Blog.post_date b = Some d ∧
                 (Calendar.toordinal today - 7 ≤ d ≤ Calendar.toordinal today)%Z).
Proof.
  intros Hd Hq Hq'.
  destruct (blog_queryset_links db today Today EmptyString qs Hd Hq) as (H7 & Hy & links & Hl).
  split; intros k b.
  - rewrite (elem_of_blog_queryset db today Today EmptyString links [] qs k b Hl eq_refl Hq).
    rewrite DateFieldListFilter_links_Ok in Hl by done. injection Hl as <-. simpl.
    destruct (Blog.post_date b) as [d|]; simpl; [|split; [intros (_ & [=] & _)|intros (_ & [=])]].
    rewrite andb_true_iff, Z.leb_le, Z.ltb_lt. split.
    + intros (Hk & Hr & _). split; [done|]. f_equal. lia.
    + intros (Hk & [= ->]). split_and!; [done|lia|lia|by constructor].
  - rewrite (elem_of_blog_queryset db today Past7Days EmptyString links [] qs' k b Hl eq_refl Hq').
    rewrite DateFieldListFilter_links_Ok in Hl by done. injection Hl as <-. simpl.
    destruct (Blog.post_date b) as [d|]; simpl; [|split; [intros (_ & [=] & _)|intros (_ & ? & [=] & _)]].
    rewrite andb_true_iff, Z.leb_le, Z.ltb_lt. split.
    + intros (Hk & Hr & _). split; [done|]. exists d. split; [done|lia].
    + intros (Hk & d' & [= <-] & Hr). split_and!; [done|lia|lia|by constructor].
Qed.

#[export] Instance post_date_ok_dec b : Decision (post_date_ok b).
Proof.
  unfold post_date_ok. destruct (Blog.post_date b) as [d|]; [|left; done].
  destruct (decide (1 ≤ d ≤ Calendar.MAXORDINAL)%Z) as [H|H]; [left; by intros ? [= <-]|].
  right. intros Hd. by apply H, Hd.
Defined.

(** ** Witnesses: a changelist on 2024-01-05 *)

(** One author's five posts: two this month, one exactly a week old
    (2023-12-29), one older and one undated. *)
Definition changelist_ops : list orm_op := [
  CreateUser (User.mk "admin"); CreateAuthor (Author.mk (Some 1) "Bio");
  CreateBlog (Blog.mk "Django Tips" (Some 1) "c1" (Some 738886%Z));
  CreateBlog (Blog.mk "Rocq notes" (Some 1) "c2" (Some 738890%Z));
  CreateBlog (Blog.mk "Old tips" (Some 1) "c3" (Some 738874%Z));
  CreateBlog (Blog.mk "Week old" (Some 1) "c4" (Some 738883%Z));
  CreateBlog (Blog.mk "Draft" (Some 1) "c5" None)
].

Definition changelist_db : Db :=
  match run_ops changelist_ops empty_db with Ok d => d | Err _ => empty_db end.

Definition changelist_today : Calendar.date := Calendar.mkdate 2024 1 5.

Lemma changelist_db_reachable : reachable changelist_db.
Proof. apply (reachable_run_ops changelist_ops empty_db); [constructor|]. vm_compute. reflexivity. Qed.


Lemma changelist_today_is_date : Calendar.is_date changelist_today.
Proof. split; [unfold Calendar.MINYEAR, Calendar.MAXYEAR; simpl; lia|vm_compute; reflexivity]. Qed.

Lemma changelist_today_ord : Calendar.toordinal changelist_today = 738890%Z.
Proof. vm_compute. reflexivity. Qed.

Lemma blog_search_spec_witness :
  ∃ qs, get_queryset BlogAdmin changelist_db changelist_today AnyDate "tips" = Ok qs ∧
        (1, Blog.mk "Django Tips" (Some 1) "c1" (Some 738886%Z)) ∈ qs.
Proof.
  destruct (is_ok_Ok (get_queryset BlogAdmin changelist_db changelist_today AnyDate "tips")) as [qs Hq];
    [vm_compute; reflexivity|].
  exists qs. split; [done|].
  apply (blog_search_spec changelist_db changelist_today "tips" [String.list_ascii_of_string "tips"] qs);
    [vm_compute; reflexivity|done|].
  split; [vm_compute; reflexivity|]. constructor; [|constructor].
  exists (String.list_ascii_of_string "django "), []. vm_compute. reflexivity.
Defined.

Lemma blog_changelist_bounds_witness :
  is_ok (get_queryset BlogAdmin changelist_db changelist_today AnyDate EmptyString) = true ∧
  is_ok (get_queryset BlogAdmin changelist_db (Calendar.mkdate 9999 1 1) AnyDate EmptyString) = false.
Proof.
  split.
  - apply (blog_changelist_bounds changelist_db changelist_today AnyDate EmptyString changelist_today_is_date).
    rewrite changelist_today_ord. unfold Calendar.MAXYEAR. simpl. lia.
  - apply not_true_is_false.
    rewrite (blog_changelist_bounds changelist_db (Calendar.mkdate 9999 1 1) AnyDate EmptyString)
      by (split; [unfold Calendar.MINYEAR, Calendar.MAXYEAR; simpl; lia|vm_compute; reflexivity]).
    unfold Calendar.MAXYEAR. simpl. lia.
Defined.

Lemma this_month_filter_witness :
  ∃ qs, get_queryset BlogAdmin changelist_db changelist_today ThisMonth EmptyString = Ok qs ∧
        (1, Blog.mk "Django Tips" (Some 1) "c1" (Some 738886%Z)) ∈ qs.
Proof.
  destruct (is_ok_Ok (get_queryset BlogAdmin changelist_db changelist_today ThisMonth EmptyString)) as [qs Hq];
    [vm_compute; reflexivity|].
  exists qs. split; [done|].
  apply (this_month_filter changelist_db changelist_today qs changelist_today_is_date
           ltac:(apply (bool_decide_unpack _); vm_compute; reflexivity) Hq).
  split; [vm_compute; reflexivity|]. eexists _, _. split; [reflexivity|]. split; [vm_compute; reflexivity|].
  split; reflexivity.
Defined.

Lemma recent_date_filters_witness :
  ∃ qs', get_queryset BlogAdmin changelist_db changelist_today Past7Days EmptyString = Ok qs' ∧
         (4, Blog.mk "Week old" (Some 1) "c4" (Some 738883%Z)) ∈ qs'.
Proof.
  destruct (is_ok_Ok (get_queryset BlogAdmin changelist_db changelist_today Today EmptyString)) as [qs Hq];
    [vm_compute; reflexivity|].
  destruct (is_ok_Ok (get_queryset BlogAdmin changelist_db changelist_today Past7Days EmptyString)) as [qs' Hq'];
    [vm_compute; reflexivity|].
  exists qs'. split; [done|].
  apply (proj2 (recent_date_filters changelist_db changelist_today qs qs' changelist_today_is_date Hq Hq')).
  split; [vm_compute; reflexivity|]. exists 738883%Z. rewrite changelist_today_ord. split; [done|lia].
Defined.

Lemma admin_changelist_order_witness :
  ∃ qs', get_queryset AuthorAdmin changelist_db changelist_today AnyDate EmptyString = Ok qs' ∧
         StronglySorted (λ x y : nat * Author.t, y.1 < x.1) qs'.
Proof.
  destruct (is_ok_Ok (get_queryset AuthorAdmin changelist_db changelist_today AnyDate EmptyString))
    as [qs' Hq]; [vm_compute; reflexivity|].
  exists qs'. split; [done|].
  exact (proj2 (admin_changelist_order changelist_db changelist_today AnyDate EmptyString [] qs') Hq).
Defined.

End Admin.
