(* ===== verification/AdminEdit.v ===== *)
(** * AdminEdit: the admin's add, change and delete views of [src/blog/admin.py]

    The writes of the admin site: the [ModelForm]s Django derives from
    the models for the three registrations, the [CommentInline] formset
    of [BlogAdmin] ([inlines = [CommentInline]], [extra = 0]) on the add
    and change pages of a blog, and the views that save them
    ([add_view], [change_view], [delete_view] and the [delete_selected]
    action), each as one step [run_admin] on the database, made of the
    ORM operations of [Models].  A view that fails writes nothing: the
    admin runs it in [transaction.atomic].

    The forms:
    - [BlogForm_clean]: [title], [author], [content], [post_date], all
      required ([blank=False]);
    - [AuthorForm_clean]: [name] and [biography], then [validate_unique]
      on [name], which leaves out the author being edited;
    - [CommentForm_clean]: [blog], [content], [post_date] (the
      [SplitDateTimeField] of [Fields]) and [author];
    - [CommentInline_formset]: the [ManagementForm], then one form per
      index below [TOTAL_FORMS] (at most [absolute_max = 2000]); the
      first [INITIAL_FORMS] edit the blog's comments named by their
      [id], the others add comments; a form whose [DELETE] box is
      checked is not validated, an added form left empty is skipped.
      Forms naming the same [id] share one instance
      ([_existing_object]): each writes its valid fields into it in form
      order ([shared_instance]), and [save_existing_objects] skips an
      instance an earlier form deleted.  A [TOTAL_FORMS] above
      [absolute_max] is the [too_many_forms] error.
    [delete_view] and [delete_selected] show each object by [str()]
    first; when that raises (a comment without a blog) the view
    crashes ([Crash]).  [delete_selected] acts on the changelist's
    queryset ([Admin.get_queryset]: date filter and search), narrowed to
    the ticked keys unless "select all" was used.
    Every view is a sequence of [Models] writes of values that fit their
    fields ([run_admin_ops]), so the type invariant [fields_ok] (every
    stored text within its [max_length], every [post_date] a date) and
    [no_orphans] (every comment has a blog) are kept by every view.
    Saving a blog's change page writes only that blog and its comments
    ([change_blog_frame]), [delete_selected] on blogs is all or
    nothing ([delete_selected_blogs]), and a formset above
    [absolute_max] writes nothing ([blog_page_too_many_forms]). *)

From Stdlib Require Import Ascii String ZArith.
From stdpp Require Import base list gmap strings.
From S2P Require Import Prelude Calendar Search Models Forms Admin.

Module AdminEdit.

#[local] Existing Instances Calendar.date_eq_dec Calendar.time_eq_dec Admin.post_date_ok_dec.

(** ** The model forms *)

(** The [max_length] of the model fields the admin's forms enforce. *)
Definition title_max_length : nat := 200.
Definition blog_content_max_length : nat := 5000.
Definition biography_max_length : nat := 1000.

Definition FormErrors := list (string * list Fields.error).

(** [form.errors] of one field, in the form's field order. *)
Definition field_errors {T} (name : string) (r : result (list Fields.error) T) : FormErrors :=
  match r with Ok _ => [] | Err es => [(name, es)] end.

Definition errors_of {A} (r : result FormErrors A) : FormErrors :=
  match r with Ok _ => [] | Err es => es end.

(** The [ModelForm] of [BlogAdmin]: [title], [author], [content],
    [post_date], each required ([blank=False]); [full_clean] cleans
    every field and reports the errors of all of them. *)
Definition BlogForm_clean (db : Db) (data : Fields.QueryDict) : result FormErrors Blog.t :=
  let title := Fields.clean title_max_length (Fields.querydict_get data "title") in
  let author := Fields.ModelChoiceField_clean (authors db) (Fields.querydict_get data "author") in
  let content := Fields.clean blog_content_max_length (Fields.querydict_get data "content") in
  let post_date := Fields.DateField_clean (Fields.querydict_get data "post_date") in
  match title, author, content, post_date with
  | Ok t, Ok a, Ok c, Ok d => Ok (Blog.mk t (Some a) c (Some (Calendar.toordinal d)))
  | _, _, _, _ =>
      raise (field_errors "title" title ++ field_errors "author" author ++
             field_errors "content" content ++ field_errors "post_date" post_date)
  end.

(** [validate_unique] on [Author.name]: other authors with the user,
    leaving out the instance being edited ([self]). *)
Definition unique_name_free (db : Db) (self : option nat) (u : nat) : bool :=
  match self with
  | None => name_free db (Some u)
  | Some k => name_free_except db k (Some u)
  end.

(** The [ModelForm] of the default [ModelAdmin] of [Author]: [name] (the
    [OneToOneField], a required [ModelChoiceField] over the users) and
    [biography]; then [_post_clean]'s [validate_unique] on [name] when
    that field is valid, whose error comes after the field errors. *)
Definition AuthorForm_clean (db : Db) (self : option nat) (data : Fields.QueryDict)
    : result FormErrors Author.t :=
  let name := Fields.ModelChoiceField_clean (users db) (Fields.querydict_get data "name") in
  let biography := Fields.clean biography_max_length (Fields.querydict_get data "biography") in
  let unique_errors :=
    match name with
    | Ok u => if unique_name_free db self u then [] else [("name", [Fields.unique])]
    | Err _ => []
    end in
  match name, biography, unique_errors with
  | Ok u, Ok b, [] => Ok (Author.mk (Some u) b)
  | _, _, _ => raise (field_errors "name" name ++ field_errors "biography" biography ++ unique_errors)
  end.

(** The [ModelForm] of the [Comment] admin: [blog], [content],
    [post_date] (split into [post_date_0] and [post_date_1] by the
    admin's widget) and [author], each required. *)
Definition CommentForm_clean (db : Db) (data : Fields.QueryDict) : result FormErrors Comment.t :=
  let g := Fields.querydict_get data in
  let blog := Fields.ModelChoiceField_clean (blogs db) (g "blog") in
  let content := Fields.clean CommentForm.max_length (g "content") in
  let post_date := Fields.SplitDateTimeField_clean (g "post_date_0") (g "post_date_1") in
  let author := Fields.ModelChoiceField_clean (users db) (g "author") in
  match blog, content, post_date, author with
  | Ok b, Ok c, Ok d, Ok a => Ok (Comment.mk (Some b) c (Some d) (Some a))
  | _, _, _, _ =>
      raise (field_errors "blog" blog ++ field_errors "content" content ++
             field_errors "post_date" post_date ++ field_errors "author" author)
  end.

(** ** [CommentInline]'s formset *)

Definition CommentInline_extra : nat := 0.

(** The forms the change page of blog [k] shows: one per existing
    comment ([comment_set], in [Meta.ordering]), then [extra] blank
    ones; the page's "Add another Comment" link adds more. *)
Definition CommentInline_forms (db : Db) (k : nat) : list (option (nat * Comment.t)) :=
  (Some <$> comment_set db k) ++ replicate CommentInline_extra None.

(** [comment_set-<i>-<name>]: the prefix of the formset and the form. *)
Definition inline_key (i : nat) (name : string) : string :=
  "comment_set-" +:+ Py.str i +:+ "-" +:+ name.

(** [IntegerField.to_python]: [re_decimal] ([\.0*\s*$]) is removed,
    then [int()]. *)
Fixpoint zeros_then_spaces (l : list ascii) : bool :=
  match l with
  | [] => true
  | c :: l' => if Ascii.eqb c "0"%char then zeros_then_spaces l' else forallb Py.isspace l
  end.

Fixpoint cut_decimal (l : list ascii) : list ascii :=
  match l with
  | [] => []
  | c :: l' => if Ascii.eqb c "."%char && zeros_then_spaces l' then [] else c :: cut_decimal l'
  end.

Definition IntegerField_clean (value : option string) : result (list Fields.error) Z :=
  match value with
  | None => raise [Fields.required]
  | Some s =>
      if String.eqb s EmptyString then raise [Fields.required]
      else match Py.int (String.string_of_list_ascii (cut_decimal (String.list_ascii_of_string s))) with
           | Some z => Ok z
           | None => raise [Fields.invalid]
           end
  end.

(** [CheckboxInput.value_from_datadict]: absent is [False]; ["false"]
    in any case is [False]; otherwise the truth of the string. *)
Definition checkbox (value : option string) : bool :=
  match value with
  | None => false
  | Some s =>
      if bool_decide (Search.ascii_lower <$> String.list_ascii_of_string s =
                      String.list_ascii_of_string "false")
      then false else negb (String.eqb s EmptyString)
  end.

(** The value an absent field submits: the empty string. *)
Definition raw (value : option string) : string := default EmptyString value.

(** [ModelChoiceField(required=False)]: empty is [None]. *)
Definition optional_choice {A} (m : gmap nat A) (value : option string) : result (list Fields.error) (option nat) :=
  if Fields.is_empty value then Ok None else Some <$> Fields.ModelChoiceField_clean m value.

(** One form of the formset, bound to the data. *)
Record inline_form := mkInline {
  if_initial : bool;                 (** [i < INITIAL_FORMS] *)
  if_instance : option nat;          (** the comment the form edits *)
  if_delete : bool;                  (** [DELETE] checked *)
  if_changed : bool;                 (** [form.has_changed()] *)
  if_construct : Comment.t → Comment.t;
    (** [construct_instance]: the form's valid fields written into its instance *)
  if_clean : result FormErrors Comment.t
    (** the form's errors, or the comment it saves as a new row *)
}.

(** [DateField.has_changed] and [TimeField.has_changed] against an
    initial value (the widget's, without microseconds): a value that
    does not parse has changed. *)
Definition date_changed (initial : option Calendar.date) (value : option string) : bool :=
  if Fields.is_empty value then bool_decide (initial ≠ None)
  else match Fields.date_to_python (raw value) with
       | Some d => bool_decide (initial ≠ Some d)
       | None => true
       end.

Definition time_changed (initial : option Calendar.time) (value : option string) : bool :=
  if Fields.is_empty value then bool_decide (initial ≠ None)
  else match Fields.time_to_python (raw value) with
       | Some t => bool_decide (initial ≠ Some t)
       | None => true
       end.

(** [form.has_changed()] of a form against the comment it edits, or
    against the empty initial data of an added form. *)
Definition inline_changed (orig : option (nat * Comment.t)) (g : string → option string) : bool :=
  let pd := orig ≫= λ '(_, c), Comment.post_date c in
  let init_date := pd ≫= λ v, match Calendar.date_of v with Ok d => Some d | Err _ => None end in
  let init_time := (λ v, Calendar.drop_microsecond (Calendar.time_of v)) <$> pd in
  negb (String.eqb (Fields.to_python (g "content")) (default EmptyString (Comment.content ∘ snd <$> orig))) ||
  date_changed init_date (g "post_date_0") || time_changed init_time (g "post_date_1") ||
  negb (String.eqb (raw (g "author"))
          (default EmptyString (orig ≫= λ '(_, c), Py.str <$> Comment.author c))) ||
  negb (String.eqb (raw (g "id")) (default EmptyString (Py.str ∘ fst <$> orig))) ||
  checkbox (g "DELETE").

(** A cleaned field, if valid. *)
Definition valid {E A} (r : result E A) : option A := match r with Ok a => Some a | Err _ => None end.

(** Form [i]: [_construct_form] finds the comment of an initial form by
    the submitted [id] among the parent's comments ([parent] is [None]
    on the add page, whose queryset is empty); the fields are the
    [InlineForeignKeyField] [blog] (empty or the parent's key), [content],
    [post_date], [author], then [id] (required on an initial form) and
    [DELETE].  Saved comments belong to [new_parent]. *)
Definition inline_form_of (db : Db) (parent : option nat) (new_parent : nat)
    (data : Fields.QueryDict) (initial : bool) (i : nat) : inline_form :=
  let g name := Fields.querydict_get data (inline_key i name) in
  let instance :=
    if initial then
      match g "id" ≫= Py.int with
      | Some z =>
          match comments db !! Z.to_nat z with
          | Some c => if bool_decide ((0 < z)%Z ∧ parent ≠ None ∧ Comment.blog c = parent)
                      then Some (Z.to_nat z, c) else None
          | None => None
          end
      | None => None
      end
    else None in
  let blog :=
    if Fields.is_empty (g "blog") then Ok tt
    else if String.eqb (raw (g "blog")) (match parent with Some k => Py.str k | None => "None" end)
    then Ok tt else raise [Fields.invalid_choice] in
  let content := Fields.clean CommentForm.max_length (g "content") in
  let post_date := Fields.SplitDateTimeField_clean (g "post_date_0") (g "post_date_1") in
  let author := Fields.ModelChoiceField_clean (users db) (g "author") in
  let id := if initial then Some <$> Fields.ModelChoiceField_clean (comments db) (g "id")
            else optional_choice (comments db) (g "id") in
  let construct c0 :=
    Comment.mk (if is_ok blog then Some new_parent else Comment.blog c0)
               (default (Comment.content c0) (valid content))
               (match valid post_date with Some d => Some d | None => Comment.post_date c0 end)
               (match valid author with Some a => Some a | None => Comment.author c0 end) in
  let clean :=
    match blog, content, post_date, author, id with
    | Ok _, Ok c, Ok d, Ok a, Ok _ => Ok (Comment.mk (Some new_parent) c (Some d) (Some a))
    | _, _, _, _, _ =>
        raise (field_errors (inline_key i "blog") blog ++ field_errors (inline_key i "content") content ++
               field_errors (inline_key i "post_date") post_date ++
               field_errors (inline_key i "author") author ++ field_errors (inline_key i "id") id)
    end in
  mkInline initial (fst <$> instance) (checkbox (g "DELETE")) (inline_changed instance g) construct clean.

(** [formset.is_valid()] skips the forms to delete and the added forms
    left unchanged ([empty_permitted]). *)
Definition inline_skipped (f : inline_form) : bool :=
  if_delete f || (negb (if_initial f) && negb (if_changed f)).

Definition inline_form_errors (f : inline_form) : FormErrors :=
  if inline_skipped f then [] else errors_of (if_clean f).

(** The instance of comment [j] after [is_valid()]: [_existing_object]
    hands the same object to every initial form that names [j], and
    each form's [_post_clean] writes its valid fields into it, in form
    order. *)
Definition construct_shared (j : nat) (c0 : Comment.t) (forms : list inline_form) : Comment.t :=
  foldl (λ c f, if bool_decide (if_instance f = Some j) then if_construct f c else c) c0 forms.

Definition shared_instance (db : Db) (forms : list inline_form) (j : nat) : option Comment.t :=
  (λ c0, construct_shared j c0 forms) <$> comments db !! j.

(** [save_existing_objects]: for each initial form, an instance whose
    [pk] was cleared by an earlier delete is skipped; one marked
    [DELETE] is deleted; a changed one is saved ([instance.save()] of
    the shared instance).  [deleted] are the instances deleted so far. *)
Fixpoint save_existing (shared : nat → option Comment.t) (deleted : list nat) (forms : list inline_form)
    : list orm_op :=
  match forms with
  | [] => []
  | f :: fs =>
      match if_instance f with
      | Some j =>
          if bool_decide (j ∈ deleted) then save_existing shared deleted fs
          else if if_delete f then Models.DeleteComment j :: save_existing shared (j :: deleted) fs
          else if if_changed f then
            match shared j with
            | Some c => UpdateComment j c :: save_existing shared deleted fs
            | None => save_existing shared deleted fs
            end
          else save_existing shared deleted fs
      | None => save_existing shared deleted fs
      end
  end.

(** [save_new_objects]: the changed added forms not marked [DELETE]. *)
Definition save_new (f : inline_form) : list orm_op :=
  match if_clean f with
  | Ok c => if if_changed f && negb (if_delete f) then [CreateComment c] else []
  | Err _ => []
  end.

(** [formset.save()]: the initial forms, then the added ones. *)
Definition inline_ops (db : Db) (forms : list inline_form) : list orm_op :=
  let initial := filter (λ f, if_initial f = true) forms in
  save_existing (shared_instance db initial) [] initial ++
  mjoin (save_new <$> filter (λ f, if_initial f = false) forms).

(** [absolute_max]: [max_num] ([DEFAULT_MAX_NUM = 1000] for an inline
    without [max_num]) plus [DEFAULT_MAX_NUM]. *)
Definition CommentInline_max_num : nat := 1000.
Definition CommentInline_absolute_max : nat := CommentInline_max_num + 1000.

(** The whole formset: the [ManagementForm], the forms ([min(TOTAL_FORMS,
    absolute_max)] of them), then the ORM writes of [save()] when every
    form is valid and [TOTAL_FORMS] is not above [absolute_max]
    ([too_many_forms] otherwise). *)
Definition CommentInline_formset (db : Db) (parent : option nat) (new_parent : nat)
    (data : Fields.QueryDict) : result FormErrors (list orm_op) :=
  match IntegerField_clean (Fields.querydict_get data "comment_set-TOTAL_FORMS"),
        IntegerField_clean (Fields.querydict_get data "comment_set-INITIAL_FORMS") with
  | Ok total, Ok initial =>
      let forms := (λ i, inline_form_of db parent new_parent data (bool_decide (Z.of_nat i < initial)%Z) i)
                     <$> seq 0 (Z.to_nat (Z.min total (Z.of_nat CommentInline_absolute_max))) in
      let too_many := bool_decide (Z.of_nat CommentInline_absolute_max < total)%Z in
      if forallb (λ f, inline_skipped f || is_ok (if_clean f)) forms && negb too_many
      then Ok (inline_ops db forms)
      else raise (mjoin (inline_form_errors <$> forms) ++
                  if too_many then [("comment_set", [Fields.too_many_forms CommentInline_max_num])] else [])
  | _, _ => raise [("comment_set", [Fields.missing_management_form])]
  end.

(** ** The views *)

Inductive admin_error :=
| FormInvalid (errors : FormErrors)   (** the form is shown again with its errors *)
| DbFailure (e : db_error)            (** the page listing the protected objects, or
                                          the redirect for a missing object *)
| Crash.                              (** an uncaught exception: the 500 page *)

Inductive admin_model := BlogModel | AuthorModel | CommentModel.

Inductive admin_action :=
| AddBlog (data : Fields.QueryDict)
| ChangeBlog (k : nat) (data : Fields.QueryDict)
| DeleteBlog (k : nat)
| AddAuthor (data : Fields.QueryDict)
| ChangeAuthor (k : nat) (data : Fields.QueryDict)
| DeleteAuthor (k : nat)
| AddComment (data : Fields.QueryDict)
| ChangeComment (k : nat) (data : Fields.QueryDict)
| DeleteComment (k : nat)
| DeleteSelected (model : admin_model) (today : Calendar.date) (choice : Admin.date_choice)
    (q : string) (select_across : bool) (selected : list nat)
    (** the confirmed [delete_selected] action on the changelist shown
        on [today] with the date filter [choice] and the search [q] *)
| AddUser (u : User.t)          (** the admin of [django.contrib.auth] *)
| DeleteUser (k : nat).

Definition db_result {A} (r : result db_error A) : result admin_error A :=
  match r with Ok a => Ok a | Err e => raise (DbFailure e) end.

Definition form_result {A} (r : result FormErrors A) : result admin_error A :=
  match r with Ok a => Ok a | Err e => raise (FormInvalid e) end.

(** [get_object]: the change page of a missing key redirects. *)
Definition get_object {A} (m : gmap nat A) (k : nat) : result admin_error A :=
  db_result (of_option DoesNotExist (m !! k)).

(** The keys of the changelist's queryset ([cl.get_queryset(request)]:
    the date filter and the search applied); building it can raise. *)
Definition changelist_keys (mdl : admin_model) (db : Db) (today : Calendar.date)
    (choice : Admin.date_choice) (q : string) : result Calendar.date_error (list nat) :=
  match mdl with
  | BlogModel => (λ qs, qs.*1) <$> Admin.get_queryset Admin.BlogAdmin db today choice q
  | AuthorModel => (λ qs, qs.*1) <$> Admin.get_queryset Admin.AuthorAdmin db today choice q
  | CommentModel => (λ qs, qs.*1) <$> Admin.get_queryset Admin.CommentAdmin db today choice q
  end.

(** The database with its blogs table replaced. *)
Definition with_blogs (db : Db) (m : gmap nat Blog.t) : Db :=
  mkDb (users db) (authors db) m (comments db) (next_user db) (next_author db) (next_blog db) (next_comment db).

(** [response_action]: the whole queryset with [select_across], else
    [queryset.filter(pk__in=selected)]. *)
Definition action_keys (keys : list nat) (select_across : bool) (selected : list nat) : list nat :=
  if select_across then keys else filter (λ k, k ∈ selected) keys.

(** [str()] of every selected comment succeeds: [get_deleted_objects]
    and [log_deletion] show each deleted object. *)
Definition comments_str_ok (db : Db) (ks : list nat) : bool :=
  forallb (λ k, match comments db !! k with Some c => is_ok (comment_str db k c) | None => true end) ks.

(** The [delete_selected] action, confirmed: the collector of
    [get_deleted_objects] shows the objects and lists the protected
    rows; with any protected row the page says so and nothing is
    deleted; otherwise [queryset.delete()]. *)
Definition delete_selected (mdl : admin_model) (today : Calendar.date) (choice : Admin.date_choice)
    (q : string) (select_across : bool) (selected : list nat) (db : Db) : result admin_error Db :=
  match changelist_keys mdl db today choice q with
  | Err _ => raise Crash
  | Ok keys =>
      let sel := action_keys keys select_across selected in
      match mdl with
      | BlogModel =>
          if bool_decide (map_Forall (λ _ c, Forall (λ k, Comment.blog c ≠ Some k) sel) (comments db))
          then db_result (run_ops (Models.DeleteBlog <$> sel) db)
          else raise (DbFailure RestrictedError)
      | AuthorModel => db_result (run_ops (Models.DeleteAuthor <$> sel) db)
      | CommentModel =>
          if comments_str_ok db sel then db_result (run_ops (Models.DeleteComment <$> sel) db)
          else raise Crash
      end
  end.

(** [add_view], [change_view] (the form and the formsets are all
    validated, then [save_model] and [save_related]), [delete_view]
    (the object's [str()], the collector's [RESTRICT] check, then
    [delete_model]) and the [delete_selected] action. *)
Definition run_admin (act : admin_action) (db : Db) : result admin_error Db :=
  match act with
  | AddBlog data =>
      match BlogForm_clean db data, CommentInline_formset db None (next_blog db) data with
      | Ok b, Ok ops => '(d, _) ← db_result (create_blog b db); db_result (run_ops ops d)
      | f, fs => raise (FormInvalid (errors_of f ++ errors_of fs))
      end
  | ChangeBlog k data =>
      _ ← get_object (blogs db) k;
      match BlogForm_clean db data, CommentInline_formset db (Some k) k data with
      | Ok b, Ok ops => d ← db_result (update_blog k b db); db_result (run_ops ops d)
      | f, fs => raise (FormInvalid (errors_of f ++ errors_of fs))
      end
  | DeleteBlog k => db_result (delete_blog k db)
  | AddAuthor data => a ← form_result (AuthorForm_clean db None data); fst <$> db_result (create_author a db)
  | ChangeAuthor k data =>
      _ ← get_object (authors db) k;
      a ← form_result (AuthorForm_clean db (Some k) data); db_result (update_author k a db)
  | DeleteAuthor k => db_result (delete_author k db)
  | AddComment data => c ← form_result (CommentForm_clean db data); fst <$> db_result (create_comment_row c db)
  | ChangeComment k data =>
      _ ← get_object (comments db) k;
      c ← form_result (CommentForm_clean db data); db_result (update_comment k c db)
  | DeleteComment k =>
      c ← get_object (comments db) k;
      if is_ok (comment_str db k c) then db_result (delete_comment k db) else raise Crash
  | DeleteSelected mdl today ch q across ks => delete_selected mdl today ch q across ks db
  | AddUser u => Ok (create_user u db).1
  | DeleteUser k => db_result (delete_user k db)
  end.

(** ** What the views write *)

(** The values a model field accepts, as the forms check them. *)
Definition blog_fits (b : Blog.t) : Prop :=
  String.length (Blog.title b) ≤ title_max_length ∧
  String.length (Blog.content b) ≤ blog_content_max_length ∧ Admin.post_date_ok b.

Definition author_fits (a : Author.t) : Prop :=
  String.length (Author.biography a) ≤ biography_max_length.

(** A comment written by a form: its text fits, and the required
    [blog] field is set. *)
Definition comment_fits (c : Comment.t) : Prop :=
  String.length (Comment.content c) ≤ CommentForm.max_length ∧ Comment.blog c ≠ None.

Definition op_fits (op : orm_op) : Prop :=
  match op with
  | CreateBlog b | UpdateBlog _ b => blog_fits b
  | CreateAuthor a | UpdateAuthor _ a => author_fits a
  | CreateComment c | UpdateComment _ c => comment_fits c
  | _ => True
  end.

#[export] Instance blog_fits_dec b : Decision (blog_fits b).
Proof. unfold blog_fits. apply _. Defined.

(** Every stored value fits its model field: the [max_length] of the
    text columns and a real date in [post_date]. *)
Record fields_ok (db : Db) : Prop := {
  fields_blogs : map_Forall (λ _, blog_fits) (blogs db);
  fields_authors : map_Forall (λ _, author_fits) (authors db);
  fields_comments : map_Forall (λ _ c, String.length (Comment.content c) ≤ CommentForm.max_length)
                               (comments db)
}.

(** Every comment has a blog: [Comment.blog] is [null=True] in the
    schema, but every form requires it. *)
Definition no_orphans (db : Db) : Prop := map_Forall (λ _ c, Comment.blog c ≠ None) (comments db).

Lemma run_op_fields op db db' : fields_ok db → op_fits op → run_op op db = Ok db' → fields_ok db'.
Proof.
  intros [Hb Ha Hc] Hop. destruct op; simpl in *.
  - intros [= <-]. by constructor.
  - unfold create_author. destruct (_ && _); [|discriminate].
    intros [= <-]. constructor; simpl; [done|by apply map_Forall_insert_2|done].
  - unfold create_blog. destruct (fk_ok _ _); [|discriminate].
    intros [= <-]. constructor; simpl; [by apply map_Forall_insert_2|done|done].
  - unfold create_comment_row. destruct (_ && _); [|discriminate].
    intros [= <-]. constructor; simpl; [done|done|apply map_Forall_insert_2; [apply Hop|done]].
  - unfold delete_user. destruct (users db !! k); [|discriminate]. intros [= <-].
    constructor; simpl; [done|apply (map_Forall_fmap_impl _ _ _ _ Ha)|apply (map_Forall_fmap_impl _ _ _ _ Hc)];
      done.
  - unfold delete_author. destruct (authors db !! k); [|discriminate]. intros [= <-].
    constructor; simpl; [|by apply map_Forall_delete|done].
    apply (map_Forall_fmap_impl _ _ _ _ Hb). done.
  - unfold delete_blog. destruct (blogs db !! k); [|discriminate]. destruct (bool_decide _); [|discriminate].
    intros [= <-]. constructor; simpl; [by apply map_Forall_delete|done|done].
  - unfold delete_comment. destruct (comments db !! k); [|discriminate]. intros [= <-].
    constructor; simpl; [done|done|by apply map_Forall_delete].
  - unfold update_author. destruct (authors db !! k); [|discriminate]. destruct (_ && _); [|discriminate].
    intros [= <-]. constructor; simpl; [done|by apply map_Forall_insert_2|done].
  - unfold update_blog. destruct (blogs db !! k); [|discriminate]. destruct (fk_ok _ _); [|discriminate].
    intros [= <-]. constructor; simpl; [by apply map_Forall_insert_2|done|done].
  - unfold update_comment. destruct (comments db !! k); [|discriminate]. destruct (_ && _); [|discriminate].
    intros [= <-]. constructor; simpl; [done|done|apply map_Forall_insert_2; [apply Hop|done]].
Qed.

Lemma run_op_no_orphans op db db' : no_orphans db → op_fits op → run_op op db = Ok db' → no_orphans db'.
Proof.
  unfold no_orphans. intros Hc Hop. destruct op; simpl in *.
  - by intros [= <-].
  - unfold create_author. destruct (_ && _); [|discriminate]. by intros [= <-].
  - unfold create_blog. destruct (fk_ok _ _); [|discriminate]. by intros [= <-].
  - unfold create_comment_row. destruct (_ && _); [|discriminate].
    intros [= <-]. apply map_Forall_insert_2; [apply Hop|done].
  - unfold delete_user. destruct (users db !! k); [|discriminate]. intros [= <-].
    by apply (map_Forall_fmap_impl _ _ _ _ Hc).
  - unfold delete_author. destruct (authors db !! k); [|discriminate]. by intros [= <-].
  - unfold delete_blog. destruct (blogs db !! k); [|discriminate]. destruct (bool_decide _); [|discriminate].
    by intros [= <-].
  - unfold delete_comment. destruct (comments db !! k); [|discriminate]. intros [= <-].
    by apply map_Forall_delete.
  - unfold update_author. destruct (authors db !! k); [|discriminate]. destruct (_ && _); [|discriminate].
    by intros [= <-].
  - unfold update_blog. destruct (blogs db !! k); [|discriminate]. destruct (fk_ok _ _); [|discriminate].
    by intros [= <-].
  - unfold update_comment. destruct (comments db !! k); [|discriminate]. destruct (_ && _); [|discriminate].
    intros [= <-]. apply map_Forall_insert_2; [apply Hop|done].
Qed.

Lemma run_ops_fields ops db db' :
  Forall op_fits ops → fields_ok db → run_ops ops db = Ok db' → fields_ok db'.
Proof.
  intros Hops. apply run_ops_preserve. intros op d d' Hin. rewrite Forall_forall in Hops.
  intros; eapply run_op_fields; eauto.
Qed.

Lemma run_ops_no_orphans ops db db' :
  Forall op_fits ops → no_orphans db → run_ops ops db = Ok db' → no_orphans db'.
Proof.
  intros Hops. apply run_ops_preserve. intros op d d' Hin. rewrite Forall_forall in Hops.
  intros; eapply run_op_no_orphans; eauto.
Qed.

(** What the forms accept fits the model fields. *)
Lemma BlogForm_clean_fits db data b : BlogForm_clean db data = Ok b → blog_fits b.
Proof.
  unfold BlogForm_clean.
  destruct (Fields.clean title_max_length _) as [t|] eqn:Ht; [|by destruct (Fields.ModelChoiceField_clean _ _)].
  destruct (Fields.ModelChoiceField_clean _ _) as [a|]; [|done].
  destruct (Fields.clean blog_content_max_length _) as [c|] eqn:Hc; [|done].
  destruct (Fields.DateField_clean _) as [dt|] eqn:Hd; [|done]. intros [= <-].
  apply Fields.clean_Ok_length in Ht, Hc. split_and!; [done|done|].
  intros n [= <-]. pose proof (Calendar.toordinal_bounds dt (Fields.DateField_clean_Ok _ _ Hd)). simpl. lia.
Qed.

Lemma AuthorForm_clean_fits db self data a : AuthorForm_clean db self data = Ok a → author_fits a.
Proof.
  unfold AuthorForm_clean.
  destruct (Fields.ModelChoiceField_clean _ _) as [u|]; [|by destruct (Fields.clean _ _)].
  destruct (Fields.clean biography_max_length _) as [b|] eqn:Hb; [|by destruct (unique_name_free _ _ _)].
  destruct (unique_name_free _ _ _); [|done]. intros [= <-]. by eapply Fields.clean_Ok_length.
Qed.

Lemma CommentForm_clean_fits db data c : CommentForm_clean db data = Ok c → comment_fits c.
Proof.
  unfold CommentForm_clean.
  destruct (Fields.ModelChoiceField_clean (blogs db) _) as [b|]; [|done].
  destruct (Fields.clean _ _) as [t|] eqn:Ht; [|done].
  destruct (Fields.SplitDateTimeField_clean _ _); [|done].
  destruct (Fields.ModelChoiceField_clean (users db) _); [|done].
  intros [= <-]. split; [by eapply Fields.clean_Ok_length|done].
Qed.

(** A form of the formset saves its comment under the parent. *)
Lemma inline_form_of_clean db parent np data initial i c :
  if_clean (inline_form_of db parent np data initial i) = Ok c →
  comment_fits c ∧ Comment.blog c = Some np.
Proof.
  unfold inline_form_of. cbn [if_clean].
  destruct (if Fields.is_empty _ then _ else _); [|done].
  destruct (Fields.clean _ _) as [t|] eqn:Ht; [|done].
  destruct (Fields.SplitDateTimeField_clean _ _); [|done].
  destruct (Fields.ModelChoiceField_clean (users db) _); [|done].
  destruct (if initial then _ else _); [|done].
  intros [= <-]. split; [split; [by eapply Fields.clean_Ok_length|done]|done].
Qed.

Lemma inline_form_of_instance db parent np data initial i j :
  if_instance (inline_form_of db parent np data initial i) = Some j →
  parent ≠ None ∧ ∃ c, comments db !! j = Some c ∧ Comment.blog c = parent.
Proof.
  unfold inline_form_of. cbn [if_instance]. destruct initial; [simpl|done].
  destruct (_ ≫= Py.int) as [z|]; [|done]. destruct (comments db !! Z.to_nat z) as [c|] eqn:E; [|done].
  case_bool_decide as H; [|done]. intros [= <-]. naive_solver.
Qed.

(** [construct_instance] writes the parent into [blog] or leaves it,
    and a valid [content] or the old one. *)
Lemma inline_construct_blog db parent np data initial i c :
  Comment.blog (if_construct (inline_form_of db parent np data initial i) c) = Some np ∨
  Comment.blog (if_construct (inline_form_of db parent np data initial i) c) = Comment.blog c.
Proof. unfold inline_form_of. cbn [if_construct Comment.blog]. case_match; auto. Qed.

Lemma inline_construct_content db parent np data initial i c :
  String.length (Comment.content (if_construct (inline_form_of db parent np data initial i) c))
    ≤ CommentForm.max_length ∨
  Comment.content (if_construct (inline_form_of db parent np data initial i) c) = Comment.content c.
Proof.
  unfold inline_form_of. cbn [if_construct Comment.content].
  destruct (Fields.clean _ _) eqn:E; simpl; [left; by eapply Fields.clean_Ok_length|by right].
Qed.

Lemma inline_construct_content_valid db parent np data initial i c :
  is_ok (if_clean (inline_form_of db parent np data initial i)) = true →
  String.length (Comment.content (if_construct (inline_form_of db parent np data initial i) c))
    ≤ CommentForm.max_length.
Proof.
  unfold inline_form_of. cbn [if_clean if_construct Comment.content].
  destruct (Fields.clean _ _) eqn:E; [intros _; simpl; by eapply Fields.clean_Ok_length|].
  by destruct (if Fields.is_empty _ then _ else _).
Qed.

(** The forms of one formset. *)
Definition form_of (db : Db) (parent : option nat) (np : nat) (data : Fields.QueryDict) (f : inline_form) : Prop :=
  ∃ initial i, f = inline_form_of db parent np data initial i.


Lemma construct_shared_preserve (P : Comment.t → Prop) j c0 forms :
  P c0 → (∀ f c, f ∈ forms → if_instance f = Some j → P c → P (if_construct f c)) →
  P (construct_shared j c0 forms).
Proof.
  unfold construct_shared. revert c0. induction forms as [|f fs IH]; intros c0 H0 Hf; simpl; [done|].
  apply IH; [case_bool_decide; [apply Hf; [set_solver|..]|]; done|].
  intros g c Hg. apply Hf. set_solver.
Qed.

Lemma construct_shared_reaches (P : Comment.t → Prop) j c0 forms f :
  f ∈ forms → if_instance f = Some j → (∀ c, P (if_construct f c)) →
  (∀ g c, g ∈ forms → if_instance g = Some j → P c → P (if_construct g c)) →
  P (construct_shared j c0 forms).
Proof.
  intros Hf Hj HP Hg. apply list_elem_of_split in Hf as (l1 & l2 & ->).
  unfold construct_shared. rewrite foldl_app. simpl. rewrite bool_decide_true by done.
  apply (construct_shared_preserve P j); [apply HP|]. intros g c Hin. apply Hg. set_solver.
Qed.

(** What a saved shared instance holds: a valid form names it, so its
    text fits, and its blog is the parent. *)
Lemma shared_instance_fits db parent np data forms j c :
  Forall (form_of db parent np data) forms →
  (∃ f, f ∈ forms ∧ if_instance f = Some j ∧ is_ok (if_clean f) = true) →
  shared_instance db forms j = Some c →
  comment_fits c ∧ (Comment.blog c = Some np ∨ Comment.blog c = parent) ∧
  ∃ c0, comments db !! j = Some c0 ∧ Comment.blog c0 = parent.
Proof.
  intros Hforms (f & Hf & Hj & Hok). rewrite Forall_forall in Hforms.
  destruct (Hforms f Hf) as (ini & i & ->).
  destruct (inline_form_of_instance _ _ _ _ _ _ _ Hj) as (Hp & c0 & Hc0 & Hb0).
  unfold shared_instance. rewrite Hc0. intros [= <-].
  assert (Hbl : Comment.blog (construct_shared j c0 forms) = Some np ∨
                Comment.blog (construct_shared j c0 forms) = parent).
  { apply construct_shared_preserve; [by right|]. intros g c Hg _ Hc.
    destruct (Hforms g Hg) as (? & ? & ->). destruct (inline_construct_blog db parent np data x x0 c) as [-> | ->]; auto. }
  split_and!; [split| |eauto].
  - apply (construct_shared_reaches (λ c, String.length (Comment.content c) ≤ CommentForm.max_length) j c0 forms _ Hf Hj).
    + intros c. by apply inline_construct_content_valid.
    + intros g c Hg _ Hc. destruct (Hforms g Hg) as (? & ? & ->).
      destruct (inline_construct_content db parent np data x x0 c) as [?| ->]; auto.
  - destruct Hbl as [->| ->]; done.
  - done.
Qed.

(** [save_existing_objects] deletes and saves only instances that some
    form names, a saved one unmarked and changed. *)
Lemma save_existing_ops shared deleted forms :
  Forall (λ op, match op with
                | Models.DeleteComment j => ∃ f, f ∈ forms ∧ if_instance f = Some j
                | UpdateComment j c => shared j = Some c ∧
                    ∃ f, f ∈ forms ∧ if_instance f = Some j ∧ if_delete f = false
                | _ => False
                end) (save_existing shared deleted forms).
Proof.
  revert deleted. induction forms as [|f fs IH]; intros deleted; simpl; [done|].
  assert (Hw : ∀ d, Forall (λ op, match op with
                | Models.DeleteComment j => ∃ f', f' ∈ f :: fs ∧ if_instance f' = Some j
                | UpdateComment j c => shared j = Some c ∧
                    ∃ f', f' ∈ f :: fs ∧ if_instance f' = Some j ∧ if_delete f' = false
                | _ => False
                end) (save_existing shared d fs)).
  { intros d. eapply Forall_impl; [apply IH|]. intros [] ; try done; set_solver. }
  destruct (if_instance f) as [j|] eqn:Ej; [|apply Hw].
  case_bool_decide; [apply Hw|].
  destruct (if_delete f) eqn:Ed; [constructor; [set_solver|apply Hw]|].
  destruct (if_changed f); [|apply Hw].
  destruct (shared j) eqn:Es; [constructor; [split; [done|set_solver]|apply Hw]|apply Hw].
Qed.

(** Every write of [formset.save()]: a new comment of the parent that
    fits, or an update or delete of a comment of [parent]. *)
Definition inline_op_ok (db : Db) (parent : option nat) (np : nat) (op : orm_op) : Prop :=
  match op with
  | CreateComment c => comment_fits c ∧ Comment.blog c = Some np
  | UpdateComment j c => comment_fits c ∧ (Comment.blog c = Some np ∨ Comment.blog c = parent) ∧
                         ∃ c0, comments db !! j = Some c0 ∧ Comment.blog c0 = parent
  | Models.DeleteComment j => ∃ c0, comments db !! j = Some c0 ∧ Comment.blog c0 = parent
  | _ => False
  end.

Lemma CommentInline_formset_ops db parent np data ops :
  CommentInline_formset db parent np data = Ok ops → Forall (inline_op_ok db parent np) ops.
Proof.
  unfold CommentInline_formset. repeat case_match; intros; simplify_eq.
  match goal with H : (forallb _ _ && _) = true |- _ => apply andb_prop in H as [Hv _] end.
  match goal with |- Forall _ (inline_ops db ?fs) => set (forms := fs) in * end.
  assert (Hforms : Forall (form_of db parent np data) forms).
  { apply Forall_fmap, Forall_forall. intros i _. eexists _, _. reflexivity. }
  rewrite forallb_forall in Hv. unfold inline_ops. apply Forall_app. split.
  - eapply Forall_impl; [apply save_existing_ops|]. intros [] Hop; simpl in Hop |- *; try contradiction.
    + destruct Hop as (f & Hf & Hj). apply list_elem_of_filter in Hf as [_ Hf].
      destruct (proj1 (Forall_forall _ _) Hforms _ Hf) as (? & ? & ->).
      by apply inline_form_of_instance in Hj as [_ ?].
    + destruct Hop as (Hs & f & Hf & Hj & Hd). eapply shared_instance_fits; [| |exact Hs].
      * apply Forall_forall. intros g [_ Hg]%list_elem_of_filter. by apply (proj1 (Forall_forall _ _) Hforms).
      * exists f. split_and!; [done|done|]. apply list_elem_of_filter in Hf as [Hi Hf].
        pose proof (Hv f (proj1 (list_elem_of_In _ _) Hf)) as Hf'. unfold inline_skipped in Hf'.
        by rewrite Hd, Hi in Hf'.
  - apply Forall_join, Forall_fmap, Forall_forall. intros f (_ & Hf)%list_elem_of_filter.
    destruct (proj1 (Forall_forall _ _) Hforms _ Hf) as (? & ? & ->). unfold compose, save_new.
    destruct (if_clean _) eqn:E; [|constructor]. destruct (_ && _); [|constructor].
    apply Forall_singleton. by apply inline_form_of_clean in E.
Qed.

Lemma CommentInline_formset_fits db parent np data ops :
  CommentInline_formset db parent np data = Ok ops → Forall op_fits ops.
Proof.
  intros H%CommentInline_formset_ops. eapply Forall_impl; [exact H|].
  intros [] Hop; simpl in *; try done; naive_solver.
Qed.

Lemma Forall_op_fits_deletes (mk : nat → orm_op) ks :
  (∀ k, op_fits (mk k)) → Forall op_fits (mk <$> ks).
Proof. intros H. apply Forall_fmap, Forall_forall. intros k _. apply H. Qed.

Lemma db_result_Ok {A} (r : result db_error A) a : db_result r = Ok a → r = Ok a.
Proof. by destruct r; intros; simplify_eq/=. Qed.

(** A write that fits, then a sequence of them. *)
Lemma ops_cons_fits op ops db d db' :
  run_op op db = Ok d → run_ops ops d = Ok db' → op_fits op → Forall op_fits ops →
  ∃ ops', run_ops ops' db = Ok db' ∧ Forall op_fits ops'.
Proof. intros H1 H2 Hf Hfs. exists (op :: ops). rewrite run_ops_cons, H1. by split; [|constructor]. Qed.

Lemma op_fits_one op db db' :
  run_op op db = Ok db' → op_fits op → ∃ ops', run_ops ops' db = Ok db' ∧ Forall op_fits ops'.
Proof. intros H Hf. by eapply (ops_cons_fits op []). Qed.

(** Every view of the admin is a sequence of ORM writes of values that
    fit their fields. *)
Lemma run_admin_ops act db db' :
  run_admin act db = Ok db' → ∃ ops, run_ops ops db = Ok db' ∧ Forall op_fits ops.
Proof.
  destruct act; simpl; unfold get_object.
  - destruct (BlogForm_clean db data) as [b|] eqn:Hb; [|by destruct (CommentInline_formset _ _ _ _)].
    destruct (CommentInline_formset _ _ _ _) as [ops|] eqn:Hf; [|done].
    destruct (create_blog b db) as [[d k]|] eqn:E; simpl; [|discriminate]. intros H%db_result_Ok.
    eapply (ops_cons_fits (CreateBlog b)); [by simpl; rewrite E|done|by eapply BlogForm_clean_fits|].
    by eapply CommentInline_formset_fits.
  - destruct (blogs db !! k); simpl; [|discriminate].
    destruct (BlogForm_clean db data) as [b|] eqn:Hb; [|by destruct (CommentInline_formset _ _ _ _)].
    destruct (CommentInline_formset _ _ _ _) as [ops|] eqn:Hf; [|done].
    destruct (update_blog k b db) as [d|] eqn:E; simpl; [|discriminate]. intros H%db_result_Ok.
    eapply (ops_cons_fits (UpdateBlog k b)); [done|done|by eapply BlogForm_clean_fits|].
    by eapply CommentInline_formset_fits.
  - intros H%db_result_Ok. by apply (op_fits_one (Models.DeleteBlog k)).
  - destruct (AuthorForm_clean db None data) as [a|] eqn:Ha; simpl; [|discriminate].
    destruct (create_author a db) as [[d k]|] eqn:E; simpl; [|discriminate]. intros [= <-].
    apply (op_fits_one (CreateAuthor a)); [by simpl; rewrite E|by eapply AuthorForm_clean_fits].
  - destruct (authors db !! k); simpl; [|discriminate].
    destruct (AuthorForm_clean db (Some k) data) as [a|] eqn:Ha; simpl; [|discriminate].
    intros H%db_result_Ok. apply (op_fits_one (UpdateAuthor k a)); [done|by eapply AuthorForm_clean_fits].
  - intros H%db_result_Ok. by apply (op_fits_one (Models.DeleteAuthor k)).
  - destruct (CommentForm_clean db data) as [c|] eqn:Hc; simpl; [|discriminate].
    destruct (create_comment_row c db) as [[d k]|] eqn:E; simpl; [|discriminate]. intros [= <-].
    apply (op_fits_one (CreateComment c)); [by simpl; rewrite E|by eapply CommentForm_clean_fits].
  - destruct (comments db !! k); simpl; [|discriminate].
    destruct (CommentForm_clean db data) as [c|] eqn:Hc; simpl; [|discriminate].
    intros H%db_result_Ok. apply (op_fits_one (UpdateComment k c)); [done|by eapply CommentForm_clean_fits].
  - destruct (comments db !! k); simpl; [|discriminate]. case_match; [|discriminate].
    intros Hd%db_result_Ok. by apply (op_fits_one (Models.DeleteComment k)).
  - unfold delete_selected. destruct (changelist_keys _ _ _ _ _); [|discriminate].
    destruct model; [case_bool_decide; [|discriminate]| |case_match; [|discriminate]];
      intros Hr%db_result_Ok; (eexists; split; [exact Hr|by apply Forall_op_fits_deletes]).
  - intros [= <-]. by apply (op_fits_one (CreateUser u)).
  - intros H%db_result_Ok. by apply (op_fits_one (Models.DeleteUser k)).
Qed.

Lemma run_admin_fields act db db' : fields_ok db → run_admin act db = Ok db' → fields_ok db'.
Proof. intros H (ops & Hr & Hops)%run_admin_ops. by eapply run_ops_fields. Qed.

Lemma run_admin_no_orphans act db db' : no_orphans db → run_admin act db = Ok db' → no_orphans db'.
Proof. intros H (ops & Hr & Hops)%run_admin_ops. by eapply run_ops_no_orphans. Qed.

Lemma run_admin_wf act db db' : wf_db db → run_admin act db = Ok db' → wf_db db'.
Proof. intros H (ops & Hr & _)%run_admin_ops. by eapply run_ops_wf. Qed.

(** ** The [delete_selected] action on blogs *)

Lemma elem_of_action_keys keys across ks k :
  k ∈ action_keys keys across ks ↔ k ∈ keys ∧ (across = true ∨ k ∈ ks).
Proof. unfold action_keys. destruct across; [naive_solver|]. rewrite list_elem_of_filter. naive_solver. Qed.

Lemma NoDup_action_keys keys across ks : NoDup keys → NoDup (action_keys keys across ks).
Proof. unfold action_keys. destruct across; [done|]. apply NoDup_filter. Qed.

Lemma filter_not_in_delete (m : gmap nat Blog.t) k sel :
  filter (λ kb : nat * Blog.t, kb.1 ∉ sel) (delete k m) = filter (λ kb : nat * Blog.t, kb.1 ∉ k :: sel) m.
Proof.
  apply map_eq. intros i. rewrite !map_lookup_filter.
  destruct (decide (i = k)) as [->|Hi]; [rewrite lookup_delete_eq|rewrite lookup_delete_ne by done];
    destruct (m !! _); simpl; repeat case_guard; set_solver.
Qed.

(** Deleting the blogs [sel], none of them protected, one after the other. *)
Lemma run_ops_delete_blogs sel db :
  NoDup sel → (∀ k, k ∈ sel → is_Some (blogs db !! k)) →
  map_Forall (λ _ c, Forall (λ k, Comment.blog c ≠ Some k) sel) (comments db) →
  run_ops (Models.DeleteBlog <$> sel) db = Ok (with_blogs db (filter (λ kb, kb.1 ∉ sel) (blogs db))).
Proof.
  revert db. induction sel as [|k sel IH]; intros db Hnd Hin Hc.
  - rewrite map_filter_id by set_solver. by destruct db.
  - apply NoDup_cons in Hnd as [Hk Hnd]. rewrite fmap_cons, run_ops_cons. simpl. unfold delete_blog.
    destruct (Hin k ltac:(set_solver)) as [b ->]. rewrite bool_decide_true.
    2:{ intros j c Hj. apply Hc in Hj. by apply Forall_cons in Hj as [? _]. }
    simpl. rewrite IH; simpl.
    + unfold with_blogs. simpl. by rewrite filter_not_in_delete.
    + done.
    + intros k' Hk'. rewrite lookup_delete_ne by set_solver. apply Hin. set_solver.
    + intros j c Hj. apply Hc in Hj. by apply Forall_cons in Hj as [_ ?].
Qed.

(** C25: the confirmed [delete_selected] action on blogs acts on the
    changelist's queryset (date filter and search applied), narrowed
    to the ticked keys unless "select all" was used, and is all or
    nothing: if one of those blogs has a comment ([on_delete=RESTRICT])
    the action fails with the protected-objects page and deletes
    nothing; otherwise exactly those blogs are deleted, a ticked key
    outside the changelist is left alone, and nothing else changes. *)
Theorem delete_selected_blogs today ch q across ks db qs :
  Admin.get_queryset Admin.BlogAdmin db today ch q = Ok qs →
  (delete_selected BlogModel today ch q across ks db = raise (DbFailure RestrictedError) ∧
     ∃ j c k, comments db !! j = Some c ∧ k ∈ qs.*1 ∧ (across = true ∨ k ∈ ks) ∧ Comment.blog c = Some k) ∨
  (delete_selected BlogModel today ch q across ks db =
     Ok (with_blogs db (filter (λ kb : nat * Blog.t, ¬ (kb.1 ∈ qs.*1 ∧ (across = true ∨ kb.1 ∈ ks))) (blogs db))) ∧
   ∀ j c k, comments db !! j = Some c → k ∈ qs.*1 → (across = true ∨ k ∈ ks) → Comment.blog c ≠ Some k).
Proof.
  intros Hq. unfold delete_selected, changelist_keys. rewrite Hq. simpl.
  set (sel := action_keys qs.*1 across ks).
  assert (Hsel : ∀ k, k ∈ sel ↔ k ∈ qs.*1 ∧ (across = true ∨ k ∈ ks)) by apply elem_of_action_keys.
  assert (Hin : ∀ k, k ∈ sel → is_Some (blogs db !! k)).
  { intros k [([k' b] & -> & Hkb)%list_elem_of_fmap _]%Hsel. exists b.
    exact (Admin.get_queryset_rows Admin.BlogAdmin _ _ _ _ _ _ _ Hq Hkb). }
  case_bool_decide as Hc.
  - right. rewrite run_ops_delete_blogs;
      [simpl; split|apply NoDup_action_keys; by eapply Admin.get_queryset_NoDup|done|done].
    + do 3 f_equal. apply map_filter_strong_ext. intros i b. specialize (Hsel i). simpl. tauto.
    + intros j c k Hj Hk Hacr. apply Hc in Hj. rewrite Forall_forall in Hj. apply Hj, Hsel. auto.
  - left. split; [done|]. apply map_not_Forall in Hc as (j & c & Hj & Hf); [|apply _].
    apply not_Forall_Exists, Exists_exists in Hf as (k & Hk & Hb); [|apply _].
    apply Hsel in Hk as [? ?]. exists j, c, k. split_and!; try done. by apply dec_stable.
Qed.

(** ** A formset with more forms than [absolute_max] *)

Lemma CommentInline_formset_too_many db parent np data total initial :
  IntegerField_clean (Fields.querydict_get data "comment_set-TOTAL_FORMS") = Ok total →
  IntegerField_clean (Fields.querydict_get data "comment_set-INITIAL_FORMS") = Ok initial →
  (Z.of_nat CommentInline_absolute_max < total)%Z →
  ∃ es, CommentInline_formset db parent np data = Err es ∧
    ("comment_set", [Fields.too_many_forms CommentInline_max_num]) ∈ es.
Proof.
  intros Ht Hi Hmax. unfold CommentInline_formset. rewrite Ht, Hi. cbn iota beta zeta.
  rewrite (bool_decide_eq_true_2 _ Hmax), andb_false_r. eexists. split; [reflexivity|].
  apply elem_of_app. right. by apply list_elem_of_singleton.
Qed.

(** C26: a blog's add or change page submitted with a [TOTAL_FORMS]
    above the inline's [absolute_max] (2000) is shown again with the
    formset error "Please submit at most 1000 forms" and writes
    nothing, whatever the forms and the blog form hold: the cap is not
    a truncation of the submitted forms. *)
Theorem blog_page_too_many_forms db data total initial :
  IntegerField_clean (Fields.querydict_get data "comment_set-TOTAL_FORMS") = Ok total →
  IntegerField_clean (Fields.querydict_get data "comment_set-INITIAL_FORMS") = Ok initial →
  (Z.of_nat CommentInline_absolute_max < total)%Z →
  (∃ es, run_admin (AddBlog data) db = Err (FormInvalid es) ∧
     ("comment_set", [Fields.too_many_forms 1000]) ∈ es) ∧
  ∀ k, is_Some (blogs db !! k) → ∃ es, run_admin (ChangeBlog k data) db = Err (FormInvalid es) ∧
     ("comment_set", [Fields.too_many_forms 1000]) ∈ es.
Proof.
  intros Ht Hi Hmax. split; [|intros k [b Hb]]; simpl; [|unfold get_object; rewrite Hb; simpl];
    [destruct (CommentInline_formset_too_many db None (next_blog db) data total initial Ht Hi Hmax) as (es & -> & Hes)
    |destruct (CommentInline_formset_too_many db (Some k) k data total initial Ht Hi Hmax) as (es & -> & Hes)];
    (destruct (BlogForm_clean db data) as [b'|e]; eexists; (split; [reflexivity|first [exact Hes|apply elem_of_app; right; exact Hes]])).
Qed.

(** ** The change page of a blog writes only that blog and its comments *)

Section change_blog.
Context (db0 : Db) (k : nat).

(** An ORM write of the inline of blog [k]: it adds a comment of [k],
    or rewrites or deletes a comment that was [k]'s in [db0]. *)
Definition was_in_blog (j : nat) : Prop := ∃ c0, comments db0 !! j = Some c0 ∧ Comment.blog c0 = Some k.

Definition op_in_blog (op : orm_op) : Prop :=
  match op with
  | CreateComment c => Comment.blog c = Some k
  | UpdateComment j c => Comment.blog c = Some k ∧ was_in_blog j
  | Models.DeleteComment j => was_in_blog j
  | _ => False
  end.

(** The comments of the blogs other than [k] are those of [db0]. *)
Definition frame_comments (m : gmap nat Comment.t) : Prop :=
  ∀ j c, Comment.blog c ≠ Some k → m !! j = Some c ↔ comments db0 !! j = Some c.

Definition frame (b : Blog.t) (d : Db) : Prop :=
  wf_db d ∧ users d = users db0 ∧ authors d = authors db0 ∧ blogs d = <[k:=b]> (blogs db0) ∧
  frame_comments (comments d).

Lemma frame_comments_insert m j c :
  frame_comments m → Comment.blog c = Some k →
  (∀ c', comments db0 !! j = Some c' → Comment.blog c' = Some k) → frame_comments (<[j:=c]> m).
Proof.
  intros Hm Hc Hj j' c' Hn. destruct (decide (j = j')) as [<-|Hne].
  - rewrite lookup_insert_eq. split; [intros [= <-]; congruence|intros H%Hj; congruence].
  - rewrite lookup_insert_ne by done. by apply Hm.
Qed.

Lemma frame_comments_delete m j :
  frame_comments m → (∀ c', comments db0 !! j = Some c' → Comment.blog c' = Some k) →
  frame_comments (delete j m).
Proof.
  intros Hm Hj j' c' Hn. destruct (decide (j = j')) as [<-|Hne].
  - rewrite lookup_delete_eq. split; [done|intros H%Hj; congruence].
  - rewrite lookup_delete_ne by done. by apply Hm.
Qed.

Lemma was_in_blog_all j : was_in_blog j → ∀ c', comments db0 !! j = Some c' → Comment.blog c' = Some k.
Proof. intros (c0 & Hj & Hb) c' Hc'. congruence. Qed.

Lemma frame_run_op b op d d' : op_in_blog op → frame b d → run_op op d = Ok d' → frame b d'.
Proof.
  intros Hop Hf Hr. assert (Hwf' : wf_db d') by (eapply run_op_wf; [apply Hf|done]).
  destruct Hf as (Hwf & Hu & Ha & Hbl & Hc). destruct op; simpl in Hop, Hr; try done.
  - unfold create_comment_row in Hr. destruct (_ && _); [|discriminate]. injection Hr as <-.
    split_and!; try done. apply frame_comments_insert; [done|done|]. intros c' Hc'.
    destruct (decide (Comment.blog c' = Some k)) as [|Hn]; [done|].
    apply (Hc _ _ Hn) in Hc'. by rewrite keys_lt_fresh in Hc' by apply Hwf.
  - unfold delete_comment in Hr. destruct (comments d !! k0); [|discriminate]. injection Hr as <-.
    split_and!; try done. apply frame_comments_delete; [done|by apply was_in_blog_all].
  - unfold update_comment in Hr. destruct (comments d !! k0); [|discriminate].
    destruct (_ && _); [|discriminate]. injection Hr as <-. destruct Hop as [Hb Hin].
    split_and!; try done. apply frame_comments_insert; [done|done|by apply was_in_blog_all].
Qed.

Lemma frame_run_ops b ops d d' : Forall op_in_blog ops → frame b d → run_ops ops d = Ok d' → frame b d'.
Proof. intros Hops. apply run_ops_preserve. intros op ? ? Hin. apply frame_run_op. by eapply Forall_forall. Qed.

Lemma CommentInline_formset_in_blog data ops :
  CommentInline_formset db0 (Some k) k data = Ok ops → Forall op_in_blog ops.
Proof.
  intros H%CommentInline_formset_ops. eapply Forall_impl; [exact H|].
  intros [] Hop; simpl in Hop |- *; try contradiction; unfold was_in_blog; naive_solver.
Qed.

End change_blog.

(** C24: a successful save of the change page of blog [k] (its form and
    the [CommentInline] formset) writes the cleaned blog at [k] and
    touches nothing but [k]'s comments: the users, the authors and the
    other blogs are unchanged, and so is every comment of another blog
    (none is added, changed or deleted), whatever the submitted ids. *)
Theorem change_blog_frame k data db db' :
  wf_db db → run_admin (ChangeBlog k data) db = Ok db' →
  ∃ b, BlogForm_clean db data = Ok b ∧ blogs db' = <[k:=b]> (blogs db) ∧
    users db' = users db ∧ authors db' = authors db ∧
    ∀ j c, Comment.blog c ≠ Some k → comments db' !! j = Some c ↔ comments db !! j = Some c.
Proof.
  intros Hwf. simpl. unfold get_object. destruct (blogs db !! k); simpl; [|discriminate].
  destruct (BlogForm_clean db data) as [b|]; [|by destruct (CommentInline_formset _ _ _ _)].
  destruct (CommentInline_formset _ _ _ _) as [ops|] eqn:Hf; [|done].
  destruct (update_blog k b db) as [d|] eqn:E; simpl; [|discriminate].
  destruct (run_ops ops d) as [d''|] eqn:Er; simpl; [intros [= <-]|discriminate].
  assert (Hfr : frame db k b d).
  { pose proof (update_blog_wf _ _ _ _ Hwf E). unfold update_blog in E.
    destruct (blogs db !! k); [|discriminate]. destruct (fk_ok _ _); [|discriminate]. injection E as <-.
    by split_and!. }
  eapply frame_run_ops in Hfr as (_ & Hu & Ha & Hb & Hc); [|by eapply CommentInline_formset_in_blog|done].
  exists b. by split_and!.
Qed.

(** ** Witnesses at the [CommentModelTest] fixture *)

(** The change page of blog 1 saved with a new title, its comment given
    a date and a comment added in a second inline form. *)
Definition change_blog_data : Fields.QueryDict := [
  ("title", "My blog post, edited"); ("author", "1"); ("content", "This is a post.");
  ("post_date", "2024-01-05");
  ("comment_set-TOTAL_FORMS", "2"); ("comment_set-INITIAL_FORMS", "1");
  ("comment_set-0-id", "1"); ("comment_set-0-blog", "1"); ("comment_set-0-content", "My comment");
  ("comment_set-0-post_date_0", "2024-01-05"); ("comment_set-0-post_date_1", "10:30:05");
  ("comment_set-0-author", "1");
  ("comment_set-1-blog", "1"); ("comment_set-1-content", "A new comment");
  ("comment_set-1-post_date_0", "2024-01-06"); ("comment_set-1-post_date_1", "09:00");
  ("comment_set-1-author", "1")
].

Definition changed_blog_db : Db :=
  match run_admin (ChangeBlog 1 change_blog_data) fixture_db with Ok d => d | Err _ => fixture_db end.

Lemma change_blog_frame_witness :
  run_admin (ChangeBlog 1 change_blog_data) fixture_db = Ok changed_blog_db ∧
  size (comments changed_blog_db) = 2 ∧
  ∃ b, BlogForm_clean fixture_db change_blog_data = Ok b ∧
    blogs changed_blog_db = <[1:=b]> (blogs fixture_db) ∧
    users changed_blog_db = users fixture_db ∧ authors changed_blog_db = authors fixture_db ∧
    ∀ j c, Comment.blog c ≠ Some 1 →
      comments changed_blog_db !! j = Some c ↔ comments fixture_db !! j = Some c.
Proof.
  assert (H : run_admin (ChangeBlog 1 change_blog_data) fixture_db = Ok changed_blog_db)
    by (vm_compute; reflexivity).
  split_and!; [exact H|vm_compute; reflexivity|].
  apply change_blog_frame; [apply wf_of_reachable, fixture_db_reachable|exact H].
Defined.

(** Blogs 1 and 2 ticked on the changelist searched for "tips" (blogs 1
    and 3): only blog 1 is deleted. *)
Definition tips_queryset : list (nat * Blog.t) :=
  [(1, Blog.mk "Django Tips" (Some 1) "c1" (Some 738886%Z)); (3, Blog.mk "Old tips" (Some 1) "c3" (Some 738874%Z))].

Lemma delete_selected_blogs_witness :
  Admin.get_queryset Admin.BlogAdmin Admin.changelist_db Admin.changelist_today Admin.AnyDate "tips" = Ok tips_queryset ∧
  (∃ db', delete_selected BlogModel Admin.changelist_today Admin.AnyDate "tips" false [1; 2] Admin.changelist_db = Ok db' ∧
     dom (blogs db') = {[2; 3; 4; 5]}) ∧
  ((delete_selected BlogModel Admin.changelist_today Admin.AnyDate "tips" false [1; 2] Admin.changelist_db =
      raise (DbFailure RestrictedError) ∧
    ∃ j c k, comments Admin.changelist_db !! j = Some c ∧ k ∈ tips_queryset.*1 ∧ (false = true ∨ k ∈ [1; 2]) ∧
      Comment.blog c = Some k) ∨
   (delete_selected BlogModel Admin.changelist_today Admin.AnyDate "tips" false [1; 2] Admin.changelist_db =
      Ok (with_blogs Admin.changelist_db (filter (λ kb : nat * Blog.t,
            ¬ (kb.1 ∈ tips_queryset.*1 ∧ (false = true ∨ kb.1 ∈ [1; 2]))) (blogs Admin.changelist_db))) ∧
    ∀ j c k, comments Admin.changelist_db !! j = Some c → k ∈ tips_queryset.*1 → (false = true ∨ k ∈ [1; 2]) →
      Comment.blog c ≠ Some k)).
Proof.
  assert (Hq : Admin.get_queryset Admin.BlogAdmin Admin.changelist_db Admin.changelist_today Admin.AnyDate "tips"
               = Ok tips_queryset) by (vm_compute; reflexivity).
  split_and!; [exact Hq| |exact (delete_selected_blogs _ _ _ _ _ _ _ Hq)].
  eexists. split; [vm_compute; reflexivity|]. vm_compute. reflexivity.
Defined.

(** The change page of blog 1 submitted with [TOTAL_FORMS=2001]. *)
Definition too_many_data : Fields.QueryDict :=
  ("comment_set-TOTAL_FORMS", "2001") :: ("comment_set-INITIAL_FORMS", "0") ::
  filter (λ kv, kv.1 ≠ "comment_set-TOTAL_FORMS" ∧ kv.1 ≠ "comment_set-INITIAL_FORMS") change_blog_data.

Lemma blog_page_too_many_forms_witness :
  IntegerField_clean (Fields.querydict_get too_many_data "comment_set-TOTAL_FORMS") = Ok 2001%Z ∧
  (Z.of_nat CommentInline_absolute_max < 2001)%Z ∧
  ∃ es, run_admin (ChangeBlog 1 too_many_data) fixture_db = Err (FormInvalid es) ∧
    ("comment_set", [Fields.too_many_forms 1000]) ∈ es.
Proof.
  assert (Ht : IntegerField_clean (Fields.querydict_get too_many_data "comment_set-TOTAL_FORMS") = Ok 2001%Z)
    by (vm_compute; reflexivity).
  assert (Hi : IntegerField_clean (Fields.querydict_get too_many_data "comment_set-INITIAL_FORMS") = Ok 0%Z)
    by (vm_compute; reflexivity).
  assert (Hm : (Z.of_nat CommentInline_absolute_max < 2001)%Z) by (vm_compute; reflexivity).
  split_and!; [exact Ht|exact Hm|].
  apply (blog_page_too_many_forms fixture_db too_many_data 2001 0 Ht Hi Hm). vm_compute. by eexists.
Defined.

End AdminEdit.
