(* ===== verification/Site.v ===== *)
(** * Site: the request cycle around the views

    What Django does around [src/blog/views.py] for each request: the
    session middleware loads the session named by the cookie (an unknown
    or absent cookie gives a new, empty session), the authentication
    middleware reads the logged-in user from the session, the resolver
    of [src/blog/urls.py] picks the view, and a session the view modified
    is saved (under a new key, returned as a cookie, when it had none).
    [timezone.now()] is the server's clock, which advances at every
    request.  [served_from init] is the transition system of a running
    site installed on a database satisfying [init]: requests from any
    clients, in any interleaving, the admin's add and delete views
    ([AdminEdit.run_admin]), and logins; [served] starts from a database
    the ORM built.  Every write of a request or an admin view is an ORM
    operation whose values fit their fields ([AdminEdit.op_fits]), so
    any property of the database those operations keep is an invariant
    of the site ([served_preserve]): the database's [wf_db], and, from a
    database where they hold, [AdminEdit.fields_ok] and
    [AdminEdit.no_orphans].  Its liveness property is that every blog
    can still be deleted. *)

From Stdlib Require Import String ZArith.
From stdpp Require Import base list gmap strings.
From S2P Require Import Prelude Calendar Models Forms Paginator Urls Views Admin AdminEdit.

Module Site.

Record Server := mkServer {
  db : Db;
  sessions : gmap nat Views.Session;   (** the session store, by session key *)
  next_session : nat;
  clock : nat
}.

Record HttpRequest := mkHttpRequest {
  h_method : string;
  h_path : string;
  h_query : string;
  h_GET : Fields.QueryDict;
  h_POST : Fields.QueryDict;
  cookie : option nat                  (** the [sessionid] cookie *)
}.

(** [SessionMiddleware.process_request]: the session of the cookie's
    key, or a new empty session without a key. *)
Definition load_session (srv : Server) (c : option nat) : option nat * Views.Session :=
  match c with
  | Some k => match sessions srv !! k with Some s => (Some k, s) | None => (None, ∅) end
  | None => (None, ∅)
  end.

(** [django.contrib.auth.SESSION_KEY]. *)
Definition SESSION_KEY : string := "_auth_user_id".

(** [AuthenticationMiddleware]: [request.user] is the session's user
    if that user still exists, else [AnonymousUser]. *)
Definition get_user (d : Db) (s : Views.Session) : option nat :=
  match s !! SESSION_KEY with
  | Some uid => match users d !! uid with Some _ => Some uid | None => None end
  | None => None
  end.

(** [SessionMiddleware.process_response] for a modified session. *)
Definition save_session (srv : Server) (key : option nat) (s : Views.Session) : Server * option nat :=
  match key with
  | Some k => (mkServer (db srv) (<[k := s]> (sessions srv)) (next_session srv) (clock srv), Some k)
  | None =>
      let k := next_session srv in
      (mkServer (db srv) (<[k := s]> (sessions srv)) (S k) (clock srv), Some k)
  end.

Definition with_db (srv : Server) (d : Db) : Server :=
  mkServer d (sessions srv) (next_session srv) (clock srv).

(** One request, start to finish: the new server state, the response
    and the cookie sent back. *)
Definition handle (srv0 : Server) (req : HttpRequest) : Server * Views.Response * option nat :=
  let srv := mkServer (db srv0) (sessions srv0) (next_session srv0) (S (clock srv0)) in
  let '(key, s) := load_session srv (cookie req) in
  let d := db srv in
  let r := Views.mkRequest (h_method req) (h_path req) (h_query req) (h_GET req) (h_POST req)
                           (get_user d s) s in
  match Urls.resolve (h_path req) with
  | Some (Urls.index, None) =>
      let '(resp, s') := Views.index d r in
      let '(srv', key') := save_session srv key s' in (srv', resp, key')
  | Some (Urls.AuthorListView, None) => (srv, Views.AuthorListView d r, key)
  | Some (Urls.AuthorDetailView, Some pk) => (srv, Views.AuthorDetailView d pk, key)
  | Some (Urls.BlogListByAuthorView, Some pk) => (srv, Views.BlogListByAuthorView d r pk, key)
  | Some (Urls.BlogListView, None) => (srv, Views.BlogListView d r, key)
  | Some (Urls.BlogDetailView, Some pk) => (srv, Views.BlogDetailView d pk, key)
  | Some (Urls.create_comment, Some pk) =>
      let '(resp, d') := Views.create_comment d r (Z.of_nat (clock srv0)) pk in (with_db srv d', resp, key)
  | _ => (srv, Views.NotFound, key)
  end.

(** [django.contrib.auth.login(request, user)] on an existing session. *)
Definition login (srv : Server) (k uid : nat) : Server :=
  match sessions srv !! k with
  | Some s => mkServer (db srv) (<[k := <[SESSION_KEY := uid]> s]> (sessions srv))
                       (next_session srv) (clock srv)
  | None => srv
  end.

(** The site installed on a database satisfying [init], then any
    requests, admin writes ([AdminEdit.run_admin]) and logins. *)
Inductive served_from (init : Db → Prop) : Server → Prop :=
| served_init d : init d → served_from init (mkServer d ∅ 1 0)
| served_request srv req : served_from init srv → served_from init (handle srv req).1.1
| served_admin srv act d' : served_from init srv → AdminEdit.run_admin act (db srv) = Ok d' →
                            served_from init (with_db srv d')
| served_login srv k uid : served_from init srv → served_from init (login srv k uid).

(** A site whose database was built by the ORM from the empty one. *)
Definition served : Server → Prop := served_from reachable.

(** ** Properties *)

Lemma save_session_db srv key s : db (save_session srv key s).1 = db srv.
Proof. by destruct key. Qed.

(** A request changes the database only through [create_comment]. *)
Lemma handle_db srv req :
  db (handle srv req).1.1 = db srv ∨
  ∃ r pk, db (handle srv req).1.1 = (Views.create_comment (db srv) r (Z.of_nat (clock srv)) pk).2.
Proof.
  unfold handle. destruct (load_session _ _) as [key s].
  destruct (Urls.resolve _) as [[[] [pk|]]|]; simpl; try by left.
  - left. destruct (save_session _ _ _) eqn:E. simpl.
    pose proof (save_session_db (mkServer (db srv) (sessions srv) (next_session srv) (S (clock srv))) key
                 (<["num_visits" := default 0 (s !! "num_visits") + 1]> s)) as Hd.
    by rewrite E in Hd.
  - right. destruct (Views.create_comment _ _ _ _) as [resp d'] eqn:E. eexists _, pk. by rewrite E.
Qed.

(** What a request writes is one ORM operation of fitting values:
    [create_comment]'s insert of the validated comment. *)
Lemma handle_op srv req :
  db (handle srv req).1.1 = db srv ∨
  ∃ op, AdminEdit.op_fits op ∧ run_op op (db srv) = Ok (db (handle srv req).1.1).
Proof.
  destruct (handle_db srv req) as [->|(r & pk & ->)]; [by left|].
  destruct (Views.create_comment_db (db srv) r (Z.of_nat (clock srv)) pk)
    as [->|(uid & content & k & d' & Hc & Hrow & ->)]; [by left|].
  right. exists (CreateComment (Comment.mk (Some pk) content (Some (Z.of_nat (clock srv))) (Some uid))).
  split; [|by simpl; rewrite Hrow].
  split; [by eapply Fields.clean_Ok_length|done].
Qed.

(** Any property of the database that the fitting ORM writes keep holds
    in every state of a site installed where it holds. *)
Lemma served_preserve (P init : Db → Prop) srv :
  (∀ d, init d → P d) →
  (∀ op d d', AdminEdit.op_fits op → P d → run_op op d = Ok d' → P d') →
  served_from init srv → P (db srv).
Proof.
  intros Hinit Hop. induction 1 as [d Hd|srv req _ IH|srv act d' _ IH Hact|srv k uid _ IH].
  - by apply Hinit.
  - destruct (handle_op srv req) as [->|(op & Hf & Hr)]; [done|]. by eapply Hop.
  - apply AdminEdit.run_admin_ops in Hact as (ops & Hr & Hops). revert Hr. apply run_ops_preserve; [|done].
    intros op d d'' Hin. apply Hop. by eapply Forall_forall.
  - unfold login. by destruct (sessions srv !! k).
Qed.

Lemma served_db_wf init srv :
  (∀ d, init d → wf_db d) → served_from init srv → wf_db (db srv).
Proof. intros Hinit. apply served_preserve; [done|]. intros op d d' _. apply run_op_wf. Qed.

(** C5: in every state of a running site, whatever requests, admin
    writes and logins led there and in whatever order, the database is
    well formed. *)
Theorem served_wf srv : served srv → wf_db (db srv).
Proof. apply served_db_wf, wf_of_reachable. Qed.

(** C35: if the site was installed on a database whose values fit their
    model fields, every value stored afterwards fits too: titles,
    contents and biographies within their [max_length] and every
    [post_date] a date, whatever requests, admin writes and logins
    came in between. *)
Theorem served_fields_ok srv :
  served_from (λ d, reachable d ∧ AdminEdit.fields_ok d) srv → AdminEdit.fields_ok (db srv).
Proof.
  apply served_preserve; [by intros d [_ ?]|]. intros op d d' Hf Hd. by apply AdminEdit.run_op_fields.
Qed.

(** C23: if the site was installed on a database where every comment has
    a blog, then in every later state [str()] of every comment succeeds
    (the admin's change list and delete pages show it): the comment
    form, the admin's comment forms and its inline all require the
    blog, and a blog with comments cannot be deleted. *)
Theorem served_comment_str srv k c :
  served_from (λ d, reachable d ∧ AdminEdit.no_orphans d) srv →
  comments (db srv) !! k = Some c → is_ok (comment_str (db srv) k c) = true.
Proof.
  intros Hs Hk. apply (comment_str_Ok _ k); [|done|].
  - revert Hs. apply served_db_wf. intros d [Hr _]. by apply wf_of_reachable.
  - assert (Ho : AdminEdit.no_orphans (db srv)).
    { revert Hs. apply served_preserve; [by intros d [_ ?]|].
      intros op d d' Hf Hd. by apply AdminEdit.run_op_no_orphans. }
    exact (Ho k c Hk).
Qed.

(** Deleting, through the Comment admin, the comments [ks] (all of them
    present, each on a blog that exists, so that [delete_view] can show
    it) one after the other. *)
Lemma delete_comments_served init srv ks :
  served_from init srv → NoDup ks →
  (∀ j, j ∈ ks → ∃ c b, comments (db srv) !! j = Some c ∧ Comment.blog c = Some b ∧ is_Some (blogs (db srv) !! b)) →
  ∃ srv', served_from init srv' ∧ blogs (db srv') = blogs (db srv) ∧
    sessions srv' = sessions srv ∧
    ∀ j, comments (db srv') !! j = if decide (j ∈ ks) then None else comments (db srv) !! j.
Proof.
  revert srv. induction ks as [|j ks IH]; intros srv Hs Hnd Hks.
  { exists srv. split_and!; [done..|]. intros j. by rewrite decide_False by set_solver. }
  apply NoDup_cons in Hnd as [Hj Hnd].
  destruct (Hks j ltac:(set_solver)) as (c & b & Hc & Hcb & [bb Hbb]).
  assert (Hrun : AdminEdit.run_admin (AdminEdit.DeleteComment j) (db srv) =
                 Ok (mkDb (users (db srv)) (authors (db srv)) (blogs (db srv)) (delete j (comments (db srv)))
                          (next_user (db srv)) (next_author (db srv)) (next_blog (db srv)) (next_comment (db srv)))).
  { simpl. unfold AdminEdit.get_object, comment_str, delete_comment. rewrite Hc. simpl. rewrite Hcb. simpl. rewrite Hbb. simpl. rewrite ?Hc. done. }
  pose proof (served_admin _ _ _ _ Hs Hrun) as Hs1.
  destruct (IH _ Hs1 Hnd) as (srv' & Hs' & Hb & Hss & Hcs).
  { intros j' Hj'. simpl. rewrite lookup_delete_ne by (intros ->; done). apply Hks. set_solver. }
  exists srv'. split_and!; [done|done|done|]. intros x. rewrite Hcs. simpl.
  destruct (decide (x = j)) as [->|Hx].
  - rewrite lookup_delete_eq. repeat case_decide; done || set_solver.
  - rewrite lookup_delete_ne by done. repeat case_decide; done || set_solver.
Qed.

(** C36: in every state of a running site, any blog can be deleted
    through the admin: its comments, which [on_delete=RESTRICT]
    protects it with, are deleted one by one through the Comment admin,
    and then the blog's delete goes through.  The sessions are kept. *)
Theorem blog_always_deletable srv k b :
  served srv → blogs (db srv) !! k = Some b →
  ∃ srv', served srv' ∧ blogs (db srv') = delete k (blogs (db srv)) ∧ sessions srv' = sessions srv.
Proof.
  intros Hs Hk.
  destruct (delete_comments_served _ srv (comment_set (db srv) k).*1 Hs (comment_set_NoDup _ _))
    as (srv1 & Hs1 & Hb1 & Hss1 & Hc1).
  { intros j ([? c] & -> & Hin)%list_elem_of_fmap. apply elem_of_comment_set in Hin as [Hc Hcb].
    exists c, k. by rewrite Hk. }
  assert (Hrun : ∃ d', AdminEdit.run_admin (AdminEdit.DeleteBlog k) (db srv1) = Ok d' ∧
                       blogs d' = delete k (blogs (db srv))).
  { simpl. unfold delete_blog. rewrite Hb1, Hk, bool_decide_true; [by eexists|].
    intros j c Hj Hbl. rewrite Hc1 in Hj. case_decide as Hin; [done|]. apply Hin.
    apply list_elem_of_fmap. exists (j, c). split; [done|]. by apply elem_of_comment_set. }
  destruct Hrun as (d' & Hrun & Hd').
  exists (with_db srv1 d'). split_and!; [by eapply served_admin|done|done].
Qed.

(** A client that requests [/blog/] [n] times, sending back the cookie
    it was given: the visit counters it is shown. *)
Definition home (c : option nat) : HttpRequest := mkHttpRequest "GET" "/blog/" EmptyString [] [] c.

Fixpoint visit_counts (srv : Server) (c : option nat) (n : nat) : list nat :=
  match n with
  | 0 => []
  | S n' =>
      let '(srv', resp, c') := handle srv (home c) in
      match resp with
      | Views.Render _ (Views.IndexContext _ _ v) => v :: visit_counts srv' c' n'
      | _ => visit_counts srv' c' n'
      end
  end.

Lemma visit_counts_session srv k s m n :
  sessions srv !! k = Some s → s !! "num_visits" = Some m →
  visit_counts srv (Some k) n = seq m n.
Proof.
  revert srv s m. induction n as [|n IH]; intros srv s m Hk Hm; [done|].
  simpl. unfold handle, load_session. simpl. rewrite Hk. simpl.
  unfold Views.index. simpl. rewrite Hm. simpl. f_equal.
  apply (IH _ (<["num_visits" := m + 1]> s)); simpl.
  - apply lookup_insert_eq.
  - rewrite lookup_insert_eq. f_equal. lia.
Qed.

(** C20: a new client's successive visits to the home page are shown
    the counters 0, 1, 2, ...: the counter starts at 0 in a new session
    and every visit adds one. *)
Theorem fresh_client_visits srv n : visit_counts srv None n = seq 0 n.
Proof.
  destruct n as [|n]; [done|].
  simpl. unfold handle, load_session. simpl. unfold Views.index. simpl. f_equal.
  apply (visit_counts_session _ _ (<["num_visits" := 1]> ∅)); simpl.
  - apply lookup_insert_eq.
  - apply lookup_insert_eq.
Qed.
(** ** The fixtures of [src/blog/tests/test_views.py] (the tests are in [Tests]) *)

Definition fixture_db_of (ops : list orm_op) : Db :=
  match run_ops ops empty_db with Ok d => d | Err _ => empty_db end.

Definition fixture_server (ops : list orm_op) : Server := mkServer (fixture_db_of ops) ∅ 1 0.

Definition get (p q : string) (g : Fields.QueryDict) (c : option nat) : HttpRequest :=
  mkHttpRequest "GET" p q g [] c.

(** [CommentFormViewTest.setUpTestData]: two users with an author each,
    and one post by the first, dated [timezone.now()]: the date
    2024-01-01, ordinal 738886. *)
Definition CommentFormViewTest_setUpTestData : list orm_op := [
  CreateUser (User.mk "testuser1"); CreateUser (User.mk "testuser2");
  CreateAuthor (Author.mk (Some 1) "My biography."); CreateAuthor (Author.mk (Some 2) "My biography.");
  CreateBlog (Blog.mk "title" (Some 1) "blog content" (Some 738886%Z))
].

(** The [CommentFormViewTest] site after [testuser2] logged in: a first
    request opens session 1, then [login] stores the user in it. *)
Definition logged_in_server : Server :=
  login (handle (fixture_server CommentFormViewTest_setUpTestData) (get "/blog/" EmptyString [] None)).1.1 1 2.

Lemma fixture_server_served ops :
  is_ok (run_ops ops empty_db) = true → served (fixture_server ops).
Proof.
  unfold fixture_server, fixture_db_of. destruct (run_ops ops empty_db) as [d|] eqn:E; [|discriminate].
  intros _. constructor. by apply (reachable_run_ops ops empty_db); [constructor|].
Qed.

Lemma served_wf_witness : served logged_in_server ∧ wf_db (db logged_in_server).
Proof.
  assert (Hs : served logged_in_server).
  { unfold served, logged_in_server. apply served_login, served_request.
    apply fixture_server_served. vm_compute. reflexivity. }
  split; [exact Hs|exact (served_wf _ Hs)].
Defined.
#[local] Existing Instances Admin.post_date_ok_dec AdminEdit.blog_fits_dec.

(** The [CommentFormViewTest] site after [testuser2] posted a comment. *)
Definition commented_server : Server :=
  (handle logged_in_server
     (mkHttpRequest "POST" "/blog/blogs/1/create" EmptyString [] [("content", "Nice post")] (Some 1))).1.1.

Lemma commented_server_served (P : Db → Prop) :
  P (fixture_db_of CommentFormViewTest_setUpTestData) →
  served_from (λ d, reachable d ∧ P d) commented_server.
Proof.
  intros HP. apply served_request. unfold logged_in_server. apply served_login, served_request.
  unfold fixture_server. constructor. split; [|done].
  apply (reachable_run_ops CommentFormViewTest_setUpTestData empty_db); [constructor|].
  vm_compute. reflexivity.
Qed.

(** The comment that [testuser2] posts on the [CommentFormViewTest] blog. *)
Lemma served_fields_ok_witness : AdminEdit.fields_ok (db commented_server).
Proof.
  apply served_fields_ok, commented_server_served.
  constructor; apply (bool_decide_unpack _); vm_compute; reflexivity.
Defined.

(** That comment, saved at the request's [timezone.now()], has a [str()]. *)
Lemma served_comment_str_witness :
  is_ok (comment_str (db commented_server) 1 (Comment.mk (Some 1) "Nice post" (Some 1%Z) (Some 2))) = true.
Proof.
  apply served_comment_str.
  - apply commented_server_served. unfold AdminEdit.no_orphans. apply (bool_decide_unpack _).
    vm_compute. reflexivity.
  - vm_compute. reflexivity.
Defined.

(** The [CommentModelTest] blog, which has a comment. *)
Lemma blog_always_deletable_witness :
  ∃ srv', served srv' ∧ blogs (db srv') = delete 1 (blogs fixture_db) ∧ sessions srv' = ∅.
Proof.
  apply (blog_always_deletable (mkServer fixture_db ∅ 1 0) 1 fixture_blog).
  - unfold served. constructor. apply fixture_db_reachable.
  - vm_compute. reflexivity.
Defined.
End Site.
