(* ===== verification/Tests.v ===== *)
(** * Tests: the test suite of [src/blog/tests/] run on the model

    Each test method of [test_models.py], [test_forms.py] and
    [test_views.py] is one lemma, whose statement is the test's
    assertions on the model and whose proof runs the model at the
    test's fixture ([setUpTestData]) by [vm_compute].  A response
    status 200 is a [Views.Render], [assertTemplateUsed] its template,
    [response.context] its context; [self.client.get] is one
    [Site.handle] on a server installed on the fixture. *)

From Stdlib Require Import Ascii String ZArith.
From stdpp Require Import base list gmap strings.
From S2P Require Import Prelude Calendar Models Forms Paginator Urls Views Admin AdminEdit Site.

Module Tests.

(** ** [test_models.py] *)

(** [AuthorModelTest.setUpTestData] and [BlogModelTest.setUpTestData]:
    the first operations of [CommentModelTest]'s. *)
Definition AuthorModelTest_setUpTestData : list orm_op :=
  [CreateUser (User.mk "test_user"); CreateAuthor (Author.mk (Some 1) "My biography.")].

Definition BlogModelTest_setUpTestData : list orm_op :=
  AuthorModelTest_setUpTestData ++ [CreateBlog (Blog.mk "My blog post" (Some 1) "This is a post." None)].

(** A text of [n] characters. *)
Definition text (n : nat) : string := String.string_of_list_ascii (replicate n "a"%char).

(** [form.errors[name]]. *)
Definition errors_of_field {A} (name : string) (r : result AdminEdit.FormErrors A) : option (list Fields.error) :=
  match r with Ok _ => None | Err es => snd <$> head (filter (λ p, p.1 = name) es) end.

Lemma AuthorModelTest_test_biography_max_length :
  AdminEdit.biography_max_length = 1000 ∧
  errors_of_field "biography"
    (AdminEdit.AuthorForm_clean (Site.fixture_db_of AuthorModelTest_setUpTestData) None
       [("name", "1"); ("biography", text 1001)]) =
    Some [Fields.max_length_error 1000 1001].
Proof. split; vm_compute; reflexivity. Qed.

Lemma AuthorModelTest_test_object_name_is_author_name :
  ∃ a u, authors (Site.fixture_db_of AuthorModelTest_setUpTestData) !! 1 = Some a ∧
         users (Site.fixture_db_of AuthorModelTest_setUpTestData) !! 1 = Some u ∧
         author_str (Site.fixture_db_of AuthorModelTest_setUpTestData) a = User.username u.
Proof. do 2 eexists; split_and!; vm_compute; reflexivity. Qed.

Lemma AuthorModelTest_test_get_absolute_url : Urls.author_get_absolute_url 1 = Some "/blog/bloggers/1".
Proof. vm_compute. reflexivity. Qed.

Lemma BlogModelTest_test_title_max_length :
  AdminEdit.title_max_length = 200 ∧
  errors_of_field "title"
    (AdminEdit.BlogForm_clean (Site.fixture_db_of BlogModelTest_setUpTestData)
       [("title", text 201); ("author", "1"); ("content", "c"); ("post_date", "2024-01-01")]) =
    Some [Fields.max_length_error 200 201].
Proof. split; vm_compute; reflexivity. Qed.

Lemma BlogModelTest_test_content_max_length :
  AdminEdit.blog_content_max_length = 5000 ∧
  errors_of_field "content"
    (AdminEdit.BlogForm_clean (Site.fixture_db_of BlogModelTest_setUpTestData)
       [("title", "t"); ("author", "1"); ("content", text 5001); ("post_date", "2024-01-01")]) =
    Some [Fields.max_length_error 5000 5001].
Proof. split; vm_compute; reflexivity. Qed.

Lemma BlogModelTest_test_object_name_is_title :
  ∃ b, blogs (Site.fixture_db_of BlogModelTest_setUpTestData) !! 1 = Some b ∧ blog_str b = Blog.title b.
Proof. eexists; split; vm_compute; reflexivity. Qed.

Lemma BlogModelTest_test_get_absolute_url : Urls.blog_get_absolute_url 1 = Some "/blog/blogs/1".
Proof. vm_compute. reflexivity. Qed.

Lemma CommentModelTest_test_comment_max_length :
  CommentForm.max_length = 200 ∧
  Fields.clean CommentForm.max_length (Some (text 201)) = raise [Fields.max_length_error 200 201].
Proof. split; vm_compute; reflexivity. Qed.

(** ** [test_forms.py] *)

Lemma CommentFormTest_test_comment_form_label : CommentForm.label = "Comment".
Proof. reflexivity. Qed.

Lemma CommentFormTest_test_comment_form_help_text : CommentForm.help_text = "Enter a comment".
Proof. reflexivity. Qed.

Lemma CommentFormTest_test_comment_form_max_length : CommentForm.max_length = 200.
Proof. reflexivity. Qed.

(** ** [test_views.py] *)

(** [self.client.get(reverse(name) + query)]. *)
Definition get_by_name (srv : Site.Server) (name query : string) (g : Fields.QueryDict) : option Views.Response :=
  (λ p, (Site.handle srv (Site.get p query g None)).1.2) <$> Urls.reverse name None.

Definition template_used (r : Views.Response) : option string :=
  match r with Views.Render t _ => Some t | _ => None end.

Definition blog_list_server : Site.Server := Site.fixture_server Views.BlogPostListViewTest_setUpTestData.

(** [test_view_url_exists_at_desired_location],
    [test_view_url_accessible_by_name] and
    [test_view_uses_correct_template]: status 200 and
    [blog/blog_list.html], by path and by name. *)
Lemma BlogPostListViewTest_test_view_url :
  template_used (Site.handle blog_list_server (Site.get "/blog/blogs/" EmptyString [] None)).1.2 =
    Some "blog/blog_list.html" ∧
  template_used <$> get_by_name blog_list_server "blogs" EmptyString [] = Some (Some "blog/blog_list.html").
Proof. split; vm_compute; reflexivity. Qed.

(** [test_pagination_is_five] and [test_lists_all_authors]: with eight
    posts, the list shows five and [?page=2] the other three, both
    paginated. *)
Lemma BlogPostListViewTest_pagination :
  (∃ ctx, get_by_name blog_list_server "blogs" EmptyString [] =
            Some (Views.Render "blog/blog_list.html" (Views.BlogListContext ctx)) ∧
          length (Paginator.ctx_object_list ctx) = 5 ∧ Paginator.is_paginated ctx = true) ∧
  (∃ ctx, get_by_name blog_list_server "blogs" "page=2" [("page", "2")] =
            Some (Views.Render "blog/blog_list.html" (Views.BlogListContext ctx)) ∧
          length (Paginator.ctx_object_list ctx) = 3 ∧ Paginator.is_paginated ctx = true).
Proof. split; eexists; split_and!; vm_compute; reflexivity. Qed.

(** [AuthorListViewTest.setUpTestData]: thirteen users, each with an author. *)
Definition AuthorListViewTest_setUpTestData : list orm_op :=
  mjoin (map (λ i, [CreateUser (User.mk ("test_user " +:+ Py.str i));
                    CreateAuthor (Author.mk (Some (S i)) ("Biography #" +:+ Py.str i))]) (seq 0 13)).

Definition author_list_server : Site.Server := Site.fixture_server AuthorListViewTest_setUpTestData.

Lemma AuthorListViewTest_test_view_url :
  template_used (Site.handle author_list_server (Site.get "/blog/bloggers/" EmptyString [] None)).1.2 =
    Some "blog/author_list.html" ∧
  template_used <$> get_by_name author_list_server "authors" EmptyString [] = Some (Some "blog/author_list.html").
Proof. split; vm_compute; reflexivity. Qed.

(** [test_pagination_is_off] and [test_lists_all_authors]: all thirteen
    authors, unpaginated. *)
Lemma AuthorListViewTest_all :
  ∃ ctx, get_by_name author_list_server "authors" EmptyString [] =
           Some (Views.Render "blog/author_list.html" (Views.AuthorListContext ctx)) ∧
         length (Paginator.ctx_object_list ctx) = 13 ∧ Paginator.is_paginated ctx = false.
Proof. eexists; split_and!; vm_compute; reflexivity. Qed.

(** [CommentFormViewTest]: [test_redirect_if_not_logged_in], and
    [test_logged_in_uses_correct_template] from the session of
    [testuser2] (session 1, after [Site.login]): the request's user is
    [testuser2] and the empty comment form is rendered. *)
Lemma CommentFormViewTest_test_redirect_if_not_logged_in :
  (Site.handle (Site.fixture_server Site.CommentFormViewTest_setUpTestData)
          (Site.get "/blog/blogs/1/create" EmptyString [] None)).1.2 =
    Views.Redirect "/accounts/login/?next=/blog/blogs/1/create".
Proof. vm_compute. reflexivity. Qed.

Lemma CommentFormViewTest_test_logged_in_uses_correct_template :
  (∃ s uid u, Site.sessions Site.logged_in_server !! 1 = Some s ∧
     Site.get_user (Site.db Site.logged_in_server) s = Some uid ∧
     users (Site.db Site.logged_in_server) !! uid = Some u ∧ User.username u = "testuser2") ∧
  ∃ b, (Site.handle Site.logged_in_server (Site.get "/blog/blogs/1/create" EmptyString [] (Some 1))).1.2 =
         Views.Render "blog/create_comment.html" (Views.CreateCommentContext Views.Unbound (1, b)).
Proof. split; [do 3 eexists; split_and!|eexists]; vm_compute; reflexivity. Qed.

End Tests.
